(** * insert_tableau_csv: a shallow embedding of scripts/insert_tableau_csv.py

    The script splices a CSV file into a Tableau workbook (an XML document)
    as a textscan data source and links it to every worksheet.

    Conventions of the embedding.
    - A Python [str] is a [string]; its characters are the code points
      0..255 (the Latin-1 range).  In that range [\d] is exactly [0-9] and
      [str.strip] removes the characters listed in [is_space].  Two
      characters of the range, U+00B5 and U+00FF, have their upper-case
      forms outside it: what is stated about an upper-cased string is
      stated for strings without them ([Str.upper_stays]).
    - [os.path] is [posixpath] and [os.sep] is ["/"]: the script's
      [/mnt/<drive>/] branch only makes sense there (WSL).
    - An [xml.etree.ElementTree.Element] is a tag, an ordered attribute
      dictionary and an ordered list of children; in-place mutation becomes
      explicit state passing of the tree.
    - Exceptions are values of [exn]; a fallible step returns [result]. *)

From Stdlib Require Import Ascii DecimalString.
From stdpp Require Import base option list strings gmap.

Local Open Scope stdpp_scope.

(** ** Characters and strings *)

Module Str.

Definition ascii_eqb (a b : ascii) : bool := Ascii.eqb a b.

Definition code (c : ascii) : nat := nat_of_ascii c.

Definition between (lo hi : nat) (c : ascii) : bool :=
  (lo <=? code c) && (code c <=? hi).

(** [\d] on code points below 256. *)
Definition is_digit (c : ascii) : bool := between 48 57 c.

(** [str.isspace] on code points below 256:
    U+0009..U+000D, U+001C..U+0020, U+0085, U+00A0. *)
Definition is_space (c : ascii) : bool :=
  between 9 13 c || between 28 32 c || (code c =? 133) || (code c =? 160).

(** [str.lower], character by character: in the Latin-1 range every
    lower-case form is one character of the range. *)
Definition lower_char (c : ascii) : ascii :=
  if between 65 90 c then ascii_of_nat (code c + 32)
  else if between 192 222 c && negb (code c =? 215) then ascii_of_nat (code c + 32)
  else c.

Fixpoint map (f : ascii -> ascii) (s : string) : string :=
  match s with
  | EmptyString => EmptyString
  | String c s' => String (f c) (map f s')
  end.

Definition lower : string -> string := map lower_char.

(** [str.upper].  The upper-case form of a character is a string: U+00DF
    (sharp s) becomes the two letters SS.  Two characters of the range have
    their upper-case forms outside it, U+00B5 (U+039C) and U+00FF (U+0178);
    no string of the model is the upper-case form of a string that holds
    one of them, and [upper_stays] tells the strings without them, on which
    [upper] is [str.upper]. *)
Definition upper_char (c : ascii) : string :=
  if between 97 122 c then String (ascii_of_nat (code c - 32)) EmptyString
  else if between 224 254 c && negb (code c =? 247)
  then String (ascii_of_nat (code c - 32)) EmptyString
  else if code c =? 223 then String (ascii_of_nat 83) (String (ascii_of_nat 83) EmptyString)
  else String c EmptyString.

Fixpoint upper (s : string) : string :=
  match s with
  | EmptyString => EmptyString
  | String c s' => String.append (upper_char c) (upper s')
  end.

Definition upper_stays_char (c : ascii) : bool :=
  negb (code c =? 181) && negb (code c =? 255).

Fixpoint upper_stays (s : string) : bool :=
  match s with
  | EmptyString => true
  | String c s' => upper_stays_char c && upper_stays s'
  end.

(** [s.replace(a, b)] for one-character [a] and [b]. *)
Definition replace (a b : ascii) : string -> string :=
  map (fun c => if ascii_eqb c a then b else c).

Definition rev (s : string) : string :=
  String.string_of_list_ascii (List.rev (String.list_ascii_of_string s)).

Fixpoint lstrip_by (p : ascii -> bool) (s : string) : string :=
  match s with
  | EmptyString => EmptyString
  | String c s' => if p c then lstrip_by p s' else s
  end.

Definition rstrip_by (p : ascii -> bool) (s : string) : string :=
  rev (lstrip_by p (rev s)).

(** [s.strip()] *)
Definition strip (s : string) : string := rstrip_by is_space (lstrip_by is_space s).

(** [s.rstrip(c)] *)
Definition rstrip_char (c : ascii) : string -> string := rstrip_by (fun d => ascii_eqb d c).

(** [s.startswith(p)] *)
Definition startswith (p s : string) : bool := String.prefix p s.

Definition last_char (s : string) : option ascii :=
  match String.list_ascii_of_string (rev s) with
  | [] => None
  | c :: _ => Some c
  end.

(** [s.endswith(c)] for a one-character [c]. *)
Definition endswith_char (c : ascii) (s : string) : bool :=
  match last_char s with
  | Some d => ascii_eqb d c
  | None => false
  end.

Definition is_empty (s : string) : bool :=
  match s with EmptyString => true | _ => false end.

(** All characters of [s] satisfy [p]. *)
Fixpoint all (p : ascii -> bool) (s : string) : bool :=
  match s with
  | EmptyString => true
  | String c s' => p c && all p s'
  end.

Fixpoint take (n : nat) (s : string) : string :=
  match n, s with
  | S n', String c s' => String c (take n' s')
  | _, _ => EmptyString
  end.

(** [s.split(sep)] for a one-character separator: never returns []. *)
Fixpoint split (sep : ascii) (s : string) : list string :=
  match s with
  | EmptyString => [EmptyString]
  | String c s' =>
      if ascii_eqb c sep then EmptyString :: split sep s'
      else match split sep s' with
           | [] => [String c EmptyString]
           | w :: ws => String c w :: ws
           end
  end.

(** [sep.join(parts)] *)
Fixpoint join (sep : string) (parts : list string) : string :=
  match parts with
  | [] => EmptyString
  | [p] => p
  | p :: ps => p +:+ sep +:+ join sep ps
  end.

(** [s.rpartition(sep)] without the separator: [Some (s[:i], s[i+1:])]
    with [i = s.rfind(sep)], [None] when [sep] does not occur. *)
Fixpoint rpartition (sep : ascii) (s : string) : option (string * string) :=
  match s with
  | EmptyString => None
  | String c s' =>
      match rpartition sep s' with
      | Some (h, t) => Some (String c h, t)
      | None => if ascii_eqb c sep then Some (EmptyString, s') else None
      end
  end.

Fixpoint repeat (c : ascii) (n : nat) : string :=
  match n with
  | 0 => EmptyString
  | S n' => String c (repeat c n')
  end.

(** [str(n)] for a non-negative integer. *)
Definition of_nat (n : nat) : string := NilEmpty.string_of_uint (Nat.to_uint n).

End Str.

(** ** Regular expressions, as far as the script uses [re.fullmatch] *)

Module Re.

Inductive regex : Type :=
| Void
| Eps
| Class (p : ascii -> bool)
| Cat (r1 r2 : regex)
| Alt (r1 r2 : regex)
| Star (r : regex).

Definition Opt (r : regex) : regex := Alt r Eps.
Definition Plus (r : regex) : regex := Cat r (Star r).
Definition OneOf (cs : string) : regex :=
  Class (fun c => existsb (Str.ascii_eqb c) (String.list_ascii_of_string cs)).

Fixpoint nullable (r : regex) : bool :=
  match r with
  | Void => false
  | Eps => true
  | Class _ => false
  | Cat r1 r2 => nullable r1 && nullable r2
  | Alt r1 r2 => nullable r1 || nullable r2
  | Star _ => true
  end.

Fixpoint deriv (c : ascii) (r : regex) : regex :=
  match r with
  | Void => Void
  | Eps => Void
  | Class p => if p c then Eps else Void
  | Cat r1 r2 =>
      if nullable r1 then Alt (Cat (deriv c r1) r2) (deriv c r2)
      else Cat (deriv c r1) r2
  | Alt r1 r2 => Alt (deriv c r1) (deriv c r2)
  | Star r1 => Cat (deriv c r1) (Star r1)
  end.

(** [bool(re.fullmatch(r, s))] *)
Fixpoint fullmatch (r : regex) (s : string) : bool :=
  match s with
  | EmptyString => nullable r
  | String c s' => fullmatch (deriv c r) s'
  end.

(** The words of a regular expression, to state what [fullmatch] decides. *)
Inductive lang : regex -> string -> Prop :=
| lang_eps : lang Eps EmptyString
| lang_class p c : p c = true -> lang (Class p) (String c EmptyString)
| lang_cat r1 r2 s1 s2 : lang r1 s1 -> lang r2 s2 -> lang (Cat r1 r2) (s1 +:+ s2)
| lang_alt_l r1 r2 s : lang r1 s -> lang (Alt r1 r2) s
| lang_alt_r r1 r2 s : lang r2 s -> lang (Alt r1 r2) s
| lang_star_nil r : lang (Star r) EmptyString
| lang_star_cons r s1 s2 : lang r s1 -> lang (Star r) s2 -> lang (Star r) (s1 +:+ s2).

End Re.

(** ** guess_type *)

Definition digit : Re.regex := Re.Class Str.is_digit.
Definition sign : Re.regex := Re.OneOf "+-".

(** [[+-]?\d+] *)
Definition int_pattern : Re.regex := Re.Cat (Re.Opt sign) (Re.Plus digit).

(** [[+-]?(?:\d+\.\d*|\d*\.\d+|\d+)(?:[eE][+-]?\d+)?] *)
Definition real_pattern : Re.regex :=
  Re.Cat (Re.Opt sign)
    (Re.Cat
       (Re.Alt (Re.Cat (Re.Plus digit) (Re.Cat (Re.OneOf ".") (Re.Star digit)))
          (Re.Alt (Re.Cat (Re.Star digit) (Re.Cat (Re.OneOf ".") (Re.Plus digit)))
             (Re.Plus digit)))
       (Re.Opt (Re.Cat (Re.OneOf "eE") (Re.Cat (Re.Opt sign) (Re.Plus digit))))).

Definition is_int (s : string) : bool := Re.fullmatch int_pattern s.
Definition is_real (s : string) : bool := Re.fullmatch real_pattern s.

(** [[s for s in samples if s not in ("", None)]]: the sampler only ever
    passes strings, so the test is on emptiness. *)
Definition only_non_empty (samples : list string) : list string :=
  List.filter (fun s => negb (Str.is_empty s)) samples.

Definition guess_type (samples : list string) : string :=
  match only_non_empty samples with
  | [] => "string"
  | ne =>
      if forallb is_int ne then "integer"
      else if forallb is_real ne then "real"
      else "string"
  end.

(** ** os.path (posixpath) *)

Module OsPath.

Definition sep : ascii := "/"%char.
Definition extsep : ascii := "."%char.

Definition isabs (p : string) : bool := Str.startswith "/" p.

(** One round of the loop of [posixpath.join]. *)
Definition join2 (path b : string) : string :=
  if Str.startswith "/" b then b
  else if Str.is_empty path || Str.endswith_char sep path then path +:+ b
  else path +:+ "/" +:+ b.

(** [os.path.join(a, *ps)] *)
Definition join (a : string) (ps : list string) : string := fold_left join2 ps a.

Definition initial_slashes (path : string) : nat :=
  if Str.startswith "/" path then
    if Str.startswith "//" path && negb (Str.startswith "///" path) then 2 else 1
  else 0.

Definition last_is_dotdot (comps : list string) : bool :=
  match last comps with
  | Some c => String.eqb c ".."
  | None => false
  end.

Definition is_nil {A} (l : list A) : bool :=
  match l with [] => true | _ => false end.

(** One round of the component loop of [posixpath.normpath]. *)
Definition norm_step (initial : nat) (new_comps : list string) (comp : string)
  : list string :=
  if String.eqb comp "" || String.eqb comp "." then new_comps
  else if negb (String.eqb comp "..")
          || ((initial =? 0) && is_nil new_comps)
          || (negb (is_nil new_comps) && last_is_dotdot new_comps)
       then new_comps ++ [comp]
       else removelast new_comps.

Definition normpath (path : string) : string :=
  if Str.is_empty path then "."
  else
    let initial := initial_slashes path in
    let comps := fold_left (norm_step initial) (Str.split sep path) [] in
    let p := Str.repeat sep initial +:+ Str.join "/" comps in
    if Str.is_empty p then "." else p.

(** [os.path.abspath(path)], with [cwd] the result of [os.getcwd()]. *)
Definition abspath (cwd path : string) : string :=
  normpath (if isabs path then path else join cwd [path]).

Fixpoint common_prefix_len (a b : list string) : nat :=
  match a, b with
  | x :: a', y :: b' => if String.eqb x y then S (common_prefix_len a' b') else 0
  | _, _ => 0
  end.

Definition nonempty_parts (p : string) : list string :=
  List.filter (fun x => negb (Str.is_empty x)) (Str.split sep p).

(** [os.path.relpath(path, start)]; [None] is the [ValueError] raised for an
    empty [path]. *)
Definition relpath (cwd path start : string) : option string :=
  if Str.is_empty path then None
  else
    let start_list := nonempty_parts (abspath cwd start) in
    let path_list := nonempty_parts (abspath cwd path) in
    let i := common_prefix_len start_list path_list in
    let rel_list := replicate (length start_list - i) ".." ++ drop i path_list in
    match rel_list with
    | [] => Some "."
    | r :: rs => Some (join r rs)
    end.

(** [os.path.split(p)] *)
Definition split (p : string) : string * string :=
  match Str.rpartition sep p with
  | None => ("", p)
  | Some (h, tail) =>
      let head := h +:+ "/" in
      (if negb (Str.all (Str.ascii_eqb sep) head) then Str.rstrip_char sep head else head,
       tail)
  end.

(** [os.path.splitext(p)]: the extension starts at the last dot of the last
    component, unless only dots precede it there. *)
Definition splitext (p : string) : string * string :=
  let '(dir, base) :=
    match Str.rpartition sep p with
    | None => ("", p)
    | Some (h, t) => (h +:+ "/", t)
    end in
  match Str.rpartition extsep base with
  | None => (p, "")
  | Some (pre, e) =>
      if Str.all (Str.ascii_eqb extsep) pre then (p, "")
      else (dir +:+ pre, String extsep e)
  end.

End OsPath.

Definition os_sep : ascii := OsPath.sep.

(** [bool(s)] for an optional string: neither [None] nor empty. *)
Definition truthy (o : option string) : bool :=
  match o with
  | Some s => negb (Str.is_empty s)
  | None => false
  end.

(** ** to_windows_path, split_dir_filename_windows *)

(** Lines 41-44: [norm] once it is absolute. *)
Definition absolute_form (cwd path : string) : string :=
  let norm := OsPath.normpath path in
  if negb (OsPath.isabs norm) then OsPath.abspath cwd norm else norm.

Definition to_windows_path (cwd : string) (path : string) (windows_root : option string)
  : string :=
  let norm := absolute_form cwd path in
  let mounted :=
    if Str.startswith "/mnt/" norm then
      let parts := Str.split os_sep norm in
      if 3 <? length parts then
        let drive := Str.upper (nth 2 parts "") in
        let rest := OsPath.join (nth 3 parts "") (drop 4 parts) in
        Some (drive +:+ ":" +:+ String os_sep rest)
      else None
    else None in
  match mounted with
  | Some r => r
  | None =>
      let rooted :=
        match windows_root with
        | Some root =>
            if negb (Str.is_empty root) then
              match OsPath.relpath cwd norm cwd with
              | Some rel =>
                  if negb (Str.startswith ".." rel)
                  then Some (Str.replace "/" os_sep (OsPath.join root [rel]))
                  else None
              | None => None
              end
            else None
        | None => None
        end in
      match rooted with
      | Some r => r
      | None => Str.replace "/" os_sep norm
      end
  end.

Definition split_dir_filename_windows (win_path : string) : string * string :=
  let '(directory, filename) := OsPath.split win_path in
  (Str.replace "/" os_sep directory, filename).

(** ** make_table_attr *)

Definition make_table_attr (filename : string) : string :=
  let '(base, ext) := OsPath.splitext filename in
  let ext_no_dot :=
    match ext with
    | String c e => if Str.ascii_eqb c "." then Str.lower e else Str.lower ext
    | EmptyString => Str.lower ext
    end in
  "[" +:+ base +:+ "#" +:+ ext_no_dot +:+ "]".

(** ** Exceptions *)

Inductive exn : Type :=
| RuntimeError (msg : string)
| IndexError
| ParseError
| OSError.

Inductive result (A : Type) : Type :=
| Ok (a : A)
| Raise (e : exn).
Arguments Ok {A} a.
Arguments Raise {A} e.

(** ** sample_csv_columns *)

(** What [open(csv_path, encoding=...)] followed by [csv.reader] delivers
    under one encoding.  [NoHeader]: [open] or the first [next(reader)]
    raised (a missing or empty file, a directory).  [Read header rows clean]:
    the reader yields [header], then [rows]; after them it is exhausted
    ([clean = true]) or raises ([clean = false]). *)
Inductive attempt : Type :=
| NoHeader
| Read (header : list string) (rows : list (list string)) (clean : bool).

(** [[h if h else f"col_{i}" for i, h in enumerate(headers)]] *)
Definition fix_headers (headers : list string) : list string :=
  imap (fun i h => if Str.is_empty h then "col_" +:+ Str.of_nat i else h) headers.

(** [(row + [""] * n)[:n]] *)
Definition pad_row (n : nat) (row : list string) : list string :=
  take n (row ++ replicate n "").

(** The [for _ in range(max_rows)] loop: the rows appended to [samples], and
    whether the loop ended without an exception. *)
Fixpoint read_rows (max_rows width : nat) (rows : list (list string)) (clean : bool)
  (samples : list (list string)) : list (list string) * bool :=
  match max_rows with
  | 0 => (samples, true)
  | S n =>
      match rows with
      | [] => (samples, clean)
      | row :: rows' => read_rows n width rows' clean (samples ++ [pad_row width row])
      end
  end.

(** The [for encoding in (...)] loop; [headers] and [samples] live across its
    rounds, and a round that raises leaves what it assigned and appended. *)
Fixpoint try_encodings (max_rows : nat) (attempts : list attempt)
  (headers : list string) (samples : list (list string))
  : list string * list (list string) :=
  match attempts with
  | [] => (headers, samples)
  | NoHeader :: rest => try_encodings max_rows rest headers samples
  | Read header rows clean :: rest =>
      let headers' := fix_headers header in
      let '(samples', finished) :=
        read_rows max_rows (length headers') rows clean samples in
      if finished then (headers', samples')
      else try_encodings max_rows rest headers' samples'
  end.

(** [for i, val in enumerate(row): col_samples[i].append(val.strip())];
    [None] is the IndexError of [col_samples[i]]. *)
Fixpoint append_row (i : nat) (row : list string) (col_samples : list (list string))
  : option (list (list string)) :=
  match row with
  | [] => Some col_samples
  | val :: row' =>
      match col_samples !! i with
      | None => None
      | Some col => append_row (S i) row' (<[i := col ++ [Str.strip val]]> col_samples)
      end
  end.

Fixpoint transpose (samples : list (list string)) (col_samples : list (list string))
  : option (list (list string)) :=
  match samples with
  | [] => Some col_samples
  | row :: rest =>
      match append_row 0 row col_samples with
      | None => None
      | Some cols => transpose rest cols
      end
  end.

Definition encodings : list string := ["utf-8"; "utf-8-sig"; "latin-1"].

(** [read] stands for the file system, the codecs and the csv module:
    [read csv_path encoding] is what that encoding delivers. *)
Definition sample_csv_columns (read : string -> string -> attempt)
  (csv_path : string) (max_rows : nat) : result (list string * list string) :=
  let '(headers, samples) :=
    try_encodings max_rows (List.map (read csv_path) encodings) [] [] in
  if OsPath.is_nil headers
  then Raise (RuntimeError ("Unable to read CSV headers from " +:+ csv_path))
  else
    match transpose samples (List.map (fun _ => []) headers) with
    | None => Raise IndexError
    | Some col_samples => Ok (headers, List.map guess_type col_samples)
    end.

(** ** The element tree *)

#[warnings="-register-all"]
Inductive Element : Type :=
  Elem { tag : string; attrib : list (string * string); children : list Element }.

Module ET.

Fixpoint dict_get (k : string) (d : list (string * string)) : option string :=
  match d with
  | [] => None
  | (k', v) :: d' => if String.eqb k' k then Some v else dict_get k d'
  end.

(** [d[k] = v]: an existing key keeps its place, a new key goes last. *)
Fixpoint dict_set (k v : string) (d : list (string * string)) : list (string * string) :=
  match d with
  | [] => [(k, v)]
  | (k', v') :: d' => if String.eqb k' k then (k, v) :: d' else (k', v') :: dict_set k v d'
  end.

Definition get (k : string) (e : Element) : option string := dict_get k (attrib e).

Definition set (k v : string) (e : Element) : Element :=
  Elem (tag e) (dict_set k v (attrib e)) (children e).

Definition has_tag (t : string) (e : Element) : bool := String.eqb (tag e) t.

(** [e.find(t)] and [e.findall(t)] for a plain tag [t]. *)
Definition find (t : string) (e : Element) : option Element :=
  List.find (has_tag t) (children e).

Definition findall (t : string) (e : Element) : list Element :=
  List.filter (has_tag t) (children e).

(** [e.findall("t1/t2")] and [e.find("t1/t2")] *)
Definition findall2 (t1 t2 : string) (e : Element) : list Element :=
  List.concat (List.map (findall t2) (findall t1 e)).

Definition find2 (t1 t2 : string) (e : Element) : option Element :=
  head (findall2 t1 t2 e).

(** [e.append(c)], also the effect of [SubElement(e, ...)]. *)
Definition append (c : Element) (e : Element) : Element :=
  Elem (tag e) (attrib e) (children e ++ [c]).

(** [e.insert(i, c)] *)
Definition insert (i : nat) (c : Element) (e : Element) : Element :=
  Elem (tag e) (attrib e) (take i (children e) ++ c :: drop i (children e)).

Definition with_children (f : list Element -> list Element) (e : Element) : Element :=
  Elem (tag e) (attrib e) (f (children e)).

(** Mutation through a reference obtained by a search: the first element
    that satisfies [p] is replaced by its mutated state. *)
Fixpoint alter_first (p : Element -> bool) (f : Element -> Element) (l : list Element)
  : list Element :=
  match l with
  | [] => []
  | x :: l' => if p x then f x :: l' else x :: alter_first p f l'
  end.

(** Mutate the node that [e.find(t)] returns. *)
Definition alter_found (t : string) (f : Element -> Element) (e : Element) : Element :=
  with_children (alter_first (has_tag t) f) e.

Fixpoint index_of (p : Element -> bool) (l : list Element) : option nat :=
  match l with
  | [] => None
  | x :: l' => if p x then Some 0 else S <$> index_of p l'
  end.

End ET.

(** ** ensure_datasources_node *)

(** The tree after the call; the node the source returns is then
    [ET.find "datasources"] of it. *)
Definition ensure_datasources_node (root : Element) : Element :=
  match ET.find "datasources" root with
  | Some _ => root
  | None =>
      let ds := Elem "datasources" [] [] in
      match ET.index_of (ET.has_tag "preferences") (children root) with
      | Some idx => ET.insert (idx + 1) ds root
      | None => ET.insert 0 ds root
      end
  end.

(** ** add_textscan_datasource *)

(** What the run reads from its surroundings. *)
Record Env : Type := {
  getcwd : string;                          (* os.getcwd() *)
  uuid4_hex : string;                       (* uuid.uuid4().hex *)
  read_csv : string -> string -> attempt;   (* path, encoding *)
}.

(** The test of the matching loop on one [datasource] element. *)
Definition matches_filename (filename : string) (existing : Element) : bool :=
  match ET.find "connection" existing with
  | None => false
  | Some conn =>
      match ET.get "class" conn with
      | Some cls =>
          if String.eqb cls "textscan" then
            match ET.get "filename" conn with
            | Some existing_filename =>
                negb (Str.is_empty existing_filename)
                && String.eqb existing_filename filename
            | None => false
            end
          else false
      | None => false
      end
  end.

(** The body of the loop for a matching element: its new state and the
    returned pair. *)
Definition update_relation (filename : string) (rel : Element) : Element :=
  ET.set "table" (make_table_attr filename) (ET.set "name" filename rel).

Definition update_connection (directory filename : string) (conn : Element) : Element :=
  ET.alter_found "relation" (update_relation filename)
    (ET.set "filename" filename (ET.set "directory" directory conn)).

Definition update_existing (directory filename ds_caption ds_name : string)
  (existing : Element) : Element * (string * string) :=
  let existing :=
    ET.alter_found "connection" (update_connection directory filename) existing in
  let existing :=
    if negb (Str.is_empty ds_caption) then ET.set "caption" ds_caption existing
    else existing in
  let '(existing, existing_name) :=
    if truthy (ET.get "name" existing)
    then (existing, default "" (ET.get "name" existing))
    else (ET.set "name" ds_name existing, ds_name) in
  (existing, (existing_name, default ds_caption (ET.get "caption" existing))).

(** [for existing in ds_container.findall("datasource")] up to its [return]:
    [None] when the loop runs to its end. *)
Fixpoint update_first_match (directory filename ds_caption ds_name : string)
  (kids : list Element) : option (list Element * (string * string)) :=
  match kids with
  | [] => None
  | k :: kids' =>
      if ET.has_tag "datasource" k && matches_filename filename k then
        let '(k', r) := update_existing directory filename ds_caption ds_name k in
        Some (k' :: kids', r)
      else
        match update_first_match directory filename ds_caption ds_name kids' with
        | Some (kids'', r) => Some (k :: kids'', r)
        | None => None
        end
  end.

Definition column_element (i : nat) (ht : string * string) : Element :=
  Elem "column" [("datatype", ht.2); ("name", ht.1); ("ordinal", Str.of_nat i)] [].

Definition columns_element (headers types : list string) : Element :=
  Elem "columns"
    [("character-set", "UTF-8"); ("header", "yes"); ("locale", "en_US"); ("separator", ",")]
    (imap column_element (zip headers types)).

Definition new_datasource (directory filename ds_caption ds_name : string)
  (headers types : list string) : Element :=
  let relation :=
    Elem "relation"
      [("name", filename); ("table", make_table_attr filename); ("type", "table")]
      [columns_element headers types] in
  let connection :=
    Elem "connection"
      [("class", "textscan"); ("directory", directory); ("filename", filename);
       ("password", ""); ("server", "")]
      [relation] in
  Elem "datasource"
    [("caption", ds_caption); ("inline", "true"); ("name", ds_name); ("version", "18.1")]
    [connection; Elem "aliases" [("enabled", "yes")] []].

(** [(directory, filename)] of the CSV as the workbook stores them. *)
Definition csv_location (env : Env) (csv_path : string) (windows_root : option string)
  : string * string :=
  split_dir_filename_windows (to_windows_path (getcwd env) csv_path windows_root).

Definition caption_or (caption : option string) (filename : string) : string :=
  match caption with
  | Some c => if Str.is_empty c then filename else c
  | None => filename
  end.

Definition ds_container_children (root : Element) : list Element :=
  match ET.find "datasources" root with
  | Some ds => children ds
  | None => []
  end.

(** The tree after the call, and what the call returns or raises. *)
Definition add_textscan_datasource (env : Env) (root : Element) (csv_path : string)
  (caption windows_root : option string) : Element * result (string * string) :=
  let root := ensure_datasources_node root in
  let '(directory, filename) := csv_location env csv_path windows_root in
  let ds_name := "textscan." +:+ Str.take 30 (uuid4_hex env) in
  let ds_caption := caption_or caption filename in
  match update_first_match directory filename ds_caption ds_name
          (ds_container_children root) with
  | Some (kids, r) =>
      (ET.alter_found "datasources" (ET.with_children (fun _ => kids)) root, Ok r)
  | None =>
      match sample_csv_columns (read_csv env) csv_path 500 with
      | Raise e => (root, Raise e)
      | Ok (headers, types) =>
          let datasource :=
            new_datasource directory filename ds_caption ds_name headers types in
          (ET.alter_found "datasources" (ET.append datasource) root,
           Ok (ds_name, ds_caption))
      end
  end.

(** ** attach_datasource_to_all_worksheets *)

Definition names_ds (ds_name : string) (d : Element) : bool :=
  match ET.get "name" d with
  | Some n => String.eqb n ds_name
  | None => false
  end.

(** The loop body from [datasources = view.find("datasources")] on: the view
    after it, and whether [count] was incremented. *)
Definition attach_view (ds_name ds_caption : string) (view : Element) : Element * bool :=
  let view :=
    match ET.find "datasources" view with
    | Some _ => view
    | None => ET.append (Elem "datasources" [] []) view
    end in
  let already :=
    match ET.find "datasources" view with
    | Some datasources => existsb (names_ds ds_name) (ET.findall "datasource" datasources)
    | None => false
    end in
  if already then (view, false)
  else
    (ET.alter_found "datasources"
       (ET.append (Elem "datasource" [("caption", ds_caption); ("name", ds_name)] [])) view,
     true).

Definition has_view (table : Element) : bool :=
  ET.has_tag "table" table && existsb (ET.has_tag "view") (children table).

(** One round of the loop: the worksheet after it, and whether [count] was
    incremented.  [ws.find("table/view")] is the first [view] child of the
    first [table] child that has one. *)
Definition attach_worksheet (ds_name ds_caption : string) (ws : Element) : Element * bool :=
  match ET.find2 "table" "view" ws with
  | None => (ws, false)
  | Some view =>
      let '(view', counted) := attach_view ds_name ds_caption view in
      (ET.with_children
         (ET.alter_first has_view (ET.alter_found "view" (fun _ => view'))) ws,
       counted)
  end.

(** The rounds for the [worksheet] children of one [worksheets] element, and
    then for all [worksheets] children of the root, threading [count]. *)
Fixpoint attach_each (ds_name ds_caption : string) (kids : list Element) (count : nat)
  : list Element * nat :=
  match kids with
  | [] => ([], count)
  | k :: kids' =>
      let '(k', count') :=
        if ET.has_tag "worksheet" k then
          let '(k', counted) := attach_worksheet ds_name ds_caption k in
          (k', if counted then S count else count)
        else (k, count) in
      let '(kids'', count'') := attach_each ds_name ds_caption kids' count' in
      (k' :: kids'', count'')
  end.

Fixpoint attach_groups (ds_name ds_caption : string) (kids : list Element) (count : nat)
  : list Element * nat :=
  match kids with
  | [] => ([], count)
  | k :: kids' =>
      let '(k', count') :=
        if ET.has_tag "worksheets" k then
          let '(ws, count') := attach_each ds_name ds_caption (children k) count in
          (Elem (tag k) (attrib k) ws, count')
        else (k, count) in
      let '(kids'', count'') := attach_groups ds_name ds_caption kids' count' in
      (k' :: kids'', count'')
  end.

Definition attach_datasource_to_all_worksheets (root : Element) (ds_name ds_caption : string)
  : Element * nat :=
  let '(kids, count) := attach_groups ds_name ds_caption (children root) 0 in
  (Elem (tag root) (attrib root) kids, count).

(** ** Files, backup_file and main *)

Inductive node : Type :=
| File (content : list Byte.byte)
| Dir.

(** [os.path.exists] *)
Definition exists_path (fs : gmap string node) (path : string) : bool :=
  match fs !! path with
  | Some _ => true
  | None => false
  end.

Definition backup_path (path : string) : string :=
  let '(base, ext) := OsPath.splitext path in
  base +:+ ".backup" +:+ ext.

(** The files after the call, and the returned path; opening [path] for
    reading raises when it is not a regular file. *)
Definition backup_file (fs : gmap string node) (path : string)
  : gmap string node * result string :=
  let backup := backup_path path in
  if negb (exists_path fs backup) then
    match fs !! path with
    | Some (File content) => (<[backup := File content]> fs, Ok backup)
    | _ => (fs, Raise OSError)
    end
  else (fs, Ok backup).

Record World : Type := {
  fs : gmap string node;
  stdout : list string;
  stderr : list string;
}.

(** The parsed command line. *)
Record Namespace : Type := {
  workbook : string;
  csv : string;
  caption : option string;
  windows_root : option string;
}.

(** How the process ends. *)
Inductive outcome : Type :=
| Returned
| SysExit (status : nat)
| Uncaught (e : exn).

Definition exit_status (o : outcome) : nat :=
  match o with
  | Returned => 0
  | SysExit status => status
  | Uncaught _ => 1
  end.

(** Lines 285-286 of main: inject the data source, then link it. *)
Definition inject_and_attach (env : Env) (root : Element) (csv_path : string)
  (cap root_opt : option string) : Element * result (string * string * nat) :=
  match add_textscan_datasource env root csv_path cap root_opt with
  | (root1, Raise e) => (root1, Raise e)
  | (root1, Ok (ds_name, ds_caption)) =>
      let '(root2, attached) :=
        attach_datasource_to_all_worksheets root1 ds_name ds_caption in
      (root2, Ok (ds_name, ds_caption, attached))
  end.

Section Main.

(** The XML layer and the CSV layer (codecs and csv module), and what the
    process reads from its surroundings. *)
Variable xml_parse : list Byte.byte -> option Element.
Variable xml_write : Element -> list Byte.byte.
Variable csv_reader : string -> list Byte.byte -> attempt.
Variable cwd : string.
Variable uuid : string.

Definition env_of (files : gmap string node) : Env :=
  {| getcwd := cwd;
     uuid4_hex := uuid;
     read_csv := fun path encoding =>
       match files !! path with
       | Some (File content) => csv_reader encoding content
       | _ => NoHeader
       end |}.

(** [ET.parse(wb_path)] *)
Definition parse_file (files : gmap string node) (path : string) : result Element :=
  match files !! path with
  | Some (File content) =>
      match xml_parse content with
      | Some root => Ok root
      | None => Raise ParseError
      end
  | _ => Raise OSError
  end.

Definition print_err (line : string) (w : World) : World :=
  {| fs := fs w; stdout := stdout w; stderr := stderr w ++ [line] |}.

Definition print_out (line : string) (w : World) : World :=
  {| fs := fs w; stdout := stdout w ++ [line]; stderr := stderr w |}.

Definition with_fs (files : gmap string node) (w : World) : World :=
  {| fs := files; stdout := stdout w; stderr := stderr w |}.

Definition main (args : Namespace) (w : World) : World * outcome :=
  let wb_path := workbook args in
  let csv_path := csv args in
  if negb (exists_path (fs w) wb_path) then
    (print_err ("Error: workbook not found: " +:+ wb_path) w, SysExit 1)
  else if negb (exists_path (fs w) csv_path) then
    (print_err ("Error: csv not found: " +:+ csv_path) w, SysExit 1)
  else
    match parse_file (fs w) wb_path with
    | Raise e => (w, Uncaught e)
    | Ok root =>
        match backup_file (fs w) wb_path with
        | (files, Raise e) => (with_fs files w, Uncaught e)
        | (files, Ok _) =>
            let w := with_fs files w in
            match inject_and_attach (env_of (fs w)) root csv_path
                    (caption args) (windows_root args) with
            | (_, Raise e) => (w, Uncaught e)
            | (root', Ok (ds_name, ds_caption, attached)) =>
                let w := with_fs (<[wb_path := File (xml_write root')]> (fs w)) w in
                let w := print_out ("Inserted datasource: " +:+ ds_caption +:+ " ("
                                    +:+ ds_name +:+ ")") w in
                let w := print_out ("Attached to worksheets: " +:+ Str.of_nat attached) w in
                let w := print_out
                  "Done. Open the workbook in Tableau to validate fields and set roles." w in
                (w, Returned)
            end
        end
    end.

End Main.

(** ** Observations used to state the properties *)

(** Column [j] of the sampled rows, each value stripped. *)
Definition stripped_column (j : nat) (samples : list (list string)) : list string :=
  List.map (fun row => Str.strip (nth j row "")) samples.

(** A [datasource] element that the matching loop passes over whatever the
    file is: no [connection] child, or a connection whose class is not
    "textscan", or whose filename is missing or empty. *)
Definition never_matched (d : Element) : bool :=
  match ET.find "connection" d with
  | None => true
  | Some conn =>
      negb (bool_decide (ET.get "class" conn = Some "textscan"))
      || bool_decide (ET.get "filename" conn = None)
      || bool_decide (ET.get "filename" conn = Some "")
  end.

(** The element that [datasource.find("connection/relation/columns")] would
    give. *)
Definition columns_block (datasource : Element) : option Element :=
  conn ← ET.find "connection" datasource;
  rel ← ET.find "relation" conn;
  ET.find "columns" rel.

(** A data source that the matching loop takes for [filename]. *)
Definition is_source_for (filename : string) (d : Element) : bool :=
  ET.has_tag "datasource" d && matches_filename filename d.

(** [root.findall("worksheets/worksheet")] *)
Definition worksheets (root : Element) : list Element :=
  ET.findall2 "worksheets" "worksheet" root.

(** The references of a worksheet's view: [None] without a [table/view]
    node, and no references without a [datasources] node under it. *)
Definition view_links (view : Element) : list Element :=
  match ET.find "datasources" view with
  | Some datasources => ET.findall "datasource" datasources
  | None => []
  end.

Definition link_set (ws : Element) : option (list Element) :=
  view_links <$> ET.find2 "table" "view" ws.

(** The worksheet has a view, and no reference there carries [ds_name]. *)
Definition lacks_link (ds_name : string) (ws : Element) : bool :=
  match link_set ws with
  | Some links => negb (existsb (names_ds ds_name) links)
  | None => false
  end.

Definition link_element (ds_name ds_caption : string) : Element :=
  Elem "datasource" [("caption", ds_caption); ("name", ds_name)] [].

(** What the rounds of attach_datasource_to_all_worksheets make of a child
    of a [worksheets] element, and of a child of the root. *)
Definition relink_worksheet (ds_name ds_caption : string) (k : Element) : Element :=
  if ET.has_tag "worksheet" k then (attach_worksheet ds_name ds_caption k).1 else k.

Definition relink_group (ds_name ds_caption : string) (k : Element) : Element :=
  if ET.has_tag "worksheets" k
  then Elem (tag k) (attrib k) (List.map (relink_worksheet ds_name ds_caption) (children k))
  else k.

(** ** Concrete inputs *)

Definition chars (codes : list nat) : string :=
  String.string_of_list_ascii (List.map ascii_of_nat codes).

(** A CSV file whose bytes are: a UTF-8 byte order mark; a quoted first cell
    that holds the letter a and a line break; the cells b and c; the row
    1,2,3; and a last line of 200000 letters, longer than the csv module's
    field limit of 131072, on which the reader raises csv.Error.

    Under utf-8-sig the mark is dropped, the quote opens the cell, and the
    header has three cells; the row 1,2,3 is read before the error.  Under
    utf-8 and latin-1 the mark stays in front of the quote, which then is an
    ordinary character: the header is the single cell up to the first line
    break, and the quote that starts the next line opens a cell that runs
    into the long line, so the error comes before any row.  Under utf-8 the
    mark is U+FEFF, outside the code points of this model, and is written
    as a question mark. *)
Definition bom_quoted_read (csv_path encoding : string) : attempt :=
  if String.eqb encoding "utf-8-sig" then
    Read [chars [97; 10]; "b"; "c"] [["1"; "2"; "3"]] false
  else if String.eqb encoding "utf-8" then
    Read [chars [63; 34; 97]] [] false
  else
    Read [chars [239; 187; 191; 34; 97]] [] false.

(** A workbook with a parameters data source (no connection), a federated
    one, and two worksheets, of which only the first has a view. *)
Definition demo_workbook : Element :=
  Elem "workbook" []
    [Elem "preferences" [] [];
     Elem "datasources" []
       [Elem "datasource" [("name", "Parameters")] [];
        Elem "datasource" [("name", "federated.1")]
          [Elem "connection" [("class", "federated")] []]];
     Elem "worksheets" []
       [Elem "worksheet" [("name", "Sheet 1")] [Elem "table" [] [Elem "view" [] []]];
        Elem "worksheet" [("name", "Sheet 2")] []]].

(** A CSV with the header id,,label and the rows 1,2.5,a and 2,3.5, readable
    under every encoding. *)
Definition demo_read (csv_path encoding : string) : attempt :=
  Read ["id"; ""; "label"] [["1"; "2.5"; "a"]; ["2"; "3.5"]] true.

Definition demo_env : Env :=
  {| getcwd := "/home/u/proj";
     uuid4_hex := "0123456789abcdef0123456789abcdef";
     read_csv := demo_read |}.

(** The same surroundings at a later run: another uuid, and the CSV gone. *)
Definition demo_env_later : Env :=
  {| getcwd := "/home/u/proj";
     uuid4_hex := "fedcba9876543210fedcba9876543210";
     read_csv := fun _ _ => NoHeader |}.

(** Stand-ins for the XML layer and the CSV layer: every non-empty file
    parses to [demo_workbook], and reads as [demo_read] says. *)
Definition demo_parse (content : list Byte.byte) : option Element :=
  match content with
  | [] => None
  | _ => Some demo_workbook
  end.

Definition demo_write (root : Element) : list Byte.byte :=
  [Byte.x3c; Byte.x3f; Byte.x78; Byte.x6d; Byte.x6c].

Definition demo_reader (encoding : string) (content : list Byte.byte) : attempt :=
  match content with
  | [] => NoHeader
  | _ => demo_read "" encoding
  end.

Definition demo_files : gmap string node :=
  {[ "book.twb" := File [Byte.x3c; Byte.x77];
     "data/leases.csv" := File [Byte.x69; Byte.x64];
     "data/empty.csv" := File [] ]}.

Definition demo_world : World :=
  {| fs := demo_files; stdout := []; stderr := [] |}.

Definition demo_args : Namespace :=
  {| workbook := "book.twb";
     csv := "data/leases.csv";
     caption := Some "Leases";
     windows_root := Some "C:\Users\u\proj" |}.

Definition demo_run : Namespace -> World -> World * outcome :=
  main demo_parse demo_write demo_reader "/home/u/proj" "0123456789abcdef0123456789abcdef".

(** The command line with a CSV that exists but is empty, and with a
    workbook that is missing. *)
Definition demo_args_empty_csv : Namespace :=
  {| workbook := "book.twb"; csv := "data/empty.csv"; caption := None;
     windows_root := None |}.

Definition demo_args_no_workbook : Namespace :=
  {| workbook := "nope.twb"; csv := "data/leases.csv"; caption := None;
     windows_root := None |}.

(** The end-to-end scenario of the specification: one worksheet with a view
    and no data source; a CSV with the header id,value,label and the rows
    1,2.5,a and 2,3.5,b. *)
Definition scenario_workbook : Element :=
  Elem "workbook" []
    [Elem "worksheets" []
       [Elem "worksheet" [("name", "Sheet 1")] [Elem "table" [] [Elem "view" [] []]]]].

Definition scenario_reader (encoding : string) (content : list Byte.byte) : attempt :=
  Read ["id"; "value"; "label"] [["1"; "2.5"; "a"]; ["2"; "3.5"; "b"]] true.

Definition scenario_args : Namespace :=
  {| workbook := "book.twb"; csv := "data/leases.csv"; caption := None;
     windows_root := None |}.

(** ** Further observations *)

(** What the row loop can see of an attempt: the first [max_rows] rows, and
    how it ends when there are fewer. *)
Definition truncate_attempt (max_rows : nat) (a : attempt) : attempt :=
  match a with
  | NoHeader => NoHeader
  | Read header rows clean =>
      Read header (take max_rows rows) (clean || (max_rows <=? length rows))
  end.

(** No character of [s] is [c]. *)
Definition free_of (c : ascii) (s : string) : bool :=
  Str.all (fun d => negb (Str.ascii_eqb d c)) s.

(** A path component as [normpath] leaves them: not empty, no separator. *)
Definition is_segment (s : string) : bool :=
  negb (Str.is_empty s) && free_of "/" s.

(** The attribute [k] of the node that [e.find("connection")] gives. *)
Definition connection_attr (k : string) (e : Element) : option string :=
  ET.find "connection" e ≫= ET.get k.

(** The attribute [k] of the node that [e.find("connection/relation")] gives. *)
Definition relation_attr (k : string) (e : Element) : option string :=
  conn ← ET.find "connection" e;
  rel ← ET.find "relation" conn;
  ET.get k rel.

(** A child of the root other than a data source container. *)
Definition not_container (k : Element) : bool := negb (ET.has_tag "datasources" k).

(** ** Further concrete inputs *)

(** A data source for leases.csv as an earlier run on another machine left
    it, without a name. *)
Definition demo_stale_source : Element :=
  Elem "datasource" [("caption", "Old"); ("inline", "true"); ("name", "")]
    [Elem "connection"
       [("class", "textscan"); ("directory", "D:\old"); ("filename", "leases.csv");
        ("password", "")]
       [Elem "relation" [("name", "leases.csv"); ("table", "[leases#csv]")]
          [Elem "columns" [("header", "yes")]
             [Elem "column" [("datatype", "string"); ("name", "id"); ("ordinal", "0")] []]]]].

(** A workbook that holds it behind a federated data source and in front of
    a second data source for the same file. *)
Definition demo_stale_workbook : Element :=
  Elem "workbook" []
    [Elem "datasources" []
       [Elem "datasource" [("name", "federated.1")]
          [Elem "connection" [("class", "federated")] []];
        demo_stale_source;
        Elem "datasource" [("name", "textscan.second")]
          [Elem "connection" [("class", "textscan"); ("filename", "leases.csv")] []]];
     Elem "worksheets" []
       [Elem "worksheet" [("name", "Sheet 1")] [Elem "table" [] [Elem "view" [] []]]]].

(** The data source container of [demo_workbook]. *)
Definition demo_container : Element :=
  Elem "datasources" []
    [Elem "datasource" [("name", "Parameters")] [];
     Elem "datasource" [("name", "federated.1")]
       [Elem "connection" [("class", "federated")] []]].

(** The tree that a first run on [demo_workbook] leaves, and an XML layer
    that reads it back from what [demo_write] wrote. *)
Definition demo_first_tree : Element :=
  (inject_and_attach demo_env demo_workbook "data/leases.csv" (Some "Leases")
     (Some "C:\Users\u\proj")).1.

Definition demo_parse_back (content : list Byte.byte) : option Element :=
  match content with
  | [] => None
  | [_; _] => Some demo_workbook
  | _ => Some demo_first_tree
  end.

(** A workbook that holds a named textscan data source for leases.csv, and
    one worksheet whose view refers to another data source only. *)
Definition demo_unlinked_workbook : Element :=
  Elem "workbook" []
    [Elem "datasources" []
       [Elem "datasource" [("caption", "Leases"); ("inline", "true"); ("name", "textscan.old")]
          [Elem "connection"
             [("class", "textscan"); ("directory", "C:\Users\u\proj/data");
              ("filename", "leases.csv")]
             [Elem "relation" [("name", "leases.csv"); ("table", "[leases#csv]")] []]]];
     Elem "worksheets" []
       [Elem "worksheet" [("name", "Sheet 1")]
          [Elem "table" []
             [Elem "view" []
                [Elem "datasources" []
                   [Elem "datasource" [("name", "federated.1")] []]]]]]].

(** * Properties *)

(** ** What fullmatch decides *)

Module ReFacts.
Import Re.

Lemma nullable_lang r : nullable r = true <-> lang r EmptyString.
Proof.
  split.
  - induction r; simpl; intros H; try discriminate.
    + constructor.
    + apply andb_prop in H as [H1 H2].
      change EmptyString with (EmptyString +:+ EmptyString). constructor; auto.
    + apply orb_prop in H as [H|H]; [apply lang_alt_l | apply lang_alt_r]; auto.
    + constructor.
  - intros H. remember EmptyString as s eqn:Es.
    induction H; simpl; try reflexivity; try discriminate.
    + destruct s1; [|discriminate]. rewrite IHlang1, IHlang2; auto.
    + rewrite IHlang by assumption. reflexivity.
    + rewrite IHlang by assumption. apply orb_true_r.
Qed.

Lemma lang_cat_cons r1 r2 c s1 s2 :
  lang r1 (String c s1) -> lang r2 s2 -> lang (Cat r1 r2) (String c (s1 +:+ s2)).
Proof. intros H1 H2. apply (lang_cat r1 r2 (String c s1) s2 H1 H2). Qed.

Lemma lang_star_cons_char r c s1 s2 :
  lang r (String c s1) -> lang (Star r) s2 -> lang (Star r) (String c (s1 +:+ s2)).
Proof. intros H1 H2. apply (lang_star_cons r (String c s1) s2 H1 H2). Qed.

Lemma deriv_sound c r : forall s, lang (deriv c r) s -> lang r (String c s).
Proof.
  induction r as [| |p|r1 IH1 r2 IH2|r1 IH1 r2 IH2|r0 IH0]; simpl; intros s H.
  - inversion H.
  - inversion H.
  - destruct (p c) eqn:E; inversion H; subst. constructor. exact E.
  - assert (Hcat : forall w, lang (Cat (deriv c r1) r2) w -> lang (Cat r1 r2) (String c w)).
    { intros w Hw. inversion Hw; subst. apply lang_cat_cons; auto. }
    destruct (nullable r1) eqn:En; [|auto].
    inversion H; subst; [auto|].
    apply (lang_cat r1 r2 EmptyString (String c s)); [apply nullable_lang; exact En | auto].
  - inversion H; subst; [apply lang_alt_l | apply lang_alt_r]; auto.
  - inversion H; subst. apply lang_star_cons_char; auto.
Qed.

Lemma deriv_complete r w :
  lang r w -> forall c s, w = String c s -> lang (deriv c r) s.
Proof.
  induction 1 as [|p c0 Hp|r1 r2 s1 s2 H1 IH1 H2 IH2|r1 r2 s0 H0 IH0|r1 r2 s0 H0 IH0
                  |r0|r0 s1 s2 H1 IH1 H2 IH2];
    intros c s E; simpl.
  - discriminate.
  - injection E as -> <-. rewrite Hp. constructor.
  - destruct s1 as [|c1 s1'].
    + change (s2 = String c s) in E.
      rewrite (proj2 (nullable_lang r1) H1). apply lang_alt_r. auto.
    + change (String c1 (s1' +:+ s2) = String c s) in E. injection E as -> <-.
      assert (lang (Cat (deriv c r1) r2) (s1' +:+ s2)) by (constructor; auto).
      destruct (nullable r1); [apply lang_alt_l|]; assumption.
  - apply lang_alt_l. auto.
  - apply lang_alt_r. auto.
  - discriminate.
  - destruct s1 as [|c1 s1'].
    + change (s2 = String c s) in E. apply (IH2 c s E).
    + change (String c1 (s1' +:+ s2) = String c s) in E. injection E as -> <-.
      constructor; auto.
Qed.

(** [fullmatch r s] holds exactly when [s] is a word of [r]. *)
Lemma fullmatch_lang r s : fullmatch r s = true <-> lang r s.
Proof.
  revert r. induction s as [|c s IH]; intros r; simpl.
  - apply nullable_lang.
  - rewrite IH. split; [apply deriv_sound|].
    intros H. eapply deriv_complete; eauto.
Qed.

End ReFacts.

(** ** Type inference *)

Lemma only_non_empty_spec (samples : list string) (s : string) :
  In s (only_non_empty samples) <-> In s samples /\ s <> "".
Proof.
  unfold only_non_empty. rewrite List.filter_In.
  destruct s; simpl; intuition congruence.
Qed.

Lemma is_int_lang s : is_int s = true <-> Re.lang int_pattern s.
Proof. apply ReFacts.fullmatch_lang. Qed.

Lemma is_real_lang s : is_real s = true <-> Re.lang real_pattern s.
Proof. apply ReFacts.fullmatch_lang. Qed.

Lemma digits_lang s : Re.lang (Re.Star digit) s <-> Str.all Str.is_digit s = true.
Proof.
  split.
  - intros H. remember (Re.Star digit) as r eqn:Er.
    induction H as [| | | | | |r0 s1 s2 H1 _ H2 IH2]; try discriminate; [reflexivity|].
    injection Er as ->. inversion H1; subst.
    change (Str.is_digit c && Str.all Str.is_digit s2 = true).
    apply andb_true_intro. split; [assumption | apply IH2; reflexivity].
  - induction s as [|c s IH]; simpl; intros H; [constructor|].
    apply andb_prop in H as [Hc Hs].
    apply (ReFacts.lang_star_cons_char digit c EmptyString s); [|auto].
    constructor. exact Hc.
Qed.

(** The integer pattern in words: an optional sign, then one digit or more. *)
Lemma is_int_spec s :
  is_int s = true <->
  exists sg d ds,
    s = sg +:+ String d ds
    /\ (sg = "" \/ sg = "+" \/ sg = "-")
    /\ Str.is_digit d = true /\ Str.all Str.is_digit ds = true.
Proof.
  rewrite is_int_lang. unfold int_pattern, Re.Opt, Re.Plus. split.
  - intros H. inversion H as [| |? ? s1 s2 H1 H2| | | |]; subst.
    inversion H2 as [| |? ? s3 s4 H3 H4| | | |]; subst.
    inversion H3; subst. apply digits_lang in H4.
    exists s1, c, s4. split; [reflexivity|]. split; [|auto].
    inversion H1 as [| | |? ? ? Hs|? ? ? He| |]; subst.
    + inversion Hs as [|? c0 Hc| | | | |]; subst. simpl in Hc.
      destruct (Str.ascii_eqb c0 "+") eqn:E1.
      * apply Ascii.eqb_eq in E1. subst. auto.
      * destruct (Str.ascii_eqb c0 "-") eqn:E2; [|discriminate].
        apply Ascii.eqb_eq in E2. subst. auto.
    + inversion He. auto.
  - intros (sg & d & ds & -> & Hsg & Hd & Hds).
    apply (Re.lang_cat _ _ sg (String d ds)).
    + destruct Hsg as [->|[->| ->]];
        [apply Re.lang_alt_r; constructor | apply Re.lang_alt_l; constructor; reflexivity ..].
    + apply (Re.lang_cat digit (Re.Star digit) (String d "") ds).
      * constructor. exact Hd.
      * apply digits_lang. exact Hds.
Qed.

(** C2: guess_type depends on its argument only through the non-empty
    values: no non-empty value gives "string"; otherwise all of them
    matching the integer pattern gives "integer"; otherwise all of them
    matching the real pattern gives "real"; every other case gives
    "string". *)
Theorem guess_type_cases (samples : list string) :
  let values := only_non_empty samples in
  (values = [] -> guess_type samples = "string") /\
  (values <> [] -> forallb is_int values = true -> guess_type samples = "integer") /\
  (forallb is_int values = false -> forallb is_real values = true ->
   guess_type samples = "real") /\
  (forallb is_int values = false -> forallb is_real values = false ->
   guess_type samples = "string").
Proof.
  unfold guess_type. cbv zeta.
  destruct (only_non_empty samples) as [|v vs] eqn:E.
  - repeat split; intros; try reflexivity; simpl in *; congruence.
  - repeat split; intros.
    + discriminate.
    + rewrite H0. reflexivity.
    + rewrite H, H0. reflexivity.
    + rewrite H, H0. reflexivity.
Qed.

Lemma guess_type_cases_witness :
  guess_type [""; ""] = "string"
  /\ guess_type ["12"; ""; "-7"] = "integer"
  /\ guess_type ["12"; "2.5e3"] = "real"
  /\ guess_type ["12"; "n/a"] = "string".
Proof.
  split; [| split; [| split]].
  - apply (proj1 (guess_type_cases [""; ""])). reflexivity.
  - apply (proj1 (proj2 (guess_type_cases ["12"; ""; "-7"]))).
    + discriminate.
    + vm_compute. reflexivity.
  - apply (proj1 (proj2 (proj2 (guess_type_cases ["12"; "2.5e3"])))).
    + vm_compute. reflexivity.
    + vm_compute. reflexivity.
  - apply (proj2 (proj2 (proj2 (guess_type_cases ["12"; "n/a"])))).
    + vm_compute. reflexivity.
    + vm_compute. reflexivity.
Defined.

(** ** Path normalization *)

Lemma split_not_nil (sep : ascii) (s : string) : Str.split sep s <> [].
Proof.
  induction s as [|c s IH]; simpl; [discriminate|].
  destruct (Str.ascii_eqb c sep); [discriminate|].
  destruct (Str.split sep s); discriminate.
Qed.

Lemma join_split (sep : ascii) (s : string) :
  Str.join (String sep EmptyString) (Str.split sep s) = s.
Proof.
  induction s as [|c s IH]; simpl; [reflexivity|].
  destruct (Str.ascii_eqb c sep) eqn:E.
  - apply Ascii.eqb_eq in E. subst c.
    destruct (Str.split sep s) as [|w ws] eqn:Es.
    + exfalso. eapply split_not_nil; eauto.
    + change (Str.join (String sep "") ("" :: w :: ws))
        with (String sep (Str.join (String sep "") (w :: ws))).
      rewrite IH. reflexivity.
  - destruct (Str.split sep s) as [|w ws] eqn:Es.
    + exfalso. eapply split_not_nil; eauto.
    + rewrite <- IH. destruct ws; reflexivity.
Qed.

(** Where [os.sep] is the backslash, [normpath] leaves no forward slash, and
    a path without one does not start with "/mnt/": the branch is for hosts
    whose separator is the forward slash. *)
Lemma no_slash_no_mount_prefix (norm : string) :
  Str.all (fun c => negb (Str.ascii_eqb c "/")) norm = true ->
  Str.startswith "/mnt/" norm = false.
Proof.
  destruct norm as [|c norm]; [reflexivity|].
  intros H. cbn [Str.all] in H. apply andb_prop in H as [H _].
  unfold Str.startswith. cbn [String.prefix].
  destruct (Ascii.ascii_dec "/" c) as [<-|Hne]; [discriminate | reflexivity].
Qed.

(** C5: a path whose absolute form has the segments
    ["", "mnt", "c", "Users", "x"] is mapped to "C:/Users/x": the drive letter
    is upper-cased, but the segments are joined with [os.sep], which is the
    forward slash where such a path exists, so the result is not
    "C:\Users\x", and the directory that split_dir_filename_windows returns,
    "C:/Users", keeps its forward slash. *)
Theorem mounted_drive_path_keeps_forward_slashes
  (cwd path : string) (windows_root : option string) :
  Str.split os_sep (absolute_form cwd path) = [""; "mnt"; "c"; "Users"; "x"] ->
  to_windows_path cwd path windows_root = "C:/Users/x"
  /\ to_windows_path cwd path windows_root <> "C:\Users\x"
  /\ split_dir_filename_windows (to_windows_path cwd path windows_root)
     = ("C:/Users", "x").
Proof.
  intros H.
  assert (Habs : absolute_form cwd path = "/mnt/c/Users/x").
  { rewrite <- (join_split os_sep (absolute_form cwd path)), H. reflexivity. }
  assert (Hwin : to_windows_path cwd path windows_root = "C:/Users/x").
  { unfold to_windows_path. rewrite Habs. reflexivity. }
  rewrite Hwin. split; [reflexivity | split; [discriminate | reflexivity]].
Qed.

Lemma mounted_drive_path_keeps_forward_slashes_witness :
  to_windows_path "/home/u" "/mnt/c/Users/x" (Some "C:\Users\u\proj") = "C:/Users/x"
  /\ to_windows_path "/home/u" "/mnt/c/Users/x" (Some "C:\Users\u\proj") <> "C:\Users\x"
  /\ split_dir_filename_windows
       (to_windows_path "/home/u" "/mnt/c/Users/x" (Some "C:\Users\u\proj"))
     = ("C:/Users", "x").
Proof.
  apply (mounted_drive_path_keeps_forward_slashes "/home/u" "/mnt/c/Users/x").
  vm_compute. reflexivity.
Defined.

(** ** The CSV sampler *)

Lemma length_fix_headers (raw : list string) : length (fix_headers raw) = length raw.
Proof. apply length_imap. Qed.

Lemma length_pad_row (n : nat) (row : list string) : length (pad_row n row) = n.
Proof.
  unfold pad_row. rewrite length_take, length_app, length_replicate. lia.
Qed.

Lemma pad_row_short (n : nat) (row : list string) :
  length row <= n -> pad_row n row = row ++ replicate (n - length row) "".
Proof.
  intros H. unfold pad_row. rewrite take_app, take_replicate.
  rewrite take_ge by lia. f_equal. f_equal. lia.
Qed.

Lemma pad_row_long (n : nat) (row : list string) :
  n <= length row -> pad_row n row = take n row.
Proof. intros H. unfold pad_row. apply take_app_le. exact H. Qed.

Lemma append_row_length (row : list string) :
  forall i cols cols', append_row i row cols = Some cols' -> length cols' = length cols.
Proof.
  induction row as [|v row IH]; simpl; intros i cols cols' H.
  - congruence.
  - destruct (cols !! i) as [col|]; [|discriminate].
    apply IH in H. rewrite length_insert in H. exact H.
Qed.

Lemma append_row_fits (row : list string) :
  forall i cols, i + length row <= length cols -> is_Some (append_row i row cols).
Proof.
  induction row as [|v row IH]; simpl; intros i cols H.
  - eauto.
  - destruct (lookup_lt_is_Some_2 cols i) as [col Hc]; [lia|].
    rewrite Hc. apply IH. rewrite length_insert. lia.
Qed.

Lemma transpose_length (samples : list (list string)) :
  forall cols cols', transpose samples cols = Some cols' -> length cols' = length cols.
Proof.
  induction samples as [|row rest IH]; simpl; intros cols cols' H.
  - congruence.
  - destruct (append_row 0 row cols) as [c|] eqn:E; [|discriminate].
    apply IH in H. apply append_row_length in E. congruence.
Qed.

Lemma transpose_fits (samples : list (list string)) :
  forall cols, Forall (fun row => length row <= length cols) samples ->
               is_Some (transpose samples cols).
Proof.
  induction samples as [|row rest IH]; simpl; intros cols H.
  - eauto.
  - inversion H as [|? ? Hrow Hrest]; subst.
    destruct (append_row_fits row 0 cols) as [c Hc]; [simpl; lia|].
    rewrite Hc. apply IH. apply append_row_length in Hc. rewrite Hc. exact Hrest.
Qed.

Lemma append_row_columns (row : list string) :
  forall i cols cols',
    append_row i row cols = Some cols' ->
    forall j col, cols !! j = Some col ->
      cols' !! j = Some (if bool_decide (i <= j < i + length row)
                         then col ++ [Str.strip (nth (j - i) row "")] else col).
Proof.
  induction row as [|v row IH]; simpl; intros i cols cols' H j col Hj.
  - injection H as <-. rewrite bool_decide_eq_false_2 by lia. exact Hj.
  - destruct (cols !! i) as [ci|] eqn:Ei; [|discriminate].
    destruct (decide (j = i)) as [->|Hne].
    + rewrite (IH _ _ _ H i (ci ++ [Str.strip v])).
      * rewrite bool_decide_eq_false_2 by lia. rewrite bool_decide_eq_true_2 by lia.
        rewrite Nat.sub_diag. simpl. congruence.
      * apply list_lookup_insert_eq. eapply lookup_lt_Some; eauto.
    + rewrite (IH _ _ _ H j col) by (rewrite list_lookup_insert_ne; auto).
      destruct (decide (i <= j < i + S (length row))) as [Hin|Hout].
      * rewrite !bool_decide_eq_true_2 by lia.
        replace (j - i) with (S (j - S i)) by lia. reflexivity.
      * rewrite !bool_decide_eq_false_2 by lia. reflexivity.
Qed.

(** Rows as wide as [col_samples] is long are transposed column by column. *)
Lemma transpose_columns (samples : list (list string)) :
  forall cols cols',
    Forall (fun row => length row = length cols) samples ->
    transpose samples cols = Some cols' ->
    forall j col, cols !! j = Some col ->
      cols' !! j = Some (col ++ stripped_column j samples).
Proof.
  induction samples as [|row rest IH]; simpl; intros cols cols' Hw H j col Hj.
  - injection H as <-. rewrite app_nil_r. exact Hj.
  - inversion Hw as [|? ? Hrow Hrest]; subst.
    destruct (append_row 0 row cols) as [c|] eqn:E; [|discriminate].
    pose proof (append_row_columns _ _ _ _ E j col Hj) as Hc.
    rewrite bool_decide_eq_true_2 in Hc
      by (apply lookup_lt_Some in Hj; lia).
    rewrite Nat.sub_0_r in Hc.
    rewrite (IH c cols' ltac:(rewrite (append_row_length _ _ _ _ E); exact Hrest) H j _ Hc).
    rewrite <- app_assoc. reflexivity.
Qed.

Lemma read_rows_clean_result (max_rows width : nat) :
  forall rows samples,
    read_rows max_rows width rows true samples
    = (samples ++ List.map (pad_row width) (take max_rows rows), true).
Proof.
  induction max_rows as [|n IH]; simpl; intros rows samples.
  - rewrite app_nil_r. reflexivity.
  - destruct rows as [|row rows']; simpl.
    + rewrite app_nil_r. reflexivity.
    + rewrite IH, <- app_assoc. reflexivity.
Qed.

(** Whenever the sampler returns, it returns as many types as headers. *)
Lemma sample_csv_columns_lengths read csv_path max_rows headers types :
  sample_csv_columns read csv_path max_rows = Ok (headers, types) ->
  length types = length headers /\ headers <> [].
Proof.
  unfold sample_csv_columns.
  destruct (try_encodings _ _ _ _) as [hs ss].
  destruct hs as [|h hs]; simpl; [discriminate|].
  destruct (transpose ss _) as [cols|] eqn:E; [|discriminate].
  intros [= <- <-]. apply transpose_length in E.
  rewrite length_map, E. simpl. rewrite length_map. split; [reflexivity | discriminate].
Qed.

Lemma read_rows_widths (max_rows width : nat) :
  forall rows clean samples samples' finished,
    read_rows max_rows width rows clean samples = (samples', finished) ->
    Forall (fun row => length row = width) samples ->
    Forall (fun row => length row = width) samples'.
Proof.
  induction max_rows as [|n IH]; simpl; intros rows clean samples samples' finished H Hs.
  - congruence.
  - destruct rows as [|row rows'].
    + congruence.
    + eapply IH; [exact H|]. apply Forall_app. split; [exact Hs|].
      constructor; [apply length_pad_row | constructor].
Qed.

Lemma read_rows_clean (max_rows width : nat) :
  forall rows samples, exists samples',
    read_rows max_rows width rows true samples = (samples', true).
Proof.
  induction max_rows as [|n IH]; simpl; intros rows samples; [eauto|].
  destruct rows; [eauto | apply IH].
Qed.

(** The usual case: the first encoding that opens the file reads it to the
    end (or to the sample limit).  Then the sampler returns the fixed headers
    and one type per header. *)
Lemma sample_csv_columns_clean read csv_path max_rows raw rows :
  raw <> [] ->
  read csv_path "utf-8" = Read raw rows true ->
  exists types,
    sample_csv_columns read csv_path max_rows = Ok (fix_headers raw, types)
    /\ length types = length raw.
Proof.
  intros Hraw Hread. unfold sample_csv_columns. simpl. rewrite Hread.
  destruct (read_rows_clean max_rows (length (fix_headers raw)) rows []) as [ss Hss].
  pose proof (read_rows_widths _ _ _ _ _ _ _ Hss (Forall_nil_2 _)) as Hw.
  rewrite Hss.
  destruct (fix_headers raw) as [|h hs] eqn:Eh.
  { apply (f_equal length) in Eh. rewrite length_fix_headers in Eh.
    destruct raw; [congruence | discriminate]. }
  cbn [OsPath.is_nil].
  destruct (transpose_fits ss (List.map (fun _ => []) (h :: hs))) as [cols Hc].
  { eapply Forall_impl; [exact Hw|]. intros row Hrow. simpl in Hrow.
    rewrite length_map. simpl. lia. }
  rewrite Hc. eexists. split; [reflexivity|].
  apply transpose_length in Hc. rewrite length_map, Hc, length_map.
  rewrite <- Eh. apply length_fix_headers.
Qed.

(** In the usual case the type of column [j] is guess_type of the stripped
    values of that column in the first [max_rows] rows, each padded or cut to
    the header count. *)
Lemma sample_csv_columns_clean_types read csv_path max_rows raw rows types j :
  read csv_path "utf-8" = Read raw rows true ->
  sample_csv_columns read csv_path max_rows = Ok (fix_headers raw, types) ->
  j < length raw ->
  types !! j
  = Some (guess_type
            (stripped_column j (List.map (pad_row (length raw)) (take max_rows rows)))).
Proof.
  intros Hread. unfold sample_csv_columns. simpl. rewrite Hread.
  rewrite read_rows_clean_result. simpl. rewrite length_fix_headers.
  destruct (OsPath.is_nil (fix_headers raw)); [discriminate|].
  destruct (transpose _ _) as [cols|] eqn:E; [|discriminate].
  intros [= <-] Hj.
  assert (Hcol : List.map (fun _ : string => @nil string) (fix_headers raw) !! j = Some []).
  { change (List.map ?f ?l) with (f <$> l). rewrite list_lookup_fmap.
    destruct (lookup_lt_is_Some_2 (fix_headers raw) j) as [h Hh];
      [rewrite length_fix_headers; exact Hj|].
    rewrite Hh. reflexivity. }
  pose proof (transpose_columns _ _ _ ltac:(
    apply Forall_forall; intros row Hin;
    apply list_elem_of_In, List.in_map_iff in Hin as (r & <- & _);
    rewrite length_pad_row, length_map, length_fix_headers; reflexivity) E j [] Hcol) as Hc.
  change (List.map guess_type cols) with (guess_type <$> cols).
  rewrite list_lookup_fmap, Hc. reflexivity.
Qed.

(** C3: the header row of [bom_quoted_read] is readable under every
    encoding, yet the sampler does not return a types sequence: the row that
    the utf-8-sig round padded to its three headers is still in [samples]
    when the latin-1 round has left a single header, and the transposition
    raises IndexError. *)
Theorem stale_samples_break_padding_law :
  Forall (fun encoding => exists raw rows clean,
            bom_quoted_read "data.csv" encoding = Read raw rows clean /\ raw <> [])
    encodings
  /\ try_encodings 500 (List.map (bom_quoted_read "data.csv") encodings) [] []
     = ([chars [239; 187; 191; 34; 97]], [["1"; "2"; "3"]])
  /\ sample_csv_columns bom_quoted_read "data.csv" 500 = Raise IndexError.
Proof.
  split; [|split].
  - repeat constructor; simpl; do 3 eexists; (split; [reflexivity | discriminate]).
  - vm_compute. reflexivity.
  - vm_compute. reflexivity.
Qed.

(** ** Attribute dictionaries and element searches *)

Lemma dict_get_set_eq k v d : ET.dict_get k (ET.dict_set k v d) = Some v.
Proof.
  induction d as [|[k' v'] d IH]; simpl.
  - rewrite String.eqb_refl. reflexivity.
  - destruct (String.eqb k' k) eqn:E; simpl.
    + rewrite String.eqb_refl. reflexivity.
    + rewrite E. exact IH.
Qed.

Lemma dict_get_set_ne k k' v d :
  k <> k' -> ET.dict_get k' (ET.dict_set k v d) = ET.dict_get k' d.
Proof.
  intros Hne. induction d as [|[k0 v0] d IH]; simpl.
  - apply String.eqb_neq in Hne. rewrite Hne. reflexivity.
  - destruct (String.eqb k0 k) eqn:E; simpl.
    + apply String.eqb_eq in E. subst k0.
      apply String.eqb_neq in Hne. rewrite Hne. reflexivity.
    + destruct (String.eqb k0 k'); [reflexivity | exact IH].
Qed.

Lemma dict_set_id k v d : ET.dict_get k d = Some v -> ET.dict_set k v d = d.
Proof.
  induction d as [|[k0 v0] d IH]; simpl; [discriminate|].
  destruct (String.eqb k0 k) eqn:E.
  - apply String.eqb_eq in E. intros [= ->]. subst. reflexivity.
  - intros H. rewrite IH by exact H. reflexivity.
Qed.

Lemma get_set_eq k v e : ET.get k (ET.set k v e) = Some v.
Proof. apply dict_get_set_eq. Qed.

Lemma get_set_ne k k' v e : k <> k' -> ET.get k' (ET.set k v e) = ET.get k' e.
Proof. apply dict_get_set_ne. Qed.

Lemma set_id k v e : ET.get k e = Some v -> ET.set k v e = e.
Proof.
  destruct e as [t a c]. unfold ET.get, ET.set. simpl. intros H.
  rewrite dict_set_id by exact H. reflexivity.
Qed.

Lemma tag_set k v e : tag (ET.set k v e) = tag e.
Proof. reflexivity. Qed.

Lemma children_set k v e : children (ET.set k v e) = children e.
Proof. reflexivity. Qed.

Lemma find_set t k v e : ET.find t (ET.set k v e) = ET.find t e.
Proof. reflexivity. Qed.

Lemma has_tag_true t e : ET.has_tag t e = true <-> tag e = t.
Proof. apply String.eqb_eq. Qed.

Lemma elem_eta e : Elem (tag e) (attrib e) (children e) = e.
Proof. destruct e; reflexivity. Qed.

Section AlterFirst.

Variables (p : Element -> bool) (f : Element -> Element).

Lemma alter_first_none l : List.find p l = None -> ET.alter_first p f l = l.
Proof.
  induction l as [|x l IH]; simpl; [reflexivity|].
  destruct (p x); [discriminate|]. intros H. rewrite IH by exact H. reflexivity.
Qed.

Lemma alter_first_fixed l x :
  List.find p l = Some x -> f x = x -> ET.alter_first p f l = l.
Proof.
  induction l as [|y l IH]; simpl; [discriminate|].
  destruct (p y).
  - intros [= ->] ->. reflexivity.
  - intros H Hx. rewrite IH by assumption. reflexivity.
Qed.

Lemma find_alter_first l :
  (forall x, p x = true -> p (f x) = true) ->
  List.find p (ET.alter_first p f l) = f <$> List.find p l.
Proof.
  intros Hp. induction l as [|y l IH]; simpl; [reflexivity|].
  destruct (p y) eqn:E; simpl.
  - rewrite (Hp _ E). reflexivity.
  - rewrite E. exact IH.
Qed.

Lemma find_alter_first_other (q : Element -> bool) l :
  (forall x, q (f x) = q x) ->
  List.find q (ET.alter_first p f l) = (fun y => if p y then f y else y) <$> List.find q l
  \/ List.find q (ET.alter_first p f l) = List.find q l.
Proof.
  intros Hq. induction l as [|y l IH]; simpl; [right; reflexivity|].
  destruct (p y) eqn:E; simpl.
  - rewrite Hq. destruct (q y); [left; simpl; rewrite E; reflexivity | right; reflexivity].
  - destruct (q y); [right; reflexivity | exact IH].
Qed.

Lemma length_alter_first l : length (ET.alter_first p f l) = length l.
Proof.
  induction l as [|y l IH]; simpl; [reflexivity|].
  destruct (p y); simpl; congruence.
Qed.

End AlterFirst.

Lemma find_alter_found t f e :
  (forall x, tag (f x) = tag x) ->
  ET.find t (ET.alter_found t f e) = f <$> ET.find t e.
Proof.
  intros Hf. unfold ET.find, ET.alter_found, ET.with_children. simpl.
  apply find_alter_first. intros x Hx. unfold ET.has_tag in *. rewrite Hf. exact Hx.
Qed.

Lemma alter_found_fixed t f e x :
  ET.find t e = Some x -> f x = x -> ET.alter_found t f e = e.
Proof.
  intros H Hx. unfold ET.alter_found, ET.with_children.
  rewrite (alter_first_fixed _ _ _ _ H Hx). apply elem_eta.
Qed.

Lemma alter_found_none t f e : ET.find t e = None -> ET.alter_found t f e = e.
Proof.
  intros H. unfold ET.alter_found, ET.with_children.
  rewrite (alter_first_none _ _ _ H). apply elem_eta.
Qed.

Lemma find_some_tag t e x : ET.find t e = Some x -> tag x = t.
Proof.
  unfold ET.find. intros H. apply List.find_some in H as [_ H].
  apply has_tag_true. exact H.
Qed.

Lemma find_insert_fresh (p : Element -> bool) (c : Element) (i : nat) (l : list Element) :
  List.find p l = None -> p c = true ->
  List.find p (take i l ++ c :: drop i l) = Some c.
Proof.
  revert i. induction l as [|x l IH]; intros i Hn Hc.
  - destruct i; simpl; rewrite Hc; reflexivity.
  - simpl in Hn. destruct (p x) eqn:E; [discriminate|].
    destruct i; simpl.
    + rewrite Hc. reflexivity.
    + rewrite E. apply IH; assumption.
Qed.

(** ensure_datasources_node leaves a tree that has the container; it changes
    nothing when the container is there already. *)
Lemma ensure_datasources_node_found root :
  exists ds, ET.find "datasources" (ensure_datasources_node root) = Some ds
             /\ (ET.find "datasources" root = None -> ds = Elem "datasources" [] []).
Proof.
  unfold ensure_datasources_node.
  destruct (ET.find "datasources" root) as [ds|] eqn:E.
  - exists ds. split; [exact E | discriminate].
  - exists (Elem "datasources" [] []). split; [|reflexivity].
    destruct (ET.index_of _ _); unfold ET.find, ET.insert; simpl;
      first [reflexivity | apply find_insert_fresh; auto].
Qed.

Lemma ensure_datasources_node_present root ds :
  ET.find "datasources" root = Some ds -> ensure_datasources_node root = root.
Proof. intros H. unfold ensure_datasources_node. rewrite H. reflexivity. Qed.

(** ** The data source container *)

Lemma ds_container_children_alter f root ds :
  ET.find "datasources" root = Some ds ->
  (forall x, tag (f x) = tag x) ->
  ds_container_children (ET.alter_found "datasources" f root) = children (f ds).
Proof.
  intros H Hf. unfold ds_container_children.
  rewrite find_alter_found by exact Hf. rewrite H. reflexivity.
Qed.

Lemma ds_container_children_ensure root :
  ds_container_children (ensure_datasources_node root) = ds_container_children root.
Proof.
  destruct (ET.find "datasources" root) as [ds|] eqn:E.
  - rewrite (ensure_datasources_node_present _ _ E). reflexivity.
  - destruct (ensure_datasources_node_found root) as (ds & H & Hnew).
    unfold ds_container_children. rewrite H, E, (Hnew E). reflexivity.
Qed.

Lemma never_matched_no_match filename d :
  never_matched d = true -> matches_filename filename d = false.
Proof.
  unfold never_matched, matches_filename.
  destruct (ET.find "connection" d) as [conn|]; [|reflexivity].
  destruct (ET.get "class" conn) as [cls|]; [|reflexivity].
  destruct (String.eqb cls "textscan") eqn:Ec; [|reflexivity].
  apply String.eqb_eq in Ec. subst cls.
  rewrite bool_decide_eq_true_2 by reflexivity. simpl.
  destruct (ET.get "filename" conn) as [f|]; [|reflexivity].
  rewrite (bool_decide_eq_false_2 (Some f = None)) by discriminate. simpl.
  intros H. apply bool_decide_eq_true_1 in H. injection H as ->. reflexivity.
Qed.

Section Matching.

Variables directory filename ds_caption ds_name : string.

Let update := update_first_match directory filename ds_caption ds_name.

Lemma update_first_match_none kids :
  update kids = None <-> Forall (fun k => is_source_for filename k = false) kids.
Proof.
  subst update. unfold is_source_for.
  induction kids as [|k kids IH]; simpl.
  - split; [constructor | reflexivity].
  - destruct (ET.has_tag "datasource" k && matches_filename filename k) eqn:E.
    + destruct (update_existing _ _ _ _ k). split; [discriminate|].
      intros H. inversion H; congruence.
    + destruct (update_first_match _ _ _ _ kids) as [[ks r]|].
      * split; [discriminate|]. intros H. inversion H; subst.
        apply IH in H3. discriminate.
      * split; [|reflexivity]. intros _. constructor; [exact E | apply IH; reflexivity].
Qed.

(** The loop leaves every element alone that it does not take for the
    file, and neither adds nor removes one. *)
Lemma update_first_match_frame kids kids' r :
  update kids = Some (kids', r) ->
  length kids' = length kids
  /\ forall i k, kids !! i = Some k -> is_source_for filename k = false ->
                 kids' !! i = Some k.
Proof.
  subst update. unfold is_source_for. revert kids' r.
  induction kids as [|k kids IH]; simpl; intros kids' r H; [discriminate|].
  destruct (ET.has_tag "datasource" k && matches_filename filename k) eqn:E.
  - destruct (update_existing _ _ _ _ k) as [k' r']. injection H as <- <-.
    split; [reflexivity|]. intros [|i] k0 Hk Hno; simpl in *.
    + injection Hk as ->. congruence.
    + exact Hk.
  - destruct (update_first_match _ _ _ _ kids) as [[ks r0]|]; [|discriminate].
    injection H as <- <-. destruct (IH _ _ eq_refl) as [Hlen Hfr].
    split; [simpl; congruence|]. intros [|i] k0 Hk Hno; simpl in *.
    + exact Hk.
    + apply Hfr; assumption.
Qed.

End Matching.

(** What add_textscan_datasource does when the loop finds nothing and the
    sampler returns: the fresh element goes last, the rest is as before. *)
Lemma add_textscan_datasource_appends env root csv_path cap wroot headers types :
  let location := csv_location env csv_path wroot in
  let ds_name := "textscan." +:+ Str.take 30 (uuid4_hex env) in
  let ds_caption := caption_or cap location.2 in
  Forall (fun k => is_source_for location.2 k = false) (ds_container_children root) ->
  sample_csv_columns (read_csv env) csv_path 500 = Ok (headers, types) ->
  exists root',
    add_textscan_datasource env root csv_path cap wroot = (root', Ok (ds_name, ds_caption))
    /\ ds_container_children root'
       = ds_container_children root
           ++ [new_datasource location.1 location.2 ds_caption ds_name headers types].
Proof.
  intros location ds_name ds_caption Hnone Hsample.
  unfold add_textscan_datasource. fold location.
  destruct location as [directory filename] eqn:El. simpl in *.
  fold ds_name. fold ds_caption.
  rewrite ds_container_children_ensure.
  rewrite (proj2 (update_first_match_none directory filename ds_caption ds_name _) Hnone).
  rewrite Hsample.
  eexists. split; [reflexivity|].
  destruct (ensure_datasources_node_found root) as (ds & Hds & _).
  rewrite (ds_container_children_alter _ _ _ Hds) by reflexivity.
  simpl. f_equal. rewrite <- ds_container_children_ensure.
  unfold ds_container_children. rewrite Hds. reflexivity.
Qed.

(** C10: add_textscan_datasource leaves every element of the container as it
    is, at its place, that has no connection child, or a connection of
    another class than "textscan", or a connection without a filename or with
    an empty one, whatever the call returns or raises; and when the other
    elements of the container are not taken for the file either (the loop
    finds nothing) and the CSV can be sampled, a fresh textscan datasource
    element for the file is appended behind them and its name returned. *)
Theorem unmatched_datasources_are_left_alone env root csv_path cap wroot :
  let before := ds_container_children root in
  let call := add_textscan_datasource env root csv_path cap wroot in
  let after := ds_container_children call.1 in
  (forall i d, before !! i = Some d -> never_matched d = true -> after !! i = Some d)
  /\ (Forall (fun d => never_matched d = false ->
                        is_source_for (csv_location env csv_path wroot).2 d = false) before ->
      forall headers types,
        sample_csv_columns (read_csv env) csv_path 500 = Ok (headers, types) ->
        exists fresh ds_caption,
          after = before ++ [fresh]
          /\ tag fresh = "datasource"
          /\ ET.get "caption" fresh = Some ds_caption
          /\ (ET.find "connection" fresh ≫= ET.get "class") = Some "textscan"
          /\ (ET.find "connection" fresh ≫= ET.get "filename")
             = Some (csv_location env csv_path wroot).2
          /\ call.2 = Ok ("textscan." +:+ Str.take 30 (uuid4_hex env), ds_caption)
          /\ ET.get "name" fresh = Some ("textscan." +:+ Str.take 30 (uuid4_hex env))).
Proof.
  intros before call after. split.
  - intros i d Hd Hnever. subst after call before.
    unfold add_textscan_datasource.
    destruct (csv_location env csv_path wroot) as [directory filename].
    rewrite ds_container_children_ensure.
    destruct (ensure_datasources_node_found root) as (ds & Hds & _).
    destruct (update_first_match _ _ _ _ _) as [[kids r]|] eqn:E.
    + simpl. rewrite (ds_container_children_alter _ _ _ Hds) by reflexivity. simpl.
      apply update_first_match_frame in E as [_ Hframe].
      apply Hframe; [exact Hd|].
      unfold is_source_for. rewrite (never_matched_no_match _ _ Hnever).
      apply andb_false_r.
    + destruct (sample_csv_columns _ _ _) as [[headers types]|e]; simpl.
      * rewrite (ds_container_children_alter _ _ _ Hds) by reflexivity. simpl.
        apply lookup_app_l_Some. rewrite <- ds_container_children_ensure in Hd.
        unfold ds_container_children in Hd. rewrite Hds in Hd. exact Hd.
      * rewrite ds_container_children_ensure. exact Hd.
  - intros Hall headers types Hsample.
    destruct (add_textscan_datasource_appends env root csv_path cap wroot headers types)
      as (root' & Hcall & Hkids); [|exact Hsample|].
    + eapply Forall_impl; [exact Hall|]. intros d Hd. simpl in Hd.
      destruct (never_matched d) eqn:En; [|auto].
      unfold is_source_for. rewrite (never_matched_no_match _ _ En).
      apply andb_false_r.
    + subst after call. rewrite Hcall. simpl. rewrite Hkids.
      eexists _, _. split; [reflexivity|]. repeat split; reflexivity.
Qed.

Lemma unmatched_datasources_are_left_alone_witness :
  ds_container_children
    (add_textscan_datasource demo_env demo_workbook "data/leases.csv" None None).1 !! 0
  = Some (Elem "datasource" [("name", "Parameters")] [])
  /\ exists fresh ds_caption,
       ds_container_children
         (add_textscan_datasource demo_env demo_workbook "data/leases.csv" None None).1
       = ds_container_children demo_workbook ++ [fresh]
       /\ tag fresh = "datasource"
       /\ ET.get "caption" fresh = Some ds_caption
       /\ (ET.find "connection" fresh ≫= ET.get "class") = Some "textscan"
       /\ (ET.find "connection" fresh ≫= ET.get "filename")
          = Some (csv_location demo_env "data/leases.csv" None).2
       /\ (add_textscan_datasource demo_env demo_workbook "data/leases.csv" None None).2
          = Ok ("textscan." +:+ Str.take 30 (uuid4_hex demo_env), ds_caption)
       /\ ET.get "name" fresh = Some ("textscan." +:+ Str.take 30 (uuid4_hex demo_env)).
Proof.
  pose proof (unmatched_datasources_are_left_alone demo_env demo_workbook
                "data/leases.csv" None None) as [Hframe Hfresh].
  split.
  - apply Hframe; reflexivity.
  - apply (Hfresh ltac:(repeat constructor; discriminate)
             ["id"; "col_1"; "label"] ["integer"; "real"; "string"]).
    vm_compute. reflexivity.
Defined.

(** ** Header names and column ordinals *)

Lemma fix_headers_lookup raw i h :
  raw !! i = Some h ->
  fix_headers raw !! i = Some (if Str.is_empty h then "col_" +:+ Str.of_nat i else h).
Proof.
  intros H. unfold fix_headers. rewrite list_lookup_imap, H. reflexivity.
Qed.

Lemma fix_headers_non_empty raw : Forall (fun h => h <> "") (fix_headers raw).
Proof.
  apply Forall_lookup_2. intros i h H.
  unfold fix_headers in H. rewrite list_lookup_imap in H.
  destruct (raw !! i) as [h0|]; [|discriminate]. simpl in H. injection H as <-.
  destruct h0; simpl; discriminate.
Qed.

Lemma try_encodings_headers max_rows attempts :
  forall hs0 ss0 hs ss,
    try_encodings max_rows attempts hs0 ss0 = (hs, ss) ->
    hs = hs0
    \/ exists raw rows clean, In (Read raw rows clean) attempts /\ hs = fix_headers raw.
Proof.
  induction attempts as [|a rest IH]; simpl; intros hs0 ss0 hs ss H.
  - left. congruence.
  - destruct a as [|raw rows clean].
    + apply IH in H as [H | (r & rs & c & Hin & H)]; [left; exact H|].
      right. eauto 8.
    + destruct (read_rows _ _ _ _ _) as [ss' finished].
      destruct finished.
      * injection H as <- <-. right. eauto 8.
      * apply IH in H as [H | (r & rs & c & Hin & H)]; right; eauto 8.
Qed.

Lemma sample_csv_columns_headers read csv_path max_rows headers types :
  sample_csv_columns read csv_path max_rows = Ok (headers, types) ->
  exists encoding raw rows clean,
    In encoding encodings
    /\ read csv_path encoding = Read raw rows clean
    /\ headers = fix_headers raw.
Proof.
  unfold sample_csv_columns.
  destruct (try_encodings _ _ _ _) as [hs ss] eqn:E.
  destruct hs as [|h hs]; simpl; [discriminate|].
  destruct (transpose ss _); [|discriminate]. intros [= <- <-].
  apply try_encodings_headers in E as [E | (raw & rows & clean & Hin & E)];
    [discriminate|].
  apply List.in_map_iff in Hin as (encoding & Hread & Hin).
  exists encoding, raw, rows, clean. auto.
Qed.

Lemma columns_block_new_datasource directory filename ds_caption ds_name headers types :
  columns_block (new_datasource directory filename ds_caption ds_name headers types)
  = Some (columns_element headers types).
Proof. reflexivity. Qed.

Lemma columns_element_lookup headers types i h :
  length types = length headers ->
  headers !! i = Some h ->
  exists t, types !! i = Some t
    /\ children (columns_element headers types) !! i
       = Some (Elem "column" [("datatype", t); ("name", h); ("ordinal", Str.of_nat i)] []).
Proof.
  intros Hlen Hh.
  destruct (lookup_lt_is_Some_2 types i) as [t Ht].
  { rewrite Hlen. eapply lookup_lt_Some; eauto. }
  exists t. split; [exact Ht|]. unfold columns_element. cbn [children].
  rewrite list_lookup_imap, lookup_zip_with, Hh. cbn. rewrite Ht. reflexivity.
Qed.

(** C9: when the CSV can be sampled, the headers are those of the header
    row that was read, an empty cell at index i replaced by "col_i" and the
    others kept, so none is empty; and the data source that
    add_textscan_datasource synthesizes (no existing one being taken for the
    file) has a columns block with exactly one column element per header, in
    order, whose name is the header and whose ordinal is its position in
    decimal. *)
Theorem header_names_and_column_ordinals env root csv_path cap wroot headers types :
  sample_csv_columns (read_csv env) csv_path 500 = Ok (headers, types) ->
  Forall (fun k => is_source_for (csv_location env csv_path wroot).2 k = false)
    (ds_container_children root) ->
  (exists encoding raw rows clean,
      In encoding encodings
      /\ read_csv env csv_path encoding = Read raw rows clean
      /\ length headers = length raw
      /\ forall i h, raw !! i = Some h ->
           headers !! i = Some (if Str.is_empty h then "col_" +:+ Str.of_nat i else h))
  /\ Forall (fun h => h <> "") headers
  /\ exists fresh block,
       last (ds_container_children
               (add_textscan_datasource env root csv_path cap wroot).1) = Some fresh
       /\ columns_block fresh = Some block
       /\ length (children block) = length headers
       /\ forall i h, headers !! i = Some h ->
            exists column,
              children block !! i = Some column
              /\ tag column = "column"
              /\ ET.get "name" column = Some h
              /\ ET.get "ordinal" column = Some (Str.of_nat i).
Proof.
  intros Hsample Hnone.
  destruct (sample_csv_columns_headers _ _ _ _ _ Hsample)
    as (encoding & raw & rows & clean & Hin & Hread & ->).
  destruct (sample_csv_columns_lengths _ _ _ _ _ Hsample) as [Hlen _].
  split; [|split].
  - exists encoding, raw, rows, clean.
    repeat split; auto using length_fix_headers, fix_headers_lookup.
  - apply fix_headers_non_empty.
  - destruct (add_textscan_datasource_appends env root csv_path cap wroot _ _ Hnone Hsample)
      as (root' & Hcall & Hkids).
    rewrite Hcall. simpl. rewrite Hkids, last_snoc.
    eexists _, _. split; [reflexivity|].
    split; [apply columns_block_new_datasource|]. split.
    + simpl. rewrite length_imap, length_zip_with. lia.
    + intros i h Hh.
      destruct (columns_element_lookup _ _ _ _ Hlen Hh) as (t & _ & Hcol).
      eexists. split; [exact Hcol|]. repeat split; reflexivity.
Qed.

Lemma header_names_and_column_ordinals_witness :
  Forall (fun h => h <> "") ["id"; "col_1"; "label"]
  /\ exists fresh block,
       last (ds_container_children
               (add_textscan_datasource demo_env demo_workbook "data/leases.csv"
                  None None).1) = Some fresh
       /\ columns_block fresh = Some block
       /\ length (children block) = 3
       /\ forall i h, ["id"; "col_1"; "label"] !! i = Some h ->
            exists column,
              children block !! i = Some column
              /\ tag column = "column"
              /\ ET.get "name" column = Some h
              /\ ET.get "ordinal" column = Some (Str.of_nat i).
Proof.
  apply (header_names_and_column_ordinals demo_env demo_workbook "data/leases.csv"
           None None ["id"; "col_1"; "label"] ["integer"; "real"; "string"]).
  - vm_compute. reflexivity.
  - repeat constructor.
Defined.

(** ** Linking the worksheets *)

Lemma find_snoc_fresh (p : Element -> bool) (c : Element) (l : list Element) :
  List.find p l = None -> p c = true -> List.find p (l ++ [c]) = Some c.
Proof.
  intros Hn Hc. induction l as [|x l IH]; simpl in *.
  - rewrite Hc. reflexivity.
  - destruct (p x); [discriminate | auto].
Qed.

Lemma filter_snoc (p : Element -> bool) (c : Element) (l : list Element) :
  List.filter p (l ++ [c]) = List.filter p l ++ (if p c then [c] else []).
Proof. rewrite List.filter_app. reflexivity. Qed.

Lemma filter_existsb_false (p : Element -> bool) (l : list Element) :
  existsb p l = false -> List.filter p l = [].
Proof.
  induction l as [|x l IH]; simpl; [reflexivity|].
  destruct (p x); simpl; [discriminate | exact IH].
Qed.

Lemma filter_existsb_true (p : Element -> bool) (l : list Element) :
  existsb p l = true ->
  exists x rest,
    List.filter p l = x :: rest
    /\ List.find p l = Some x
    /\ forall y, p y = true ->
         List.filter p (ET.alter_first p (fun _ => y) l) = y :: rest.
Proof.
  induction l as [|x l IH]; simpl; [discriminate|].
  destruct (p x) eqn:E; simpl.
  - intros _. exists x, (List.filter p l). repeat split.
    intros y Hy. simpl. rewrite Hy. reflexivity.
  - intros H. destruct (IH H) as (x0 & rest & Hf & Hfind & Halter).
    exists x0, rest. repeat split; auto.
    intros y Hy. simpl. rewrite E. auto.
Qed.

Lemma names_ds_link_element ds_name ds_caption m :
  names_ds m (link_element ds_name ds_caption) = String.eqb ds_name m.
Proof. reflexivity. Qed.

(** The loop body on one view. *)
Lemma attach_view_spec ds_name ds_caption view :
  tag (attach_view ds_name ds_caption view).1 = tag view
  /\ if existsb (names_ds ds_name) (view_links view)
     then attach_view ds_name ds_caption view = (view, false)
     else (attach_view ds_name ds_caption view).2 = true
          /\ view_links (attach_view ds_name ds_caption view).1
             = view_links view ++ [link_element ds_name ds_caption].
Proof.
  unfold attach_view, view_links.
  destruct (ET.find "datasources" view) as [d|] eqn:E.
  - rewrite E. destruct (existsb _ _); simpl; [auto|].
    split; [reflexivity|]. split; [reflexivity|].
    rewrite find_alter_found by reflexivity. rewrite E. simpl.
    unfold ET.findall, ET.append. simpl. rewrite filter_snoc. reflexivity.
  - assert (Hnew : ET.find "datasources" (ET.append (Elem "datasources" [] []) view)
                   = Some (Elem "datasources" [] [])).
    { unfold ET.find, ET.append. simpl. apply find_snoc_fresh; [exact E | reflexivity]. }
    rewrite Hnew. simpl. split; [reflexivity|]. split; [reflexivity|].
    rewrite find_alter_found by reflexivity. rewrite Hnew. reflexivity.
Qed.

Lemma find2_replace_view (view' : Element) (kids : list Element) :
  ET.has_tag "view" view' = true ->
  forall view,
    head (List.concat (List.map (ET.findall "view") (List.filter (ET.has_tag "table") kids)))
    = Some view ->
    head (List.concat (List.map (ET.findall "view")
            (List.filter (ET.has_tag "table")
               (ET.alter_first has_view (ET.alter_found "view" (fun _ => view')) kids))))
    = Some view'
    /\ (view' = view ->
        ET.alter_first has_view (ET.alter_found "view" (fun _ => view')) kids = kids).
Proof.
  intros Hv'. induction kids as [|k kids IH]; intros view H; [discriminate|].
  cbn [ET.alter_first List.filter] in *. unfold has_view at 1 3.
  destruct (ET.has_tag "table" k) eqn:Et; cbn [andb].
  - destruct (existsb (ET.has_tag "view") (children k)) eqn:Ex.
    + destruct (filter_existsb_true _ _ Ex) as (x & rest & Hf & Hfind & Halter).
      assert (Hx : x = view).
      { cbn [List.map List.concat] in H. unfold ET.findall in H at 1.
        rewrite Hf in H. simpl in H. congruence. }
      subst x. split.
      * cbn [List.filter].
        change (ET.has_tag "table" (ET.alter_found "view" (fun _ => view') k))
          with (ET.has_tag "table" k).
        rewrite Et. cbn [List.map List.concat]. unfold ET.findall at 1.
        cbn [children ET.alter_found ET.with_children].
        rewrite (Halter _ Hv'). reflexivity.
      * intros Heq. f_equal.
        apply (alter_found_fixed "view" _ k view); [exact Hfind | exact Heq].
    + cbn [List.filter]. rewrite Et.
      cbn [List.map List.concat] in *.
      unfold ET.findall at 1 in H. unfold ET.findall at 1.
      rewrite (filter_existsb_false _ _ Ex) in *. cbn [app] in *.
      destruct (IH _ H) as [H1 H2]. split; [exact H1|].
      intros Heq. rewrite (H2 Heq). reflexivity.
  - cbn [List.filter]. rewrite Et. destruct (IH _ H) as [H1 H2]. split; [exact H1|].
    intros Heq. rewrite (H2 Heq). reflexivity.
Qed.

(** One round of the loop on one worksheet. *)
Lemma attach_worksheet_spec ds_name ds_caption ws :
  tag (attach_worksheet ds_name ds_caption ws).1 = tag ws
  /\ match link_set ws with
     | None => attach_worksheet ds_name ds_caption ws = (ws, false)
     | Some links =>
         if existsb (names_ds ds_name) links
         then attach_worksheet ds_name ds_caption ws = (ws, false)
         else (attach_worksheet ds_name ds_caption ws).2 = true
              /\ link_set (attach_worksheet ds_name ds_caption ws).1
                 = Some (links ++ [link_element ds_name ds_caption])
     end.
Proof.
  unfold attach_worksheet, link_set.
  destruct (ET.find2 "table" "view" ws) as [view|] eqn:E; simpl; [|auto].
  destruct (attach_view_spec ds_name ds_caption view) as [Htag Hview].
  destruct (attach_view ds_name ds_caption view) as [view' counted] eqn:Ev.
  simpl in *. split; [reflexivity|].
  assert (Hv : ET.has_tag "view" view' = true).
  { apply has_tag_true. rewrite Htag.
    unfold ET.find2, ET.findall2 in E. apply head_Some_elem_of in E.
    apply list_elem_of_In, List.in_concat in E as (l & Hl & Hin).
    apply List.in_map_iff in Hl as (t & <- & _).
    apply List.filter_In in Hin as [_ Hin]. apply has_tag_true. exact Hin. }
  destruct (find2_replace_view view' (children ws) Hv view E) as [Hfind Hsame].
  destruct (existsb (names_ds ds_name) (view_links view)).
  - injection Hview as -> ->. unfold ET.with_children.
    rewrite (Hsame eq_refl). rewrite elem_eta. reflexivity.
  - destruct Hview as [-> Hlinks]. split; [reflexivity|].
    unfold ET.find2, ET.findall2, ET.with_children. simpl.
    unfold ET.findall at 2. simpl. rewrite Hfind. simpl. rewrite Hlinks. reflexivity.
Qed.

Section Attach.

Variables ds_name ds_caption : string.

Let attach := attach_worksheet ds_name ds_caption.

Lemma attach_worksheet_counts ws : (attach ws).2 = lacks_link ds_name ws.
Proof.
  subst attach. unfold lacks_link.
  destruct (attach_worksheet_spec ds_name ds_caption ws) as [_ H].
  destruct (link_set ws) as [links|]; [|rewrite H; reflexivity].
  destruct (existsb _ links); [rewrite H; reflexivity | apply H].
Qed.

Lemma attach_each_map kids count :
  attach_each ds_name ds_caption kids count
  = (List.map (relink_worksheet ds_name ds_caption) kids,
     count + length (List.filter (lacks_link ds_name)
                       (List.filter (ET.has_tag "worksheet") kids))).
Proof.
  revert count. induction kids as [|k kids IH]; intros count; simpl.
  - f_equal. lia.
  - unfold relink_worksheet at 1.
    destruct (ET.has_tag "worksheet" k) eqn:Et.
    + pose proof (attach_worksheet_counts k) as Hc. subst attach.
      destruct (attach_worksheet ds_name ds_caption k) as [k' counted].
      simpl in Hc. subst counted. rewrite IH. simpl.
      destruct (lacks_link ds_name k); simpl; f_equal; lia.
    + rewrite IH. reflexivity.
Qed.

Lemma attach_groups_map kids count :
  attach_groups ds_name ds_caption kids count
  = (List.map (relink_group ds_name ds_caption) kids,
     count + length (List.filter (lacks_link ds_name)
                       (List.concat (List.map (ET.findall "worksheet")
                                       (List.filter (ET.has_tag "worksheets") kids))))).
Proof.
  revert count. induction kids as [|k kids IH]; intros count; simpl.
  - f_equal. lia.
  - unfold relink_group at 1.
    destruct (ET.has_tag "worksheets" k) eqn:Et.
    + rewrite attach_each_map, IH. simpl.
      rewrite List.filter_app, length_app. unfold ET.findall at 2. f_equal. lia.
    + rewrite IH. reflexivity.
Qed.

Lemma attach_datasource_to_all_worksheets_map root :
  attach_datasource_to_all_worksheets root ds_name ds_caption
  = (Elem (tag root) (attrib root)
       (List.map (relink_group ds_name ds_caption) (children root)),
     length (List.filter (lacks_link ds_name) (worksheets root))).
Proof.
  unfold attach_datasource_to_all_worksheets. rewrite attach_groups_map. reflexivity.
Qed.

Lemma tag_relink_worksheet k : tag (relink_worksheet ds_name ds_caption k) = tag k.
Proof.
  unfold relink_worksheet. destruct (ET.has_tag "worksheet" k); [|reflexivity].
  apply attach_worksheet_spec.
Qed.

Lemma tag_relink_group k : tag (relink_group ds_name ds_caption k) = tag k.
Proof. unfold relink_group. destruct (ET.has_tag "worksheets" k); reflexivity. Qed.

Lemma filter_relink_worksheet kids :
  List.filter (ET.has_tag "worksheet") (List.map (relink_worksheet ds_name ds_caption) kids)
  = List.map (fun ws => (attach ws).1) (List.filter (ET.has_tag "worksheet") kids).
Proof.
  induction kids as [|k kids IH]; simpl; [reflexivity|].
  unfold ET.has_tag at 1. rewrite tag_relink_worksheet. fold (ET.has_tag "worksheet" k).
  unfold relink_worksheet at 1.
  destruct (ET.has_tag "worksheet" k); simpl; rewrite IH; reflexivity.
Qed.

Lemma worksheets_relink kids :
  List.concat (List.map (ET.findall "worksheet")
                 (List.filter (ET.has_tag "worksheets")
                    (List.map (relink_group ds_name ds_caption) kids)))
  = List.map (fun ws => (attach ws).1)
      (List.concat (List.map (ET.findall "worksheet")
                      (List.filter (ET.has_tag "worksheets") kids))).
Proof.
  induction kids as [|k kids IH]; simpl; [reflexivity|].
  unfold ET.has_tag at 1. rewrite tag_relink_group. fold (ET.has_tag "worksheets" k).
  unfold relink_group at 1.
  destruct (ET.has_tag "worksheets" k); simpl; [|exact IH].
  rewrite List.map_app, IH. f_equal.
  unfold ET.findall. simpl. apply filter_relink_worksheet.
Qed.

Lemma worksheets_after root :
  worksheets (attach_datasource_to_all_worksheets root ds_name ds_caption).1
  = List.map (fun ws => (attach ws).1) (worksheets root).
Proof.
  rewrite attach_datasource_to_all_worksheets_map.
  apply (worksheets_relink (children root)).
Qed.

End Attach.

Lemma count_name_after_link ds_name ds_caption m links :
  existsb (names_ds ds_name) links = false ->
  length (List.filter (names_ds m) links) <= 1 ->
  length (List.filter (names_ds m) (links ++ [link_element ds_name ds_caption])) <= 1.
Proof.
  intros Hnot Hle. rewrite List.filter_app, length_app. simpl.
  rewrite names_ds_link_element.
  destruct (String.eqb ds_name m) eqn:E; simpl; [|lia].
  apply String.eqb_eq in E. subst m.
  rewrite (filter_existsb_false _ _ Hnot). simpl. lia.
Qed.

(** C8: attach_datasource_to_all_worksheets keeps the worksheets in number
    and order; it leaves a worksheet without a table/view node as it is, and
    one whose link set already holds a reference named ds_name as it is; to
    every other worksheet it appends exactly one reference, with that name
    and caption, behind the existing ones; it returns the number of those
    other worksheets; and a name that occurred at most once in a
    worksheet's link set still occurs at most once there. *)
Theorem attach_links_each_worksheet_once root ds_name ds_caption :
  let call := attach_datasource_to_all_worksheets root ds_name ds_caption in
  let before := worksheets root in
  let after := worksheets call.1 in
  length after = length before
  /\ (forall i ws, before !! i = Some ws ->
        exists ws', after !! i = Some ws'
          /\ match link_set ws with
             | None => ws' = ws
             | Some links =>
                 if existsb (names_ds ds_name) links then ws' = ws
                 else link_set ws' = Some (links ++ [link_element ds_name ds_caption])
             end
          /\ forall m links links',
               link_set ws = Some links -> link_set ws' = Some links' ->
               length (List.filter (names_ds m) links) <= 1 ->
               length (List.filter (names_ds m) links') <= 1)
  /\ call.2 = length (List.filter (lacks_link ds_name) before).
Proof.
  intros call before after. subst after call before.
  rewrite worksheets_after. split; [apply length_map|]. split.
  - intros i ws Hws. eexists. split.
    { rewrite list_lookup_fmap, Hws. reflexivity. }
    destruct (attach_worksheet_spec ds_name ds_caption ws) as [_ H].
    destruct (link_set ws) as [links|] eqn:El.
    + destruct (existsb (names_ds ds_name) links) eqn:Ex.
      * rewrite H. simpl. split; [reflexivity|].
        intros m l l' [= <-] Hl'. rewrite El in Hl'. injection Hl' as <-. auto.
      * destruct H as [_ H]. split; [exact H|].
        intros m l l' [= <-] Hl'. rewrite H in Hl'. injection Hl' as <-.
        apply count_name_after_link. exact Ex.
    + rewrite H. simpl. split; [reflexivity|]. intros m l l' Hl. discriminate.
  - rewrite attach_datasource_to_all_worksheets_map. reflexivity.
Qed.

Lemma attach_links_each_worksheet_once_witness :
  exists ws',
    worksheets (attach_datasource_to_all_worksheets demo_workbook "textscan.1" "Leases").1
      !! 0 = Some ws'
    /\ link_set ws' = Some [link_element "textscan.1" "Leases"]
    /\ (attach_datasource_to_all_worksheets demo_workbook "textscan.1" "Leases").2 = 1.
Proof.
  pose proof (attach_links_each_worksheet_once demo_workbook "textscan.1" "Leases")
    as (_ & Heach & Hcount).
  destruct (Heach 0 (Elem "worksheet" [("name", "Sheet 1")]
                       [Elem "table" [] [Elem "view" [] []]]) eq_refl)
    as (ws' & Hws' & Hlinks & _).
  exists ws'. split; [exact Hws'|]. split; [exact Hlinks|].
  rewrite Hcount. reflexivity.
Defined.

(** ** Running the tool again *)

Lemma alter_found_set t f k v e :
  ET.alter_found t f (ET.set k v e) = ET.set k v (ET.alter_found t f e).
Proof. reflexivity. Qed.

Lemma get_alter_found t f k e : ET.get k (ET.alter_found t f e) = ET.get k e.
Proof. reflexivity. Qed.

Lemma alter_found_again t f e :
  (forall x, tag (f x) = tag x) ->
  (forall x, f (f x) = f x) ->
  ET.alter_found t f (ET.alter_found t f e) = ET.alter_found t f e.
Proof.
  intros Htag Hidem.
  destruct (ET.find t (ET.alter_found t f e)) as [x|] eqn:E.
  - apply (alter_found_fixed _ _ _ x E).
    rewrite find_alter_found in E by exact Htag.
    destruct (ET.find t e); [|discriminate]. injection E as <-. apply Hidem.
  - apply alter_found_none. exact E.
Qed.

Lemma update_relation_again filename rel :
  update_relation filename (update_relation filename rel) = update_relation filename rel.
Proof.
  unfold update_relation.
  rewrite (set_id "name" filename).
  - apply set_id. apply get_set_eq.
  - rewrite get_set_ne by discriminate. apply get_set_eq.
Qed.

Lemma update_connection_again directory filename conn :
  update_connection directory filename (update_connection directory filename conn)
  = update_connection directory filename conn.
Proof.
  unfold update_connection.
  rewrite (set_id "directory" directory).
  - rewrite (set_id "filename" filename).
    + apply alter_found_again; [reflexivity | apply update_relation_again].
    + rewrite get_alter_found. apply get_set_eq.
  - rewrite get_alter_found, get_set_ne by discriminate. apply get_set_eq.
Qed.

Lemma tag_update_connection directory filename conn :
  tag (update_connection directory filename conn) = tag conn.
Proof. reflexivity. Qed.

Section Rerun.

Variables directory filename ds_caption : string.

Lemma update_existing_again ds_name ds_name' e :
  ds_name <> "" ->
  update_existing directory filename ds_caption ds_name'
    (update_existing directory filename ds_caption ds_name e).1
  = update_existing directory filename ds_caption ds_name e.
Proof.
  intros Hname. unfold update_existing.
  set (e1 := ET.alter_found "connection" (update_connection directory filename) e).
  assert (H1 : ET.alter_found "connection" (update_connection directory filename) e1 = e1).
  { apply alter_found_again; [reflexivity | apply update_connection_again]. }
  set (e2 := if negb (Str.is_empty ds_caption) then ET.set "caption" ds_caption e1 else e1).
  assert (H2 : ET.alter_found "connection" (update_connection directory filename) e2 = e2).
  { subst e2. destruct (negb _); [rewrite alter_found_set, H1|]; auto. }
  assert (Hcap : (if negb (Str.is_empty ds_caption) then ET.set "caption" ds_caption e2
                  else e2) = e2).
  { subst e2. destruct (negb _); [|reflexivity]. apply set_id. apply get_set_eq. }
  destruct (truthy (ET.get "name" e2)) eqn:Et; cbn [fst].
  - rewrite H2, Hcap, Et. reflexivity.
  - rewrite alter_found_set, H2.
    assert (Hcap' : (if negb (Str.is_empty ds_caption)
                     then ET.set "caption" ds_caption (ET.set "name" ds_name e2)
                     else ET.set "name" ds_name e2) = ET.set "name" ds_name e2).
    { destruct (negb (Str.is_empty ds_caption)) eqn:Ec; [|reflexivity].
      apply set_id. rewrite get_set_ne by discriminate.
      subst e2. apply get_set_eq. }
    rewrite Hcap', get_set_eq. cbn [truthy].
    destruct ds_name; [congruence|]. reflexivity.
Qed.

Lemma update_existing_still_source ds_name e :
  is_source_for filename e = true ->
  is_source_for filename (update_existing directory filename ds_caption ds_name e).1 = true.
Proof.
  unfold is_source_for. intros H. apply andb_prop in H as [Htag Hm].
  assert (Hshape : forall x,
    (update_existing directory filename ds_caption ds_name e).1 = x ->
    tag x = tag e
    /\ ET.find "connection" x
       = update_connection directory filename <$> ET.find "connection" e).
  { intros x <-. unfold update_existing.
    set (e1 := ET.alter_found "connection" (update_connection directory filename) e).
    assert (ET.find "connection" e1
            = update_connection directory filename <$> ET.find "connection" e)
      by (apply find_alter_found; reflexivity).
    destruct (negb _); destruct (truthy _); simpl; auto. }
  destruct (Hshape _ eq_refl) as [Ht Hc].
  apply andb_true_intro. split.
  - unfold ET.has_tag in *. rewrite Ht. exact Htag.
  - unfold matches_filename in *. rewrite Hc.
    destruct (ET.find "connection" e) as [conn|]; [|discriminate]. simpl.
    unfold update_connection. rewrite !get_alter_found.
    rewrite !get_set_ne by discriminate. rewrite get_set_eq.
    destruct (ET.get "class" conn) as [cls|]; [|discriminate].
    destruct (String.eqb cls "textscan"); [|discriminate].
    destruct (ET.get "filename" conn) as [f|]; [|discriminate].
    apply andb_prop in Hm as [Hne Heq]. apply String.eqb_eq in Heq. subst f.
    rewrite Hne, String.eqb_refl. reflexivity.
Qed.

Lemma new_datasource_is_source ds_name headers types :
  filename <> "" ->
  is_source_for filename
    (new_datasource directory filename ds_caption ds_name headers types) = true.
Proof.
  intros Hf. unfold is_source_for, matches_filename. simpl.
  rewrite String.eqb_refl. destruct filename; [congruence | reflexivity].
Qed.

Lemma update_existing_new_datasource ds_name ds_name' headers types :
  ds_name <> "" ->
  update_existing directory filename ds_caption ds_name'
    (new_datasource directory filename ds_caption ds_name headers types)
  = (new_datasource directory filename ds_caption ds_name headers types,
     (ds_name, ds_caption)).
Proof.
  intros Hn. unfold update_existing, new_datasource.
  destruct ds_name as [|c n]; [congruence|].
  destruct (negb (Str.is_empty ds_caption)); reflexivity.
Qed.

(** The matching loop, run on what it (or the append after it) left. *)
Lemma update_first_match_again ds_name ds_name' kids kids' r :
  ds_name <> "" ->
  update_first_match directory filename ds_caption ds_name kids = Some (kids', r) ->
  update_first_match directory filename ds_caption ds_name' kids' = Some (kids', r).
Proof.
  intros Hn. revert kids' r.
  induction kids as [|k kids IH]; simpl; intros kids' r H; [discriminate|].
  destruct (ET.has_tag "datasource" k && matches_filename filename k) eqn:E.
  - pose proof (update_existing_again ds_name ds_name' k Hn) as Hagain.
    pose proof (update_existing_still_source ds_name k E) as Hstill.
    destruct (update_existing directory filename ds_caption ds_name k) as [k' r'].
    injection H as <- <-. simpl in *. unfold is_source_for in Hstill.
    rewrite Hstill, Hagain. reflexivity.
  - destruct (update_first_match _ _ _ _ kids) as [[ks r0]|]; [|discriminate].
    injection H as <- <-. simpl. rewrite E, (IH _ _ eq_refl). reflexivity.
Qed.

Lemma update_first_match_appended ds_name ds_name' kids headers types :
  ds_name <> "" -> filename <> "" ->
  update_first_match directory filename ds_caption ds_name kids = None ->
  let fresh := new_datasource directory filename ds_caption ds_name headers types in
  update_first_match directory filename ds_caption ds_name' (kids ++ [fresh])
  = Some (kids ++ [fresh], (ds_name, ds_caption)).
Proof.
  intros Hn Hf Hnone fresh.
  pose proof (new_datasource_is_source ds_name headers types Hf) as Hs.
  pose proof (update_existing_new_datasource ds_name ds_name' headers types Hn) as Hu.
  fold fresh in Hs, Hu. clearbody fresh. unfold is_source_for in Hs.
  apply update_first_match_none in Hnone.
  induction Hnone as [|k kids Hk _ IH]; cbn [app update_first_match].
  - rewrite Hs, Hu. reflexivity.
  - unfold is_source_for in Hk. rewrite Hk, IH. reflexivity.
Qed.

End Rerun.

Section AttachAgain.

Variables ds_name ds_caption : string.

Lemma lacks_link_after ws :
  lacks_link ds_name (attach_worksheet ds_name ds_caption ws).1 = false.
Proof.
  destruct (attach_worksheet_spec ds_name ds_caption ws) as [_ H].
  unfold lacks_link at 1.
  destruct (link_set ws) as [links|] eqn:El.
  - destruct (existsb (names_ds ds_name) links) eqn:Ex.
    + rewrite H. simpl. rewrite El, Ex. reflexivity.
    + destruct H as [_ ->]. rewrite existsb_app. simpl.
      rewrite names_ds_link_element, String.eqb_refl, orb_true_r. reflexivity.
  - rewrite H. simpl. rewrite El. reflexivity.
Qed.

Lemma attach_worksheet_again ws :
  attach_worksheet ds_name ds_caption (attach_worksheet ds_name ds_caption ws).1
  = ((attach_worksheet ds_name ds_caption ws).1, false).
Proof.
  set (ws' := (attach_worksheet ds_name ds_caption ws).1).
  pose proof (attach_worksheet_counts ds_name ds_caption ws') as Hc.
  unfold ws' in Hc at 2. rewrite lacks_link_after in Hc.
  destruct (attach_worksheet_spec ds_name ds_caption ws') as [_ H].
  destruct (link_set ws') as [links|]; [|exact H].
  destruct (existsb (names_ds ds_name) links); [exact H|].
  destruct H as [H _]. congruence.
Qed.

Lemma relink_worksheet_again k :
  relink_worksheet ds_name ds_caption (relink_worksheet ds_name ds_caption k)
  = relink_worksheet ds_name ds_caption k.
Proof.
  unfold relink_worksheet at 1.
  unfold ET.has_tag. rewrite tag_relink_worksheet. fold (ET.has_tag "worksheet" k).
  unfold relink_worksheet.
  destruct (ET.has_tag "worksheet" k); [|reflexivity].
  rewrite attach_worksheet_again. reflexivity.
Qed.

Lemma relink_group_again k :
  relink_group ds_name ds_caption (relink_group ds_name ds_caption k)
  = relink_group ds_name ds_caption k.
Proof.
  unfold relink_group at 1.
  unfold ET.has_tag. rewrite tag_relink_group. fold (ET.has_tag "worksheets" k).
  unfold relink_group.
  destruct (ET.has_tag "worksheets" k); [|reflexivity].
  simpl. f_equal. rewrite List.map_map. apply List.map_ext.
  intros x. apply relink_worksheet_again.
Qed.

(** Linking a second time, under the same name, adds nothing. *)
Lemma attach_datasource_to_all_worksheets_again root :
  let root' := (attach_datasource_to_all_worksheets root ds_name ds_caption).1 in
  attach_datasource_to_all_worksheets root' ds_name ds_caption = (root', 0).
Proof.
  intros root'.
  rewrite (attach_datasource_to_all_worksheets_map ds_name ds_caption root').
  f_equal.
  - subst root'. rewrite attach_datasource_to_all_worksheets_map. simpl. f_equal.
    rewrite List.map_map. apply List.map_ext. intros x. apply relink_group_again.
  - subst root'. rewrite worksheets_after.
    induction (worksheets root) as [|ws l IH]; simpl; [reflexivity|].
    rewrite lacks_link_after. exact IH.
Qed.

(** Linking does not touch the children of the root that are not
    [worksheets] elements, so the data source container stays as it is. *)
Lemma find_datasources_after_attach root :
  ET.find "datasources" (attach_datasource_to_all_worksheets root ds_name ds_caption).1
  = ET.find "datasources" root.
Proof.
  rewrite attach_datasource_to_all_worksheets_map. unfold ET.find. simpl.
  induction (children root) as [|k kids IH]; simpl; [reflexivity|].
  unfold ET.has_tag at 1. rewrite tag_relink_group. fold (ET.has_tag "datasources" k).
  destruct (ET.has_tag "datasources" k) eqn:Et; [|exact IH].
  unfold relink_group. apply has_tag_true in Et.
  unfold ET.has_tag. rewrite Et. reflexivity.
Qed.

End AttachAgain.

Lemma is_source_for_non_empty filename k : is_source_for filename k = true -> filename <> "".
Proof.
  unfold is_source_for, matches_filename. intros H Hf. subst filename.
  apply andb_prop in H as [_ H].
  destruct (ET.find "connection" k) as [conn|]; [|discriminate].
  destruct (ET.get "class" conn) as [cls|]; [|discriminate].
  destruct (String.eqb cls "textscan"); [|discriminate].
  destruct (ET.get "filename" conn) as [f|]; [|discriminate].
  destruct f; discriminate.
Qed.

(** What one call of add_textscan_datasource establishes: the container is
    there, and the matching loop, whatever fresh name it is given, finds the
    data source, changes nothing and returns the same pair. *)
Lemma add_textscan_datasource_settles env root csv_path cap wroot root1 r :
  add_textscan_datasource env root csv_path cap wroot = (root1, Ok r) ->
  (csv_location env csv_path wroot).2 <> "" ->
  exists ds,
    ET.find "datasources" root1 = Some ds
    /\ forall ds_name',
         update_first_match (csv_location env csv_path wroot).1
           (csv_location env csv_path wroot).2
           (caption_or cap (csv_location env csv_path wroot).2) ds_name' (children ds)
         = Some (children ds, r).
Proof.
  unfold add_textscan_datasource.
  destruct (csv_location env csv_path wroot) as [directory filename]. cbn [fst snd].
  destruct (ensure_datasources_node_found root) as (ds & Hds & _).
  assert (Hkids : ds_container_children (ensure_datasources_node root) = children ds).
  { unfold ds_container_children. rewrite Hds. reflexivity. }
  rewrite Hkids.
  assert (Hname : "textscan." +:+ Str.take 30 (uuid4_hex env) <> "") by discriminate.
  destruct (update_first_match _ _ _ _ (children ds)) as [[kids r0]|] eqn:E.
  - intros [= <- <-] _. eexists. split.
    + rewrite find_alter_found by reflexivity. rewrite Hds. reflexivity.
    + intros ds_name'. simpl. eapply update_first_match_again; eauto.
  - destruct (sample_csv_columns _ _ _) as [[headers types]|e]; [|discriminate].
    intros [= <- <-] Hf. eexists. split.
    + rewrite find_alter_found by reflexivity. rewrite Hds. reflexivity.
    + intros ds_name'. simpl. apply update_first_match_appended; assumption.
Qed.

Lemma add_textscan_datasource_settled env root csv_path cap wroot ds r :
  ET.find "datasources" root = Some ds ->
  update_first_match (csv_location env csv_path wroot).1
    (csv_location env csv_path wroot).2
    (caption_or cap (csv_location env csv_path wroot).2)
    ("textscan." +:+ Str.take 30 (uuid4_hex env)) (children ds)
  = Some (children ds, r) ->
  add_textscan_datasource env root csv_path cap wroot = (root, Ok r).
Proof.
  intros Hds Hm. unfold add_textscan_datasource.
  rewrite (ensure_datasources_node_present _ _ Hds).
  destruct (csv_location env csv_path wroot) as [directory filename]. cbn [fst snd] in Hm.
  unfold ds_container_children. rewrite Hds, Hm. f_equal.
  apply (alter_found_fixed _ _ _ ds Hds). unfold ET.with_children. apply elem_eta.
Qed.

(** A run that ended well leaves a data source that the loop takes for the
    file, provided the filename is not empty. *)
Lemma first_run_leaves_a_source env root csv_path cap wroot root1 r :
  (csv_location env csv_path wroot).2 <> "" ->
  inject_and_attach env root csv_path cap wroot = (root1, Ok r) ->
  existsb (is_source_for (csv_location env csv_path wroot).2)
    (ds_container_children root1) = true.
Proof.
  intros Hf Hrun. unfold inject_and_attach in Hrun.
  destruct (add_textscan_datasource env root csv_path cap wroot) as [root0 [[n0 c0]|e]] eqn:Ea;
    [|discriminate].
  pose proof (find_datasources_after_attach n0 c0 root0) as Hfind.
  destruct (attach_datasource_to_all_worksheets root0 n0 c0) as [root2 k].
  injection Hrun as -> _. simpl in Hfind.
  destruct (add_textscan_datasource_settles _ _ _ _ _ _ _ Ea Hf) as (ds & Hds & Hm).
  unfold ds_container_children. rewrite Hfind, Hds.
  destruct (existsb _ (children ds)) eqn:Ex; [reflexivity|]. exfalso.
  assert (Hnone : Forall (fun k => is_source_for (csv_location env csv_path wroot).2 k = false)
                    (children ds)).
  { apply Forall_forall. intros x Hx. apply list_elem_of_In in Hx.
    destruct (is_source_for _ x) eqn:Es; [|reflexivity].
    assert (existsb (is_source_for (csv_location env csv_path wroot).2) (children ds) = true)
      by (apply existsb_exists; eauto).
    congruence. }
  apply update_first_match_none with (directory := (csv_location env csv_path wroot).1)
    (ds_caption := caption_or cap (csv_location env csv_path wroot).2) (ds_name := "")
    in Hnone.
  rewrite Hm in Hnone. discriminate.
Qed.

(** Starting without a data source for the file, a run that ended well
    leaves exactly one. *)
Lemma first_run_adds_one_source env root csv_path cap wroot root1 r :
  (csv_location env csv_path wroot).2 <> "" ->
  Forall (fun k => is_source_for (csv_location env csv_path wroot).2 k = false)
    (ds_container_children root) ->
  inject_and_attach env root csv_path cap wroot = (root1, Ok r) ->
  length (List.filter (is_source_for (csv_location env csv_path wroot).2)
            (ds_container_children root1)) = 1.
Proof.
  intros Hf Hnone Hrun. unfold inject_and_attach in Hrun.
  destruct (add_textscan_datasource env root csv_path cap wroot) as [root0 [[n0 c0]|e]] eqn:Ea;
    [|discriminate].
  pose proof (find_datasources_after_attach n0 c0 root0) as Hfind.
  destruct (attach_datasource_to_all_worksheets root0 n0 c0) as [root2 k].
  injection Hrun as -> _. simpl in Hfind.
  assert (Hkids : ds_container_children root1 = ds_container_children root0)
    by (unfold ds_container_children; rewrite Hfind; reflexivity).
  rewrite Hkids.
  destruct (sample_csv_columns (read_csv env) csv_path 500) as [[headers types]|e] eqn:Es.
  - destruct (add_textscan_datasource_appends env root csv_path cap wroot headers types
                Hnone Es) as (root' & Hcall & Hnew).
    rewrite Ea in Hcall. injection Hcall as <- _ _. rewrite Hnew.
    rewrite List.filter_app, length_app. simpl.
    rewrite new_datasource_is_source by exact Hf. simpl.
    replace (List.filter _ (ds_container_children root)) with (@nil Element); [reflexivity|].
    symmetry. clear -Hnone. induction Hnone as [|x l Hx _ IH]; simpl; [reflexivity|].
    rewrite Hx. exact IH.
  - exfalso. unfold add_textscan_datasource in Ea.
    destruct (csv_location env csv_path wroot) as [directory filename]. cbn [snd] in Hnone.
    rewrite ds_container_children_ensure in Ea.
    rewrite (proj2 (update_first_match_none directory filename _ _ _) Hnone) in Ea.
    rewrite Es in Ea. discriminate.
Qed.

(** ** The backup file *)

Lemma rpartition_join sep s h t :
  Str.rpartition sep s = Some (h, t) -> s = h +:+ String sep t.
Proof.
  revert h t. induction s as [|c s IH]; simpl; intros h t H; [discriminate|].
  destruct (Str.rpartition sep s) as [[h0 t0]|].
  - injection H as <- <-. rewrite (IH h0 t0 eq_refl) at 1. reflexivity.
  - destruct (Str.ascii_eqb c sep) eqn:E; [|discriminate].
    apply Ascii.eqb_eq in E. injection H as <- <-. subst. reflexivity.
Qed.

Lemma append_assoc (a b c : string) : (a +:+ b) +:+ c = a +:+ b +:+ c.
Proof.
  induction a as [|x a IH]; [reflexivity|].
  change (String x ((a +:+ b) +:+ c) = String x (a +:+ b +:+ c)). f_equal. exact IH.
Qed.

Lemma length_append (a b : string) :
  String.length (a +:+ b) = String.length a + String.length b.
Proof.
  induction a as [|x a IH]; [reflexivity|].
  change (S (String.length (a +:+ b)) = S (String.length a + String.length b)).
  f_equal. exact IH.
Qed.

Lemma append_empty_r (a : string) : a +:+ "" = a.
Proof.
  induction a as [|x a IH]; [reflexivity|].
  change (String x (a +:+ "") = String x a). f_equal. exact IH.
Qed.

(** [splitext] cuts the path in two. *)
Lemma splitext_join path base ext :
  OsPath.splitext path = (base, ext) -> base +:+ ext = path.
Proof.
  unfold OsPath.splitext.
  destruct (Str.rpartition OsPath.sep path) as [[h t]|] eqn:Es.
  - apply rpartition_join in Es.
    destruct (Str.rpartition OsPath.extsep t) as [[pre e]|] eqn:Ed.
    + apply rpartition_join in Ed.
      destruct (Str.all _ pre); intros [= <- <-].
      * apply append_empty_r.
      * rewrite Es, Ed. rewrite !append_assoc. reflexivity.
    + intros [= <- <-]. apply append_empty_r.
  - destruct (Str.rpartition OsPath.extsep path) as [[pre e]|] eqn:Ed.
    + apply rpartition_join in Ed.
      destruct (Str.all _ pre); intros [= <- <-].
      * apply append_empty_r.
      * symmetry. exact Ed.
    + intros [= <- <-]. apply append_empty_r.
Qed.

Lemma backup_path_differs path : backup_path path <> path.
Proof.
  unfold backup_path. destruct (OsPath.splitext path) as [base ext] eqn:E.
  apply splitext_join in E. intros H. apply (f_equal String.length) in H.
  rewrite <- E in H. rewrite !length_append in H. simpl in H. lia.
Qed.

Lemma backup_file_other files path p :
  exists_path files p = true -> (backup_file files path).1 !! p = files !! p.
Proof.
  unfold backup_file, exists_path. intros Hp.
  destruct (files !! backup_path path) as [n|] eqn:Eb; simpl; [reflexivity|].
  destruct (files !! path) as [[content|]|]; simpl; try reflexivity.
  apply lookup_insert_ne. intros <-. rewrite Eb in Hp. discriminate.
Qed.

Section MainProperties.

Variable xml_parse : list Byte.byte -> option Element.
Variable xml_write : Element -> list Byte.byte.
Variable csv_reader : string -> list Byte.byte -> attempt.
Variable cwd : string.
Variable uuid : string.

Let run := main xml_parse xml_write csv_reader cwd uuid.
Let env := env_of csv_reader cwd uuid.

Lemma parse_file_is_file files path root :
  parse_file xml_parse files path = Ok root ->
  exists content, files !! path = Some (File content).
Proof.
  unfold parse_file. destruct (files !! path) as [[content|]|]; try discriminate.
  eauto.
Qed.

Lemma backup_file_of_file files path content :
  files !! path = Some (File content) ->
  exists files',
    backup_file files path = (files', Ok (backup_path path))
    /\ files' !! backup_path path
       = match files !! backup_path path with
         | Some n => Some n
         | None => Some (File content)
         end
    /\ forall p, p <> backup_path path -> files' !! p = files !! p.
Proof.
  intros Hpath. unfold backup_file, exists_path.
  destruct (files !! backup_path path) as [n|] eqn:Eb; simpl.
  - exists files. rewrite Eb. auto.
  - rewrite Hpath. eexists. split; [reflexivity|]. split.
    + apply lookup_insert_eq.
    + intros p Hp. apply lookup_insert_ne. congruence.
Qed.

Lemma sample_after_backup files path csv_path max_rows :
  exists_path files csv_path = true ->
  sample_csv_columns (read_csv (env (backup_file files path).1)) csv_path max_rows
  = sample_csv_columns (read_csv (env files)) csv_path max_rows.
Proof.
  intros H. unfold sample_csv_columns.
  replace (List.map (read_csv (env (backup_file files path).1) csv_path) encodings)
    with (List.map (read_csv (env files) csv_path) encodings); [reflexivity|].
  apply List.map_ext. intros encoding. subst env. simpl.
  rewrite backup_file_other by exact H. reflexivity.
Qed.

(** What main does once both files exist and the workbook parses. *)
Lemma main_after_parse args w root :
  exists_path (fs w) (csv args) = true ->
  parse_file xml_parse (fs w) (workbook args) = Ok root ->
  exists files,
    backup_file (fs w) (workbook args) = (files, Ok (backup_path (workbook args)))
    /\ match inject_and_attach (env files) root (csv args)
               (caption args) (windows_root args) with
       | (_, Raise e) => run args w = (with_fs files w, Uncaught e)
       | (root', Ok (ds_name, ds_caption, attached)) =>
           (run args w).2 = Returned
           /\ fs (run args w).1
              = <[workbook args := File (xml_write root')]> files
           /\ stdout (run args w).1
              = stdout w
                  ++ ["Inserted datasource: " +:+ ds_caption +:+ " (" +:+ ds_name +:+ ")";
                      "Attached to worksheets: " +:+ Str.of_nat attached;
                      "Done. Open the workbook in Tableau to validate fields and set roles."]
       end.
Proof.
  intros Hcsv Hparse.
  destruct (parse_file_is_file _ _ _ Hparse) as [content Hwb].
  destruct (backup_file_of_file _ _ _ Hwb) as (files & Hb & _).
  exists files. split; [exact Hb|].
  subst run env. unfold main, exists_path in *. rewrite Hwb. simpl.
  destruct (fs w !! csv args); [|discriminate]. simpl.
  rewrite Hparse, Hb. simpl.
  destruct (inject_and_attach _ _ _ _ _) as [root' [[[ds_name ds_caption] attached]|e]];
    simpl; [|reflexivity].
  split; [reflexivity|]. split; [reflexivity|].
  rewrite <- !app_assoc. reflexivity.
Qed.

(** C4: backup_file names the backup by putting ".backup" between the two
    parts that splitext makes of the path, which is never the path itself;
    if that file exists it leaves every file as it is; if not, it gives it
    the content the workbook has at that moment and leaves the other files
    as they are.  In main this happens before the tree is written back: a
    backup that main created holds the workbook as it was when main
    started, whether or not the run then writes the workbook, and a backup
    that was there holds what it held. *)
Theorem backup_law files path :
  (exists base ext,
      OsPath.splitext path = (base, ext)
      /\ base +:+ ext = path
      /\ backup_path path = base +:+ ".backup" +:+ ext)
  /\ backup_path path <> path
  /\ (exists_path files (backup_path path) = true ->
      backup_file files path = (files, Ok (backup_path path)))
  /\ (exists_path files (backup_path path) = false ->
      forall content, files !! path = Some (File content) ->
        exists files',
          backup_file files path = (files', Ok (backup_path path))
          /\ files' !! backup_path path = Some (File content)
          /\ forall p, p <> backup_path path -> files' !! p = files !! p)
  /\ (forall args w root,
        fs w = files -> workbook args = path ->
        exists_path files (csv args) = true ->
        parse_file xml_parse files path = Ok root ->
        fs (run args w).1 !! backup_path path
        = match files !! backup_path path with
          | Some n => Some n
          | None => files !! path
          end).
Proof.
  split; [|split; [|split; [|split]]].
  - unfold backup_path. destruct (OsPath.splitext path) as [base ext] eqn:E.
    exists base, ext. split; [reflexivity|]. split; [|reflexivity].
    apply splitext_join. exact E.
  - apply backup_path_differs.
  - unfold backup_file. intros ->. reflexivity.
  - intros Hno content Hpath.
    destruct (backup_file_of_file _ _ _ Hpath) as (files' & Hb & Hnew & Hother).
    exists files'. split; [exact Hb|]. split; [|exact Hother].
    rewrite Hnew. unfold exists_path in Hno.
    destruct (files !! backup_path path); [discriminate | reflexivity].
  - intros args w root <- <- Hcsv Hparse.
    destruct (parse_file_is_file _ _ _ Hparse) as [content Hwb].
    destruct (backup_file_of_file _ _ _ Hwb) as (files' & Hb & Hnew & _).
    destruct (main_after_parse args w root Hcsv Hparse) as (files & Hb' & Hrun).
    rewrite Hb in Hb'. injection Hb' as <-.
    rewrite Hwb, <- Hnew.
    destruct (inject_and_attach _ _ _ _ _) as [root' [[[ds_name ds_caption] attached]|e]].
    + destruct Hrun as (_ & -> & _).
      apply lookup_insert_ne. apply not_eq_sym, backup_path_differs.
    + rewrite Hrun. reflexivity.
Qed.

Lemma main_uncaught_leaves_workbook args w e :
  (run args w).2 = Uncaught e ->
  fs (run args w).1 !! workbook args = fs w !! workbook args
  /\ stdout (run args w).1 = stdout w.
Proof.
  subst run. unfold main.
  destruct (negb (exists_path (fs w) (workbook args))); [discriminate|].
  destruct (negb (exists_path (fs w) (csv args))); [discriminate|].
  destruct (parse_file xml_parse (fs w) (workbook args)) as [root|e0] eqn:Ep;
    [|intros _; split; reflexivity].
  destruct (parse_file_is_file _ _ _ Ep) as [content Hwb].
  destruct (backup_file_of_file _ _ _ Hwb) as (files & Hb & _ & Hother).
  rewrite Hb. cbn [fs with_fs].
  destruct (inject_and_attach _ _ _ _ _) as [root' [[[ds_name ds_caption] attached]|e1]];
    [discriminate|].
  intros _. split; [|reflexivity]. simpl. apply Hother.
  apply not_eq_sym, backup_path_differs.
Qed.

(** C6: when no encoding delivers a header row, sample_csv_columns raises
    RuntimeError "Unable to read CSV headers from <path>".  In main, with
    both files present, the workbook parsed and no data source of it taken
    for the file (so that the sampler is called), that error ends the run:
    nothing is printed and the workbook file holds what it held.  The same
    holds for every run that ends in an exception: the write is the last
    step. *)
Theorem unreadable_csv_aborts_before_writing :
  (forall read csv_path max_rows,
      Forall (fun encoding => read csv_path encoding = NoHeader) encodings ->
      sample_csv_columns read csv_path max_rows
      = Raise (RuntimeError ("Unable to read CSV headers from " +:+ csv_path)))
  /\ (forall args w root,
        exists_path (fs w) (csv args) = true ->
        parse_file xml_parse (fs w) (workbook args) = Ok root ->
        Forall (fun encoding => read_csv (env (fs w)) (csv args) encoding = NoHeader)
          encodings ->
        Forall (fun k =>
                  is_source_for
                    (csv_location (env (fs w)) (csv args) (windows_root args)).2 k
                  = false)
          (ds_container_children root) ->
        (run args w).2
        = Uncaught (RuntimeError ("Unable to read CSV headers from " +:+ csv args))
        /\ fs (run args w).1 !! workbook args = fs w !! workbook args
        /\ stdout (run args w).1 = stdout w)
  /\ (forall args w e,
        (run args w).2 = Uncaught e ->
        fs (run args w).1 !! workbook args = fs w !! workbook args).
Proof.
  assert (Hsample : forall read csv_path max_rows,
    Forall (fun encoding => read csv_path encoding = NoHeader) encodings ->
    sample_csv_columns read csv_path max_rows
    = Raise (RuntimeError ("Unable to read CSV headers from " +:+ csv_path))).
  { intros read csv_path max_rows H. unfold sample_csv_columns, encodings in *.
    inversion H as [|? ? H1 H']; subst. inversion H' as [|? ? H2 H'']; subst.
    inversion H'' as [|? ? H3 _]; subst.
    simpl. rewrite H1, H2, H3. reflexivity. }
  split; [exact Hsample|]. split.
  - intros args w root Hcsv Hparse Hno Hnone.
    assert (Hout : (run args w).2
                   = Uncaught (RuntimeError
                                 ("Unable to read CSV headers from " +:+ csv args))).
    { destruct (main_after_parse args w root Hcsv Hparse) as (files & Hb & Hrun).
      assert (Hfiles : files = (backup_file (fs w) (workbook args)).1)
        by (rewrite Hb; reflexivity).
      unfold inject_and_attach, add_textscan_datasource in Hrun.
      change (csv_location (env files) (csv args) (windows_root args))
        with (csv_location (env (fs w)) (csv args) (windows_root args)) in Hrun.
      destruct (csv_location (env (fs w)) (csv args) (windows_root args))
        as [directory filename]. cbn [snd] in Hnone.
      rewrite ds_container_children_ensure in Hrun.
      rewrite (proj2 (update_first_match_none directory filename _ _ _) Hnone) in Hrun.
      rewrite Hfiles, sample_after_backup in Hrun by exact Hcsv.
      rewrite (Hsample _ _ _ Hno) in Hrun. rewrite Hrun. reflexivity. }
    split; [exact Hout|]. apply (main_uncaught_leaves_workbook _ _ _ Hout).
  - intros args w e H. apply (main_uncaught_leaves_workbook _ _ _ H).
Qed.

(** C7: if the workbook path or the CSV path does not exist, main appends
    one line to standard error and exits with status 1; the files and the
    standard output are as before, and the result does not depend on the
    XML layer, the CSV layer, the working directory or the uuid, none of
    which is reached.  When both exist, the workbook parses and the
    injection returns, main returns, and the exit status is 0; it is 0 in
    no other case. *)
Theorem missing_input_exits_with_status_1 args w :
  (exists_path (fs w) (workbook args) = false \/ exists_path (fs w) (csv args) = false ->
   (run args w = (print_err ("Error: workbook not found: " +:+ workbook args) w, SysExit 1)
    \/ run args w = (print_err ("Error: csv not found: " +:+ csv args) w, SysExit 1))
   /\ exit_status (run args w).2 = 1
   /\ fs (run args w).1 = fs w
   /\ stdout (run args w).1 = stdout w
   /\ length (stderr (run args w).1) = S (length (stderr w))
   /\ forall xml_parse' xml_write' csv_reader' cwd' uuid',
        main xml_parse' xml_write' csv_reader' cwd' uuid' args w = run args w)
  /\ (forall root files root' ds_name ds_caption attached,
        exists_path (fs w) (csv args) = true ->
        parse_file xml_parse (fs w) (workbook args) = Ok root ->
        (backup_file (fs w) (workbook args)).1 = files ->
        inject_and_attach (env files) root (csv args) (caption args) (windows_root args)
        = (root', Ok (ds_name, ds_caption, attached)) ->
        (run args w).2 = Returned /\ exit_status (run args w).2 = 0)
  /\ (exit_status (run args w).2 = 0 <-> (run args w).2 = Returned).
Proof.
  split; [|split].
  - intros Hmissing. subst run. unfold main.
    destruct (exists_path (fs w) (workbook args)) eqn:Ewb; simpl.
    + destruct Hmissing as [H|H]; [discriminate|]. rewrite H. simpl.
      split; [right; reflexivity|].
      repeat split; try reflexivity. rewrite length_app. simpl. lia.
    + split; [left; reflexivity|].
      repeat split; try reflexivity. rewrite length_app. simpl. lia.
  - intros root files root' ds_name ds_caption attached Hcsv Hparse Hfiles Hinject.
    destruct (main_after_parse args w root Hcsv Hparse) as (files' & Hb & Hrun).
    rewrite Hb in Hfiles. simpl in Hfiles. subst files'.
    rewrite Hinject in Hrun. destruct Hrun as [-> _]. split; reflexivity.
  - split.
    + destruct (run args w).2 as [|status|e] eqn:E; simpl; [reflexivity| |discriminate].
      intros ->. exfalso. subst run. unfold main in E.
      destruct (negb _) in E; [discriminate|].
      destruct (negb _) in E; [discriminate|].
      destruct (parse_file _ _ _) in E; [|discriminate].
      destruct (backup_file _ _) as [? []] in E; [|discriminate].
      destruct (inject_and_attach _ _ _ _ _) as [? [[[? ?] ?]|?]] in E; discriminate.
    + intros ->. reflexivity.
Qed.

End MainProperties.

Lemma backup_law_witness :
  backup_file (<["book.backup.twb" := File []]> demo_files) "book.twb"
  = (<["book.backup.twb" := File []]> demo_files, Ok "book.backup.twb")
  /\ (exists files',
        backup_file demo_files "book.twb" = (files', Ok "book.backup.twb")
        /\ files' !! "book.backup.twb" = Some (File [Byte.x3c; Byte.x77])
        /\ forall p, p <> "book.backup.twb" -> files' !! p = demo_files !! p)
  /\ fs (demo_run demo_args demo_world).1 !! "book.backup.twb"
     = Some (File [Byte.x3c; Byte.x77]).
Proof.
  split; [|split].
  - apply (proj1 (proj2 (proj2
      (backup_law demo_parse demo_write demo_reader "" ""
         (<["book.backup.twb" := File []]> demo_files) "book.twb")))).
    vm_compute. reflexivity.
  - apply (proj1 (proj2 (proj2 (proj2
      (backup_law demo_parse demo_write demo_reader "" "" demo_files "book.twb"))))).
    + vm_compute. reflexivity.
    + vm_compute. reflexivity.
  - apply (proj2 (proj2 (proj2 (proj2
      (backup_law demo_parse demo_write demo_reader "/home/u/proj"
         "0123456789abcdef0123456789abcdef" demo_files "book.twb"))))
      demo_args demo_world demo_workbook).
    + reflexivity.
    + reflexivity.
    + vm_compute. reflexivity.
    + vm_compute. reflexivity.
Defined.

Lemma unreadable_csv_aborts_before_writing_witness :
  sample_csv_columns (fun _ _ => NoHeader) "data/empty.csv" 500
  = Raise (RuntimeError "Unable to read CSV headers from data/empty.csv")
  /\ (demo_run demo_args_empty_csv demo_world).2
     = Uncaught (RuntimeError "Unable to read CSV headers from data/empty.csv")
  /\ fs (demo_run demo_args_empty_csv demo_world).1 !! "book.twb"
     = Some (File [Byte.x3c; Byte.x77])
  /\ stdout (demo_run demo_args_empty_csv demo_world).1 = [].
Proof.
  pose proof (unreadable_csv_aborts_before_writing demo_parse demo_write demo_reader
                "/home/u/proj" "0123456789abcdef0123456789abcdef")
    as (Hsample & Hmain & _).
  split.
  - apply (Hsample (fun _ _ => NoHeader) "data/empty.csv" 500). repeat constructor.
  - apply (Hmain demo_args_empty_csv demo_world demo_workbook).
    + vm_compute. reflexivity.
    + vm_compute. reflexivity.
    + repeat constructor.
    + repeat constructor.
Defined.

Lemma missing_input_exits_with_status_1_witness :
  exit_status (demo_run demo_args_no_workbook demo_world).2 = 1
  /\ fs (demo_run demo_args_no_workbook demo_world).1 = demo_files
  /\ exit_status (demo_run demo_args demo_world).2 = 0.
Proof.
  pose proof (missing_input_exits_with_status_1 demo_parse demo_write demo_reader
                "/home/u/proj" "0123456789abcdef0123456789abcdef"
                demo_args_no_workbook demo_world) as (Hmissing & _ & _).
  pose proof (missing_input_exits_with_status_1 demo_parse demo_write demo_reader
                "/home/u/proj" "0123456789abcdef0123456789abcdef"
                demo_args demo_world) as (_ & Hok & _).
  split; [|split].
  - apply Hmissing. left. vm_compute. reflexivity.
  - apply Hmissing. left. vm_compute. reflexivity.
  - eapply (Hok demo_workbook).
    + vm_compute. reflexivity.
    + vm_compute. reflexivity.
    + reflexivity.
    + vm_compute. reflexivity.
Defined.

(** * Further properties *)

(** ** Patterns and types *)

Lemma lang_append_empty_r r s : Re.lang r s -> Re.lang r (s +:+ "").
Proof. rewrite append_empty_r. auto. Qed.

(** X1: every string that matches the integer pattern matches the real
    pattern too, so that a column is "integer" only by the order of the two
    tests in guess_type. *)
Theorem is_int_is_real (s : string) : is_int s = true -> is_real s = true.
Proof.
  intros H. apply is_int_spec in H as (sg & d & ds & -> & Hsg & Hd & Hds).
  apply is_real_lang. unfold real_pattern, Re.Opt, Re.Plus.
  apply (Re.lang_cat _ _ sg (String d ds)).
  - destruct Hsg as [->|[->| ->]];
      [apply Re.lang_alt_r; constructor | apply Re.lang_alt_l; constructor; reflexivity ..].
  - rewrite <- (append_empty_r (String d ds)).
    apply Re.lang_cat; [|apply Re.lang_alt_r; constructor].
    apply Re.lang_alt_r, Re.lang_alt_r.
    apply (Re.lang_cat digit (Re.Star digit) (String d "") ds).
    + constructor. exact Hd.
    + apply digits_lang. exact Hds.
Qed.

Lemma is_int_is_real_witness : is_real "-42" = true.
Proof. apply (is_int_is_real "-42"). vm_compute. reflexivity. Defined.

Lemma only_non_empty_app a b :
  only_non_empty (a ++ b) = only_non_empty a ++ only_non_empty b.
Proof. apply List.filter_app. Qed.

Lemma guess_type_non_blank samples :
  only_non_empty samples <> [] ->
  guess_type samples
  = if forallb is_int (only_non_empty samples) then "integer"
    else if forallb is_real (only_non_empty samples) then "real"
    else "string".
Proof.
  unfold guess_type. destruct (only_non_empty samples); [congruence | reflexivity].
Qed.

Lemma forallb_is_int_is_real l : forallb is_int l = true -> forallb is_real l = true.
Proof.
  rewrite !forallb_forall. intros H x Hx. apply is_int_is_real. auto.
Qed.

(** X2: the type of two runs of samples put together.  A run without a
    non-empty value does not count; otherwise the result is "integer" when
    both runs are, "real" when both are numeric and not both integer, and
    "string" as soon as one of them is. *)
Theorem guess_type_app (a b : list string) :
  (only_non_empty a = [] -> guess_type (a ++ b) = guess_type b)
  /\ (only_non_empty b = [] -> guess_type (a ++ b) = guess_type a)
  /\ (only_non_empty a <> [] -> only_non_empty b <> [] ->
      guess_type (a ++ b)
      = if String.eqb (guess_type a) "integer" && String.eqb (guess_type b) "integer"
        then "integer"
        else if String.eqb (guess_type a) "string" || String.eqb (guess_type b) "string"
             then "string" else "real").
Proof.
  split; [|split].
  - intros Ha. unfold guess_type. rewrite only_non_empty_app, Ha. reflexivity.
  - intros Hb. unfold guess_type. rewrite only_non_empty_app, Hb, app_nil_r. reflexivity.
  - intros Ha Hb.
    assert (Hab : only_non_empty (a ++ b) <> []).
    { rewrite only_non_empty_app. destruct (only_non_empty a); [congruence | discriminate]. }
    rewrite (guess_type_non_blank _ Hab), (guess_type_non_blank _ Ha),
      (guess_type_non_blank _ Hb).
    rewrite only_non_empty_app, !forallb_app.
    pose proof (forallb_is_int_is_real (only_non_empty a)) as Ia.
    pose proof (forallb_is_int_is_real (only_non_empty b)) as Ib.
    destruct (forallb is_int (only_non_empty a)), (forallb is_int (only_non_empty b));
      try rewrite (Ia eq_refl); try rewrite (Ib eq_refl);
      destruct (forallb is_real (only_non_empty a));
      destruct (forallb is_real (only_non_empty b)); reflexivity.
Qed.

Lemma guess_type_app_witness :
  guess_type ([""; ""] ++ ["1"; "2"]) = guess_type ["1"; "2"]
  /\ guess_type (["1"; "2"] ++ [""]) = guess_type ["1"; "2"]
  /\ guess_type (["1"; "2"] ++ ["2.5"]) = "real".
Proof.
  split; [|split].
  - apply (proj1 (guess_type_app [""; ""] ["1"; "2"])). reflexivity.
  - apply (proj1 (proj2 (guess_type_app ["1"; "2"] [""]))). reflexivity.
  - apply (proj2 (proj2 (guess_type_app ["1"; "2"] ["2.5"]))); discriminate.
Defined.

(** ** The sampler *)

Lemma imap_id_on {A} (f : nat -> A -> A) (l : list A) :
  (forall i x, l !! i = Some x -> f i x = x) -> imap f l = l.
Proof.
  revert f. induction l as [|x l IH]; intros f H; [reflexivity|].
  rewrite imap_cons. f_equal.
  - apply (H 0). reflexivity.
  - apply IH. intros i y Hy. apply (H (S i)). exact Hy.
Qed.

(** X3: the header fix-up only fills empty cells: headers that are all
    non-empty come back as they are, the fix-up applied twice is the fix-up,
    and it does not make headers unique: a cell that already reads "col_j"
    and the empty cell at index j come out equal. *)
Theorem fix_headers_only_fills_blanks (raw : list string) :
  (Forall (fun h => h <> "") raw -> fix_headers raw = raw)
  /\ fix_headers (fix_headers raw) = fix_headers raw
  /\ (forall i j, raw !! i = Some ("col_" +:+ Str.of_nat j) -> raw !! j = Some "" ->
        fix_headers raw !! i = fix_headers raw !! j).
Proof.
  assert (Hid : forall l, Forall (fun h => h <> "") l -> fix_headers l = l).
  { intros l Hl. unfold fix_headers. apply imap_id_on. intros i x Hx.
    rewrite Forall_lookup in Hl. specialize (Hl i x Hx).
    destruct x; [congruence | reflexivity]. }
  split; [apply Hid|]. split.
  - apply Hid, fix_headers_non_empty.
  - intros i j Hi Hj.
    rewrite (fix_headers_lookup _ _ _ Hi), (fix_headers_lookup _ _ _ Hj). reflexivity.
Qed.

Lemma fix_headers_only_fills_blanks_witness :
  fix_headers ["id"; "id"] = ["id"; "id"]
  /\ fix_headers ["col_1"; ""] !! 0 = fix_headers ["col_1"; ""] !! 1.
Proof.
  split.
  - apply (proj1 (fix_headers_only_fills_blanks ["id"; "id"])).
    repeat constructor; discriminate.
  - apply (proj2 (proj2 (fix_headers_only_fills_blanks ["col_1"; ""])) 0 1); reflexivity.
Defined.

(** X4: padding and truncation keep every cell at its index: below the
    header count a padded row has the cell of the raw row, or the empty
    string where the raw row is too short; from the header count on it has
    nothing. *)
Theorem pad_row_lookup (n : nat) (row : list string) (i : nat) :
  pad_row n row !! i = if i <? n then Some (default "" (row !! i)) else None.
Proof.
  unfold pad_row. destruct (Nat.ltb_spec i n) as [Hlt|Hge].
  - rewrite lookup_take_lt by exact Hlt.
    destruct (row !! i) as [x|] eqn:E.
    + rewrite (lookup_app_l_Some _ _ _ _ E). reflexivity.
    + apply lookup_ge_None in E. rewrite lookup_app_r by exact E.
      rewrite lookup_replicate_2 by lia. reflexivity.
  - apply lookup_take_ge. exact Hge.
Qed.

Lemma read_rows_truncate (max_rows width : nat) :
  forall rows clean samples,
    read_rows max_rows width rows clean samples
    = read_rows max_rows width (take max_rows rows)
        (clean || (max_rows <=? length rows)) samples.
Proof.
  induction max_rows as [|n IH]; intros rows clean samples; [reflexivity|].
  destruct rows as [|row rows']; simpl.
  - rewrite orb_false_r. reflexivity.
  - apply IH.
Qed.

Lemma try_encodings_truncate (max_rows : nat) (attempts : list attempt) :
  forall headers samples,
    try_encodings max_rows attempts headers samples
    = try_encodings max_rows (List.map (truncate_attempt max_rows) attempts) headers samples.
Proof.
  induction attempts as [|a rest IH]; intros headers samples; [reflexivity|].
  destruct a as [|header rows clean]; simpl; [apply IH|].
  rewrite <- read_rows_truncate.
  destruct (read_rows _ _ _ _ _) as [ss finished].
  destruct finished; [reflexivity | apply IH].
Qed.

(** X5: only the first max_rows data rows of the CSV count: the sampler
    gives the same result, or raises the same error, when under every
    encoding the rows after them are cut off (and an error that would come
    after them with them). *)
Theorem sample_csv_columns_looks_at_first_rows_only
  (read : string -> string -> attempt) (csv_path : string) (max_rows : nat) :
  sample_csv_columns read csv_path max_rows
  = sample_csv_columns (fun path encoding => truncate_attempt max_rows (read path encoding))
      csv_path max_rows.
Proof.
  unfold sample_csv_columns. rewrite try_encodings_truncate, List.map_map. reflexivity.
Qed.

(** X6: a header row without cells (a blank first line) counts as
    unreadable: when the first encoding reads such a header and then the
    rows to the end, the sampler raises the RuntimeError about the headers,
    whatever the other encodings would deliver. *)
Theorem sample_csv_columns_blank_header_line
  (read : string -> string -> attempt) (csv_path : string) (max_rows : nat)
  (rows : list (list string)) :
  read csv_path "utf-8" = Read [] rows true ->
  sample_csv_columns read csv_path max_rows
  = Raise (RuntimeError ("Unable to read CSV headers from " +:+ csv_path)).
Proof.
  intros H. unfold sample_csv_columns. simpl. rewrite H.
  rewrite read_rows_clean_result. reflexivity.
Qed.

Lemma sample_csv_columns_blank_header_line_witness :
  sample_csv_columns
    (fun _ encoding => if String.eqb encoding "utf-8" then Read [] [["1"; "2"]] true
                       else Read ["a"; "b"] [["1"; "2"]] true)
    "data.csv" 500
  = Raise (RuntimeError "Unable to read CSV headers from data.csv").
Proof.
  apply (sample_csv_columns_blank_header_line _ "data.csv" 500 [["1"; "2"]]). reflexivity.
Defined.

Lemma try_encodings_same_width (n max_rows : nat) (attempts : list attempt) :
  Forall (fun a => match a with
                   | NoHeader => True
                   | Read raw _ _ => length raw = n
                   end) attempts ->
  forall hs0 ss0 hs ss,
    Forall (fun row => length row = n) ss0 ->
    try_encodings max_rows attempts hs0 ss0 = (hs, ss) ->
    Forall (fun row => length row = n) ss
    /\ (hs = hs0 \/ length hs = n)
    /\ (Exists (fun a => a <> NoHeader) attempts -> length hs = n).
Proof.
  induction 1 as [|a rest Ha _ IH]; intros hs0 ss0 hs ss Hss H; simpl in H.
  - injection H as <- <-. split; [exact Hss|]. split; [left; reflexivity|].
    intros Hex. inversion Hex.
  - destruct a as [|raw rows clean].
    + destruct (IH _ _ _ _ Hss H) as (H1 & H2 & H3).
      split; [exact H1|]. split; [exact H2|].
      intros Hex. inversion Hex; subst; [congruence | auto].
    + destruct (read_rows _ _ _ _ _) as [ss' finished] eqn:Er.
      assert (Hss' : Forall (fun row => length row = n) ss').
      { pose proof (read_rows_widths _ _ _ _ _ _ _ Er) as Hw.
        rewrite length_fix_headers, Ha in Hw. apply Hw. exact Hss. }
      destruct finished.
      * injection H as <- <-. rewrite length_fix_headers. auto.
      * destruct (IH _ _ _ _ Hss' H) as (H1 & [-> | H2] & _);
          rewrite ?length_fix_headers; auto.
Qed.

(** X7: the sampler returns whenever the encodings that deliver a header all
    deliver one of the same, positive, number of cells (and one of them
    does): it then returns that many headers and that many types, also when
    the reader raised in the middle of the rows. *)
Theorem sample_csv_columns_returns_on_equal_widths
  (read : string -> string -> attempt) (csv_path : string) (max_rows n : nat) :
  0 < n ->
  Forall (fun encoding => match read csv_path encoding with
                          | NoHeader => True
                          | Read raw _ _ => length raw = n
                          end) encodings ->
  Exists (fun encoding => read csv_path encoding <> NoHeader) encodings ->
  exists headers types,
    sample_csv_columns read csv_path max_rows = Ok (headers, types)
    /\ length headers = n /\ length types = n.
Proof.
  intros Hn Hall Hex. unfold sample_csv_columns.
  destruct (try_encodings _ _ _ _) as [hs ss] eqn:E.
  destruct (try_encodings_same_width n max_rows (List.map (read csv_path) encodings)
              ltac:(apply Forall_map; exact Hall) [] [] hs ss (Forall_nil_2 _) E)
    as (Hss & _ & Hhs).
  specialize (Hhs ltac:(apply Exists_fmap; exact Hex)).
  destruct hs as [|h hs']; [simpl in Hhs; lia|]. cbn [OsPath.is_nil].
  destruct (transpose_fits ss (List.map (fun _ => []) (h :: hs'))) as [cols Hc].
  { eapply Forall_impl; [exact Hss|]. intros row Hrow. simpl in Hrow.
    rewrite length_map, Hhs. lia. }
  rewrite Hc. eexists _, _. split; [reflexivity|]. split; [exact Hhs|].
  apply transpose_length in Hc. rewrite length_map, Hc, length_map. exact Hhs.
Qed.

Lemma sample_csv_columns_returns_on_equal_widths_witness :
  exists headers types,
    sample_csv_columns
      (fun _ encoding => if String.eqb encoding "latin-1"
                         then Read ["a"; "b"] [["1"; "x"]; ["2"]] true
                         else Read ["a"; "b"] [["1"; "x"]] false)
      "data.csv" 500 = Ok (headers, types)
    /\ length headers = 2 /\ length types = 2.
Proof.
  apply (sample_csv_columns_returns_on_equal_widths _ "data.csv" 500 2).
  - lia.
  - repeat constructor.
  - constructor. discriminate.
Defined.

(** ** The table label *)

Lemma rpartition_absent (c : ascii) (s : string) :
  free_of c s = true -> Str.rpartition c s = None.
Proof.
  unfold free_of. induction s as [|x s IH]; simpl; [reflexivity|].
  intros H. apply andb_prop in H as [Hx Hs]. rewrite (IH Hs).
  destruct (Str.ascii_eqb x c); [discriminate | reflexivity].
Qed.

Lemma rpartition_last (c : ascii) (a b : string) :
  free_of c b = true -> Str.rpartition c (a +:+ String c b) = Some (a, b).
Proof.
  intros Hb. induction a as [|x a IH].
  - change (Str.rpartition c (String c b) = Some ("", b)). simpl.
    rewrite (rpartition_absent _ _ Hb). unfold Str.ascii_eqb.
    rewrite Ascii.eqb_refl. reflexivity.
  - change (Str.rpartition c (String x (a +:+ String c b)) = Some (String x a, b)).
    simpl. rewrite IH. reflexivity.
Qed.

Lemma free_of_append (c : ascii) (a b : string) :
  free_of c (a +:+ b) = free_of c a && free_of c b.
Proof.
  unfold free_of. induction a as [|x a IH]; [reflexivity|].
  change (negb (Str.ascii_eqb x c) && Str.all (fun d => negb (Str.ascii_eqb d c)) (a +:+ b)
          = negb (Str.ascii_eqb x c) && Str.all (fun d => negb (Str.ascii_eqb d c)) a
            && Str.all (fun d => negb (Str.ascii_eqb d c)) b).
  rewrite IH. apply andb_assoc.
Qed.

(** X8: the table label of a plain file name.  For a name [base.ext]
    without a slash, whose [ext] has no dot and whose [base] is not made of
    dots only, it is [[base#ext]] with the extension in lower case and the
    base as it is; for a name without a dot it is [[name#]]. *)
Theorem make_table_attr_of_file_name :
  (forall base ext,
      free_of "/" base = true -> free_of "/" ext = true -> free_of "." ext = true ->
      Str.all (Str.ascii_eqb ".") base = false ->
      make_table_attr (base +:+ String "." ext)
      = "[" +:+ base +:+ "#" +:+ Str.lower ext +:+ "]")
  /\ (forall name,
        free_of "/" name = true -> free_of "." name = true ->
        make_table_attr name = "[" +:+ name +:+ "#]").
Proof.
  split.
  - intros base ext Hb He Hd Hdots. unfold make_table_attr, OsPath.splitext.
    assert (Hp : free_of "/" (base +:+ String "." ext) = true).
    { rewrite free_of_append, Hb. exact He. }
    unfold OsPath.sep. rewrite (rpartition_absent _ _ Hp).
    unfold OsPath.extsep. rewrite (rpartition_last "." base ext Hd), Hdots.
    cbn [Str.ascii_eqb]. reflexivity.
  - intros name Hs Hd. unfold make_table_attr, OsPath.splitext.
    unfold OsPath.sep. rewrite (rpartition_absent _ _ Hs). unfold OsPath.extsep.
    rewrite (rpartition_absent _ _ Hd). reflexivity.
Qed.

Lemma make_table_attr_of_file_name_witness :
  make_table_attr ("BLM.CA_Leases" +:+ String "." "CSV") = "[BLM.CA_Leases#csv]"
  /\ make_table_attr "README" = "[README#]".
Proof.
  split.
  - apply (proj1 make_table_attr_of_file_name "BLM.CA_Leases" "CSV"); reflexivity.
  - apply (proj2 make_table_attr_of_file_name "README"); reflexivity.
Defined.

(** ** The data source container *)

Lemma index_of_find (p : Element -> bool) (l : list Element) :
  match ET.index_of p l with
  | Some i => List.find p l = l !! i /\ is_Some (l !! i)
  | None => List.find p l = None
  end.
Proof.
  induction l as [|x l IH]; simpl; [reflexivity|].
  destruct (p x); [split; [reflexivity | eauto]|].
  destruct (ET.index_of p l); simpl; exact IH.
Qed.

(** X9: ensure_datasources_node keeps the root's tag and attributes; a root
    that has a datasources child is left as it is; otherwise one empty
    datasources element is inserted, right after the first preferences child
    when there is one and as the first child when not, the other children
    keeping their order; and calling it again changes nothing. *)
Theorem ensure_datasources_node_inserts_once (root : Element) :
  tag (ensure_datasources_node root) = tag root
  /\ attrib (ensure_datasources_node root) = attrib root
  /\ ensure_datasources_node (ensure_datasources_node root) = ensure_datasources_node root
  /\ (ET.find "datasources" root <> None -> ensure_datasources_node root = root)
  /\ (ET.find "datasources" root = None ->
      exists i,
        children (ensure_datasources_node root)
        = take i (children root) ++ Elem "datasources" [] [] :: drop i (children root)
        /\ match ET.find "preferences" root with
           | None => i = 0
           | Some prefs =>
               0 < i /\ children root !! (i - 1) = Some prefs
               /\ children (ensure_datasources_node root) !! (i - 1) = Some prefs
           end).
Proof.
  split; [|split; [|split; [|split]]].
  - unfold ensure_datasources_node.
    destruct (ET.find "datasources" root); [reflexivity|].
    destruct (ET.index_of _ _); reflexivity.
  - unfold ensure_datasources_node.
    destruct (ET.find "datasources" root); [reflexivity|].
    destruct (ET.index_of _ _); reflexivity.
  - destruct (ensure_datasources_node_found root) as (ds & Hds & _).
    apply (ensure_datasources_node_present _ _ Hds).
  - intros H. destruct (ET.find "datasources" root) as [ds|] eqn:E; [|congruence].
    apply (ensure_datasources_node_present _ _ E).
  - intros Hnone. unfold ensure_datasources_node. rewrite Hnone.
    pose proof (index_of_find (ET.has_tag "preferences") (children root)) as Hidx.
    unfold ET.find at 1.
    destruct (ET.index_of _ _) as [idx|].
    + destruct Hidx as [Hfind [prefs Hp]]. exists (idx + 1). split; [reflexivity|].
      rewrite Hfind, Hp. replace (idx + 1 - 1) with idx by lia.
      split; [lia|]. split; [exact Hp|].
      simpl. rewrite lookup_app_l by (rewrite length_take; apply lookup_lt_Some in Hp; lia).
      rewrite lookup_take_lt by lia. exact Hp.
    + exists 0. rewrite Hidx. split; reflexivity.
Qed.

Lemma ensure_datasources_node_inserts_once_witness :
  exists i,
    children (ensure_datasources_node
                (Elem "workbook" [] [Elem "style" [] []; Elem "preferences" [] [];
                                     Elem "worksheets" [] []]))
    = take i [Elem "style" [] []; Elem "preferences" [] []; Elem "worksheets" [] []]
        ++ Elem "datasources" [] []
        :: drop i [Elem "style" [] []; Elem "preferences" [] []; Elem "worksheets" [] []]
    /\ (0 < i
        /\ [Elem "style" [] []; Elem "preferences" [] []; Elem "worksheets" [] []] !! (i - 1)
           = Some (Elem "preferences" [] [])
        /\ children (ensure_datasources_node
                       (Elem "workbook" [] [Elem "style" [] []; Elem "preferences" [] [];
                                            Elem "worksheets" [] []])) !! (i - 1)
           = Some (Elem "preferences" [] [])).
Proof.
  apply (proj2 (proj2 (proj2 (proj2
    (ensure_datasources_node_inserts_once
       (Elem "workbook" [] [Elem "style" [] []; Elem "preferences" [] [];
                            Elem "worksheets" [] []])))))).
  reflexivity.
Defined.

(** ** Updating an existing data source *)

Lemma caption_or_non_empty cap filename : filename <> "" -> caption_or cap filename <> "".
Proof.
  intros Hf. unfold caption_or. destruct cap as [c|]; [|exact Hf].
  destruct c; [exact Hf | discriminate].
Qed.

Lemma update_first_match_at directory filename ds_caption ds_name :
  forall kids i k,
    kids !! i = Some k ->
    is_source_for filename k = true ->
    (forall j k', j < i -> kids !! j = Some k' -> is_source_for filename k' = false) ->
    update_first_match directory filename ds_caption ds_name kids
    = Some (<[i := (update_existing directory filename ds_caption ds_name k).1]> kids,
            (update_existing directory filename ds_caption ds_name k).2).
Proof.
  unfold is_source_for.
  induction kids as [|x kids IH]; intros i k Hi Hk Hbefore; [discriminate|].
  destruct i as [|i]; simpl in *.
  - injection Hi as ->. rewrite Hk.
    destruct (update_existing _ _ _ _ k). reflexivity.
  - rewrite (Hbefore 0 x ltac:(lia) eq_refl).
    rewrite (IH i k Hi Hk); [reflexivity|].
    intros j k' Hj Hk'. apply (Hbefore (S j) k'); [lia | exact Hk'].
Qed.

Lemma find_relation_update_connection directory filename conn :
  ET.find "relation" (update_connection directory filename conn)
  = update_relation filename <$> ET.find "relation" conn.
Proof.
  unfold update_connection. rewrite find_alter_found by reflexivity. reflexivity.
Qed.

Lemma update_existing_shape directory filename ds_caption ds_name e :
  ds_caption <> "" ->
  let e' := (update_existing directory filename ds_caption ds_name e).1 in
  let name := if truthy (ET.get "name" e) then default "" (ET.get "name" e) else ds_name in
  tag e' = tag e
  /\ ET.find "connection" e' = update_connection directory filename <$> ET.find "connection" e
  /\ length (children e') = length (children e)
  /\ ET.get "caption" e' = Some ds_caption
  /\ ET.get "name" e' = Some name
  /\ (update_existing directory filename ds_caption ds_name e).2 = (name, ds_caption)
  /\ (forall k, k <> "caption" -> k <> "name" -> ET.get k e' = ET.get k e).
Proof.
  intros Hc. unfold update_existing.
  destruct ds_caption as [|c0 cs]; [congruence|]. cbn [Str.is_empty negb].
  set (c := String c0 cs).
  set (e1 := ET.alter_found "connection" (update_connection directory filename) e).
  assert (Hname : ET.get "name" (ET.set "caption" c e1) = ET.get "name" e)
    by (rewrite get_set_ne by discriminate; reflexivity).
  rewrite Hname.
  assert (Hfind : ET.find "connection" e1
                  = update_connection directory filename <$> ET.find "connection" e)
    by (apply find_alter_found; reflexivity).
  assert (Hlen : length (children e1) = length (children e))
    by apply length_alter_first.
  destruct (truthy (ET.get "name" e)) eqn:Et; cbn [fst snd].
  - repeat split; auto.
    + apply get_set_eq.
    + rewrite Hname. destruct (ET.get "name" e); [reflexivity | discriminate].
    + rewrite get_set_eq. reflexivity.
    + intros k Hk _. rewrite get_set_ne by congruence. reflexivity.
  - repeat split; auto.
    + rewrite get_set_ne by discriminate. apply get_set_eq.
    + apply get_set_eq.
    + rewrite get_set_ne by discriminate. rewrite get_set_eq. reflexivity.
    + intros k Hk Hn. rewrite !get_set_ne by congruence. reflexivity.
Qed.

Lemma is_source_for_connection filename k :
  is_source_for filename k = true ->
  exists conn,
    ET.find "connection" k = Some conn
    /\ ET.get "class" conn = Some "textscan"
    /\ ET.get "filename" conn = Some filename.
Proof.
  unfold is_source_for, matches_filename. intros H. apply andb_prop in H as [_ H].
  destruct (ET.find "connection" k) as [conn|]; [|discriminate].
  destruct (ET.get "class" conn) as [cls|] eqn:Ecls; [|discriminate].
  destruct (String.eqb cls "textscan") eqn:Ec; [|discriminate].
  apply String.eqb_eq in Ec. subst cls.
  destruct (ET.get "filename" conn) as [f|] eqn:Ef; [|discriminate].
  apply andb_prop in H as [_ H]. apply String.eqb_eq in H. subst f.
  exists conn. auto.
Qed.

(** The call on a container whose first data source for the file is [k], at
    index [i]: the element is replaced by its updated state, whatever the
    CSV reads as. *)
Lemma add_textscan_datasource_on_match env root csv_path cap wroot (i : nat) (k : Element) :
  let location := csv_location env csv_path wroot in
  let before := ds_container_children root in
  let updated :=
    update_existing location.1 location.2 (caption_or cap location.2)
      ("textscan." +:+ Str.take 30 (uuid4_hex env)) k in
  before !! i = Some k ->
  is_source_for location.2 k = true ->
  (forall j k', j < i -> before !! j = Some k' -> is_source_for location.2 k' = false) ->
  forall read,
    let call :=
      add_textscan_datasource
        {| getcwd := getcwd env; uuid4_hex := uuid4_hex env; read_csv := read |}
        root csv_path cap wroot in
    call.2 = Ok updated.2
    /\ ds_container_children call.1 = <[i := updated.1]> before
    /\ call = add_textscan_datasource env root csv_path cap wroot.
Proof.
  intros location before updated Hi Hk Hfirst read call.
  assert (Hcall : forall rd,
    add_textscan_datasource
      {| getcwd := getcwd env; uuid4_hex := uuid4_hex env; read_csv := rd |}
      root csv_path cap wroot
    = (ET.alter_found "datasources"
         (ET.with_children (fun _ => <[i := updated.1]> before))
         (ensure_datasources_node root),
       Ok updated.2)).
  { intros rd. unfold add_textscan_datasource.
    change (csv_location {| getcwd := getcwd env; uuid4_hex := uuid4_hex env;
                            read_csv := rd |} csv_path wroot) with location.
    subst updated. destruct location as [directory fn].
    cbn [fst snd uuid4_hex] in *. rewrite ds_container_children_ensure.
    fold before.
    rewrite (update_first_match_at directory fn _ _ before i k Hi Hk Hfirst).
    reflexivity. }
  assert (Hsame : add_textscan_datasource env root csv_path cap wroot
                  = add_textscan_datasource
                      {| getcwd := getcwd env; uuid4_hex := uuid4_hex env;
                         read_csv := read_csv env |} root csv_path cap wroot)
    by (destruct env; reflexivity).
  subst call. rewrite Hsame, !Hcall. cbn [fst snd].
  split; [reflexivity|]. split; [|reflexivity].
  destruct (ensure_datasources_node_found root) as (ds & Hds & _).
  rewrite (ds_container_children_alter _ _ _ Hds) by reflexivity. reflexivity.
Qed.

(** X10: when the container holds a data source that the loop takes for the
    file, add_textscan_datasource changes the first such element and nothing
    else of the container: every other element, also a later one for the
    same file, stays at its place, none is added, the changed element keeps
    its columns block and its number of children, and the result does not
    depend on the CSV file, which is not read. *)
Theorem add_textscan_datasource_updates_first_match
  env root csv_path cap wroot (i : nat) (k : Element) :
  let filename := (csv_location env csv_path wroot).2 in
  let before := ds_container_children root in
  let call := add_textscan_datasource env root csv_path cap wroot in
  before !! i = Some k ->
  is_source_for filename k = true ->
  (forall j k', j < i -> before !! j = Some k' -> is_source_for filename k' = false) ->
  exists k' r,
    call.2 = Ok r
    /\ ds_container_children call.1 = <[i := k']> before
    /\ (forall j, j <> i -> ds_container_children call.1 !! j = before !! j)
    /\ tag k' = "datasource"
    /\ length (children k') = length (children k)
    /\ columns_block k' = columns_block k
    /\ (forall read,
          add_textscan_datasource
            {| getcwd := getcwd env; uuid4_hex := uuid4_hex env; read_csv := read |}
            root csv_path cap wroot = call).
Proof.
  intros filename before call Hi Hk Hfirst. subst filename.
  set (filename := (csv_location env csv_path wroot).2) in *.
  assert (Hf : filename <> "") by (eapply is_source_for_non_empty; eauto).
  pose proof (caption_or_non_empty cap filename Hf) as Hcap.
  pose proof (add_textscan_datasource_on_match env root csv_path cap wroot i k Hi Hk Hfirst)
    as Hcall. cbv zeta in Hcall. fold filename in Hcall.
  destruct (Hcall (read_csv env)) as (Hr & Hkids & Hsame). rewrite Hsame in Hr, Hkids.
  destruct (update_existing_shape (csv_location env csv_path wroot).1 filename
              (caption_or cap filename) ("textscan." +:+ Str.take 30 (uuid4_hex env)) k Hcap)
    as (Htag & Hconn & Hlen & _).
  eexists _, _. split; [exact Hr|]. split; [exact Hkids|]. split.
  { intros j Hj. fold call in Hkids. rewrite Hkids. apply list_lookup_insert_ne. congruence. }
  split.
  { rewrite Htag. unfold is_source_for in Hk. apply andb_prop in Hk as [Hk _].
    apply has_tag_true. exact Hk. }
  split; [exact Hlen|]. split.
  { unfold columns_block. rewrite Hconn.
    destruct (ET.find "connection" k) as [conn|]; [|reflexivity]. simpl.
    rewrite find_relation_update_connection.
    destruct (ET.find "relation" conn); reflexivity. }
  intros read. apply (Hcall read).
Qed.

Lemma demo_stale_source_is_first (j : nat) (k' : Element) :
  j < 1 ->
  ds_container_children demo_stale_workbook !! j = Some k' ->
  is_source_for (csv_location demo_env "data/leases.csv" None).2 k' = false.
Proof.
  intros Hj. destruct j as [|j]; [|lia]. intros [= <-]. reflexivity.
Qed.

Lemma add_textscan_datasource_updates_first_match_witness :
  exists k' r,
    (add_textscan_datasource demo_env demo_stale_workbook "data/leases.csv" None None).2
    = Ok r
    /\ ds_container_children
         (add_textscan_datasource demo_env demo_stale_workbook "data/leases.csv" None None).1
       = <[1 := k']> (ds_container_children demo_stale_workbook)
    /\ (forall j, j <> 1 ->
          ds_container_children
            (add_textscan_datasource demo_env demo_stale_workbook "data/leases.csv"
               None None).1 !! j
          = ds_container_children demo_stale_workbook !! j)
    /\ tag k' = "datasource"
    /\ length (children k') = length (children demo_stale_source)
    /\ columns_block k' = columns_block demo_stale_source
    /\ (forall read,
          add_textscan_datasource
            {| getcwd := getcwd demo_env; uuid4_hex := uuid4_hex demo_env; read_csv := read |}
            demo_stale_workbook "data/leases.csv" None None
          = add_textscan_datasource demo_env demo_stale_workbook "data/leases.csv"
              None None).
Proof.
  apply (add_textscan_datasource_updates_first_match demo_env demo_stale_workbook
           "data/leases.csv" None None 1 demo_stale_source).
  - reflexivity.
  - vm_compute. reflexivity.
  - apply demo_stale_source_is_first.
Defined.

(** X11: what the update leaves in the element it changes, and what the call
    returns.  The connection has the directory and the filename of the CSV
    and is still a textscan connection; a relation under it is named after
    the file and carries its table label; the caption is the one asked for,
    or the filename; the name is the element's own when it has a non-empty
    one and else the generated name, "textscan." and the first 30
    characters of the uuid's hex form; name and caption are returned; and
    the other attributes of the element and of its connection are as
    before. *)
Theorem add_textscan_datasource_update_sets
  env root csv_path cap wroot (i : nat) (k : Element) :
  let location := csv_location env csv_path wroot in
  let before := ds_container_children root in
  let call := add_textscan_datasource env root csv_path cap wroot in
  let name :=
    if truthy (ET.get "name" k) then default "" (ET.get "name" k)
    else "textscan." +:+ Str.take 30 (uuid4_hex env) in
  before !! i = Some k ->
  is_source_for location.2 k = true ->
  (forall j k', j < i -> before !! j = Some k' -> is_source_for location.2 k' = false) ->
  exists k',
    ds_container_children call.1 !! i = Some k'
    /\ call.2 = Ok (name, caption_or cap location.2)
    /\ ET.get "name" k' = Some name
    /\ ET.get "caption" k' = Some (caption_or cap location.2)
    /\ connection_attr "class" k' = Some "textscan"
    /\ connection_attr "directory" k' = Some location.1
    /\ connection_attr "filename" k' = Some location.2
    /\ relation_attr "name" k'
       = (ET.find "connection" k ≫= ET.find "relation") ≫= (fun _ => Some location.2)
    /\ relation_attr "table" k'
       = (ET.find "connection" k ≫= ET.find "relation")
           ≫= (fun _ => Some (make_table_attr location.2))
    /\ (forall a, a <> "caption" -> a <> "name" -> ET.get a k' = ET.get a k)
    /\ (forall a, a <> "directory" -> a <> "filename" ->
                  connection_attr a k' = connection_attr a k).
Proof.
  intros location before call name Hi Hk Hfirst. subst location.
  set (location := csv_location env csv_path wroot) in *.
  assert (Hf : location.2 <> "") by (eapply is_source_for_non_empty; eauto).
  pose proof (caption_or_non_empty cap location.2 Hf) as Hcap.
  destruct (add_textscan_datasource_on_match env root csv_path cap wroot i k Hi Hk Hfirst
              (read_csv env)) as (Hr & Hkids & Hsame).
  rewrite Hsame in Hr, Hkids. fold call location in Hr, Hkids.
  destruct (update_existing_shape location.1 location.2
              (caption_or cap location.2) ("textscan." +:+ Str.take 30 (uuid4_hex env)) k Hcap)
    as (_ & Hconn & _ & Hcaption & Hname & Hret & Hother).
  destruct (is_source_for_connection _ _ Hk) as (conn & Hfind & Hclass & Hfile).
  eexists. split.
  { rewrite Hkids. apply list_lookup_insert_eq. eapply lookup_lt_Some; eauto. }
  split; [rewrite Hr, Hret; reflexivity|].
  split; [exact Hname|]. split; [exact Hcaption|].
  set (k' := (update_existing location.1 location.2 (caption_or cap location.2)
                ("textscan." +:+ Str.take 30 (uuid4_hex env)) k).1) in *.
  assert (Hc' : ET.find "connection" k' = Some (update_connection location.1 location.2 conn))
    by (rewrite Hconn, Hfind; reflexivity).
  assert (Hattr : forall a, connection_attr a k'
                            = ET.get a (update_connection location.1 location.2 conn))
    by (intros a; unfold connection_attr; rewrite Hc'; reflexivity).
  assert (Hrel : forall a, relation_attr a k'
                           = ET.find "relation" conn
                               ≫= (fun rel => ET.get a (update_relation location.2 rel))).
  { intros a. unfold relation_attr. rewrite Hc'. cbn [mbind option_bind].
    rewrite find_relation_update_connection.
    destruct (ET.find "relation" conn); reflexivity. }
  assert (Hget : forall a, ET.get a (update_connection location.1 location.2 conn)
                           = ET.get a (ET.set "filename" location.2
                                         (ET.set "directory" location.1 conn)))
    by reflexivity.
  rewrite !Hattr, !Hrel, !Hget.
  split; [rewrite !get_set_ne by discriminate; exact Hclass|].
  split; [rewrite get_set_ne by discriminate; apply get_set_eq|].
  split; [apply get_set_eq|].
  rewrite Hfind. cbn [mbind option_bind].
  split.
  { destruct (ET.find "relation" conn) as [rel|]; [|reflexivity].
    cbn [mbind option_bind]. unfold update_relation.
    rewrite get_set_ne by discriminate. apply get_set_eq. }
  split.
  { destruct (ET.find "relation" conn) as [rel|]; [|reflexivity].
    cbn [mbind option_bind]. apply get_set_eq. }
  split; [exact Hother|].
  intros a Ha1 Ha2. rewrite Hattr, Hget. rewrite !get_set_ne by congruence.
  unfold connection_attr. rewrite Hfind. reflexivity.
Qed.

Lemma add_textscan_datasource_update_sets_witness :
  exists k',
    ds_container_children
      (add_textscan_datasource demo_env demo_stale_workbook "data/leases.csv" None None).1
      !! 1 = Some k'
    /\ (add_textscan_datasource demo_env demo_stale_workbook "data/leases.csv" None None).2
       = Ok ("textscan.0123456789abcdef0123456789abcd", "leases.csv")
    /\ ET.get "name" k' = Some "textscan.0123456789abcdef0123456789abcd"
    /\ ET.get "caption" k' = Some "leases.csv"
    /\ connection_attr "class" k' = Some "textscan"
    /\ connection_attr "directory" k' = Some "/home/u/proj/data"
    /\ connection_attr "filename" k' = Some "leases.csv"
    /\ relation_attr "name" k' = Some "leases.csv"
    /\ relation_attr "table" k' = Some "[leases#csv]"
    /\ (forall a, a <> "caption" -> a <> "name" -> ET.get a k' = ET.get a demo_stale_source)
    /\ (forall a, a <> "directory" -> a <> "filename" ->
                  connection_attr a k' = connection_attr a demo_stale_source).
Proof.
  apply (add_textscan_datasource_update_sets demo_env demo_stale_workbook
           "data/leases.csv" None None 1 demo_stale_source).
  - reflexivity.
  - vm_compute. reflexivity.
  - apply demo_stale_source_is_first.
Defined.

(** ** Paths *)

Lemma replace_same (c : ascii) (s : string) : Str.replace c c s = s.
Proof.
  unfold Str.replace. induction s as [|x s IH]; simpl; [reflexivity|].
  rewrite IH. destruct (Str.ascii_eqb x c) eqn:E; [|reflexivity].
  apply Ascii.eqb_eq in E. subst. reflexivity.
Qed.

Lemma list_ascii_append (a b : string) :
  String.list_ascii_of_string (a +:+ b)
  = String.list_ascii_of_string a ++ String.list_ascii_of_string b.
Proof.
  induction a as [|x a IH]; [reflexivity|].
  change (x :: String.list_ascii_of_string (a +:+ b)
          = x :: (String.list_ascii_of_string a ++ String.list_ascii_of_string b)).
  f_equal. exact IH.
Qed.

Lemma last_char_list (s : string) :
  Str.last_char s = last (String.list_ascii_of_string s).
Proof.
  unfold Str.last_char, Str.rev.
  rewrite String.list_ascii_of_string_of_list_ascii.
  generalize (String.list_ascii_of_string s). intros l.
  induction l as [|x l IH] using rev_ind; [reflexivity|].
  rewrite List.rev_app_distr, last_snoc. reflexivity.
Qed.

Lemma last_char_append (a b : string) :
  b <> "" -> Str.last_char (a +:+ b) = Str.last_char b.
Proof.
  intros Hb. rewrite !last_char_list, list_ascii_append.
  destruct b as [|x b]; [congruence|]. simpl String.list_ascii_of_string.
  apply last_app_cons.
Qed.

Lemma all_forall (p : ascii -> bool) (s : string) :
  Str.all p s = forallb p (String.list_ascii_of_string s).
Proof. induction s as [|x s IH]; simpl; [reflexivity | rewrite IH; reflexivity]. Qed.

Lemma endswith_free (c : ascii) (s : string) :
  free_of c s = true -> Str.endswith_char c s = false.
Proof.
  unfold free_of, Str.endswith_char. rewrite all_forall, last_char_list.
  intros H. destruct (last _) as [d|] eqn:E; [|reflexivity].
  apply last_Some_elem_of, list_elem_of_In in E.
  rewrite forallb_forall in H. apply H in E.
  destruct (Str.ascii_eqb d c); [discriminate | reflexivity].
Qed.

Lemma segment_facts (s : string) :
  is_segment s = true ->
  s <> "" /\ free_of "/" s = true /\ Str.startswith "/" s = false.
Proof.
  unfold is_segment. intros H. apply andb_prop in H as [Hne Hfree].
  destruct s as [|x s]; [discriminate|]. split; [discriminate|]. split; [exact Hfree|].
  unfold free_of in Hfree. cbn [Str.all] in Hfree. apply andb_prop in Hfree as [Hx _].
  unfold Str.startswith. cbn [String.prefix].
  destruct (Ascii.ascii_dec "/" x) as [<-|Hne']; [discriminate | reflexivity].
Qed.

(** [os.path.join] of clean components is their concatenation with one
    separator between two. *)
Lemma join_segments (segs : list string) :
  Forall (fun s => is_segment s = true) segs ->
  forall acc last,
    is_segment last = true ->
    OsPath.join (acc +:+ last) segs = Str.join "/" ((acc +:+ last) :: segs).
Proof.
  induction 1 as [|seg segs Hseg _ IH]; intros acc last Hlast; [reflexivity|].
  destruct (segment_facts _ Hseg) as (Hne & Hfree & Hstart).
  destruct (segment_facts _ Hlast) as (Hlne & Hlfree & _).
  cbn [OsPath.join fold_left]. unfold OsPath.join2 at 2. rewrite Hstart.
  assert (Hend : Str.endswith_char OsPath.sep (acc +:+ last) = false).
  { unfold Str.endswith_char. rewrite last_char_append by exact Hlne.
    apply (endswith_free "/" last Hlfree). }
  assert (Hempty : Str.is_empty (acc +:+ last) = false).
  { destruct acc; [destruct last; [congruence | reflexivity] | reflexivity]. }
  rewrite Hend, Hempty. cbn [orb].
  change (fold_left OsPath.join2 segs ((acc +:+ last) +:+ "/" +:+ seg))
    with (OsPath.join ((acc +:+ last) +:+ "/" +:+ seg) segs).
  rewrite <- (append_assoc (acc +:+ last) "/" seg).
  rewrite (IH ((acc +:+ last) +:+ "/") seg Hseg).
  destruct segs; cbn [Str.join]; rewrite !append_assoc; reflexivity.
Qed.

Lemma join_segments_plain (seg : string) (segs : list string) :
  Forall (fun s => is_segment s = true) (seg :: segs) ->
  OsPath.join seg segs = Str.join "/" (seg :: segs).
Proof.
  intros H. inversion H; subst. apply (join_segments segs ltac:(assumption) "" seg).
  assumption.
Qed.

Lemma split_free (sep : ascii) (s : string) :
  Forall (fun w => free_of sep w = true) (Str.split sep s).
Proof.
  induction s as [|c s IH]; simpl; [repeat constructor|].
  destruct (Str.ascii_eqb c sep) eqn:E; [constructor; [reflexivity | exact IH]|].
  destruct (Str.split sep s) as [|w ws]; [repeat constructor; unfold free_of; simpl;
                                          rewrite E; reflexivity|].
  inversion IH; subst. constructor; [|assumption].
  unfold free_of in *. simpl. rewrite E. assumption.
Qed.

Lemma split_free_single (sep : ascii) (s : string) :
  free_of sep s = true -> Str.split sep s = [s].
Proof.
  unfold free_of. induction s as [|c s IH]; simpl; [reflexivity|].
  intros H. apply andb_prop in H as [Hc Hs]. rewrite (IH Hs).
  destruct (Str.ascii_eqb c sep); [discriminate | reflexivity].
Qed.

Lemma split_append_sep (sep : ascii) (p t : string) :
  free_of sep p = true ->
  Str.split sep (p +:+ String sep t) = p :: Str.split sep t.
Proof.
  unfold free_of. induction p as [|c p IH]; intros H.
  - change (Str.split sep (String sep t) = "" :: Str.split sep t). simpl.
    unfold Str.ascii_eqb. rewrite Ascii.eqb_refl. reflexivity.
  - cbn [Str.all] in H. apply andb_prop in H as [Hc Hp].
    change (Str.split sep (String c (p +:+ String sep t)) = String c p :: Str.split sep t).
    simpl. rewrite (IH Hp). destruct (Str.ascii_eqb c sep); [discriminate | reflexivity].
Qed.

(** Splitting undoes joining, for parts without the separator. *)
Lemma split_join (sep : ascii) (l : list string) :
  l <> [] ->
  Forall (fun w => free_of sep w = true) l ->
  Str.split sep (Str.join (String sep "") l) = l.
Proof.
  intros Hne H. induction H as [|p l Hp Hl IH]; [congruence|].
  destruct l as [|q l].
  - apply split_free_single. exact Hp.
  - change (Str.join (String sep "") (p :: q :: l))
      with (p +:+ String sep (Str.join (String sep "") (q :: l))).
    rewrite (split_append_sep _ _ _ Hp), IH by discriminate. reflexivity.
Qed.

Lemma split_repeat (n : nat) (t : string) :
  Str.split "/" (Str.repeat "/" n +:+ t) = replicate n "" ++ Str.split "/" t.
Proof.
  induction n as [|n IH]; [reflexivity|].
  change (Str.split "/" (String "/" (Str.repeat "/" n +:+ t))
          = "" :: (replicate n "" ++ Str.split "/" t)).
  simpl. rewrite IH. reflexivity.
Qed.

Lemma Forall_removelast {A} (P : A -> Prop) (l : list A) :
  Forall P l -> Forall P (removelast l).
Proof.
  induction 1 as [|x l Hx Hl IH]; simpl; [constructor|].
  destruct l; [constructor | constructor; assumption].
Qed.

Lemma norm_step_segments initial comps comp :
  Forall (fun s => is_segment s = true) comps ->
  free_of "/" comp = true ->
  Forall (fun s => is_segment s = true) (OsPath.norm_step initial comps comp).
Proof.
  intros Hc Hf. unfold OsPath.norm_step.
  destruct (String.eqb comp "" || String.eqb comp ".") eqn:E; [exact Hc|].
  destruct (negb _ || _ || _); [|apply Forall_removelast; exact Hc].
  apply Forall_app. split; [exact Hc|]. constructor; [|constructor].
  unfold is_segment. rewrite Hf. destruct comp; [discriminate | reflexivity].
Qed.

Lemma fold_norm_step_segments initial (parts : list string) :
  Forall (fun w => free_of "/" w = true) parts ->
  forall comps,
    Forall (fun s => is_segment s = true) comps ->
    Forall (fun s => is_segment s = true) (fold_left (OsPath.norm_step initial) parts comps).
Proof.
  induction 1 as [|p parts Hp _ IH]; intros comps Hc; simpl; [exact Hc|].
  apply IH. apply norm_step_segments; assumption.
Qed.

(** The segments of a normalized path: some leading empty ones for the
    initial slashes, then components that are neither empty nor contain a
    slash (or, when there is none, one "." or one empty segment). *)
Lemma normpath_split (q : string) :
  exists n comps,
    Forall (fun s => is_segment s = true) comps
    /\ Str.split "/" (OsPath.normpath q)
       = replicate n ""
           ++ match comps with
              | [] => [if n =? 0 then "." else ""]
              | _ => comps
              end.
Proof.
  unfold OsPath.normpath.
  destruct (Str.is_empty q); [exists 0, []; split; [constructor | reflexivity]|].
  set (n := OsPath.initial_slashes q).
  set (comps := fold_left (OsPath.norm_step n) (Str.split OsPath.sep q) []).
  assert (Hc : Forall (fun s => is_segment s = true) comps)
    by (apply fold_norm_step_segments; [apply split_free | constructor]).
  exists n, comps. split; [exact Hc|].
  destruct comps as [|c comps'] eqn:Ec.
  - cbn [Str.join]. rewrite append_empty_r.
    destruct n as [|n']; [reflexivity|].
    cbn [Str.repeat Str.is_empty Nat.eqb].
    rewrite <- (append_empty_r (String OsPath.sep (Str.repeat OsPath.sep n'))).
    change (String OsPath.sep (Str.repeat OsPath.sep n')) with (Str.repeat "/" (S n')).
    rewrite split_repeat. reflexivity.
  - assert (Hp : Str.is_empty (Str.repeat OsPath.sep n +:+ Str.join "/" (c :: comps')) = false).
    { destruct n; [|reflexivity]. inversion Hc; subst.
      destruct (segment_facts c ltac:(assumption)) as (Hne & _).
      destruct c; [congruence|]. destruct comps'; reflexivity. }
    rewrite Hp. unfold OsPath.sep. rewrite split_repeat. f_equal.
    apply (split_join "/" (c :: comps')); [discriminate|].
    eapply Forall_impl; [exact Hc|]. intros s Hs. apply segment_facts. exact Hs.
Qed.

Lemma absolute_form_is_normpath (cwd path : string) :
  exists q, absolute_form cwd path = OsPath.normpath q.
Proof.
  unfold absolute_form, OsPath.abspath. destruct (negb _); eauto.
Qed.

(** In an absolute form that starts with the segments "" and "mnt", the
    segments after them are clean. *)
Lemma absolute_form_mount_segments (cwd path : string) (rest : list string) :
  Str.split os_sep (absolute_form cwd path) = "" :: "mnt" :: rest ->
  Forall (fun s => is_segment s = true) rest.
Proof.
  destruct (absolute_form_is_normpath cwd path) as [q ->].
  unfold os_sep, OsPath.sep.
  destruct (normpath_split q) as (n & comps & Hc & ->).
  destruct n as [|[|n]]; cbn [replicate app Nat.eqb].
  - destruct comps as [|c comps']; [discriminate|].
    intros [= -> _]. inversion Hc; subst. discriminate.
  - destruct comps as [|c comps']; [discriminate|].
    intros [= -> <-]. inversion Hc; subst. assumption.
  - discriminate.
Qed.

Lemma startswith_append (p s : string) : Str.startswith p (p +:+ s) = true.
Proof.
  unfold Str.startswith. induction p as [|a p IH].
  - destruct s; reflexivity.
  - change (String.prefix (String a p) (String a (p +:+ s)) = true).
    cbn [String.prefix]. destruct (Ascii.ascii_dec a a); [exact IH | congruence].
Qed.

(** X12: the mounted-drive branch for any drive segment and any depth.  When
    the absolute form of the path has the segments "", "mnt", d and at least
    one more, the result is the upper-case form of d, a colon, and the
    remaining segments behind forward slashes; d need not be a single
    letter (a sharp s in it becomes SS), and the Windows root is not looked
    at.  This is for a segment d whose upper-case form stays within the
    code points of the model. *)
Theorem to_windows_path_mounted
  (cwd path : string) (windows_root : option string) (d seg : string) (segs : list string) :
  Str.upper_stays d = true ->
  Str.split os_sep (absolute_form cwd path) = "" :: "mnt" :: d :: seg :: segs ->
  absolute_form cwd path = "/mnt/" +:+ d +:+ "/" +:+ Str.join "/" (seg :: segs)
  /\ to_windows_path cwd path windows_root
     = Str.upper d +:+ ":/" +:+ Str.join "/" (seg :: segs).
Proof.
  intros _ H.
  pose proof (absolute_form_mount_segments _ _ _ H) as Hsegs.
  inversion Hsegs as [|? ? _ Hrest]; subst.
  assert (Habs : absolute_form cwd path
                 = "/mnt/" +:+ d +:+ "/" +:+ Str.join "/" (seg :: segs)).
  { rewrite <- (join_split os_sep (absolute_form cwd path)), H. reflexivity. }
  split; [exact Habs|].
  assert (Hstart : Str.startswith "/mnt/" (absolute_form cwd path) = true)
    by (rewrite Habs; apply startswith_append).
  unfold to_windows_path. rewrite Hstart, H.
  cbn [length Nat.ltb Nat.leb nth drop]. rewrite drop_0.
  rewrite (join_segments_plain seg segs Hrest). reflexivity.
Qed.

Lemma to_windows_path_mounted_witness :
  absolute_form "/mnt/data/work" ("../" +:+ chars [223; 116] +:+ "/a b.csv")
  = "/mnt/data/" +:+ chars [223; 116] +:+ "/a b.csv"
  /\ to_windows_path "/mnt/data/work" ("../" +:+ chars [223; 116] +:+ "/a b.csv")
       (Some "C:\root")
     = "DATA:/" +:+ chars [223; 116] +:+ "/a b.csv"
  /\ to_windows_path "/" ("mnt/" +:+ chars [223; 116] +:+ "/a b.csv") None
     = "SST:/a b.csv".
Proof.
  split; [|split].
  - apply (to_windows_path_mounted "/mnt/data/work" ("../" +:+ chars [223; 116] +:+ "/a b.csv")
             (Some "C:\root") "data" (chars [223; 116]) ["a b.csv"]);
      vm_compute; reflexivity.
  - apply (to_windows_path_mounted "/mnt/data/work" ("../" +:+ chars [223; 116] +:+ "/a b.csv")
             (Some "C:\root") "data" (chars [223; 116]) ["a b.csv"]);
      vm_compute; reflexivity.
  - apply (to_windows_path_mounted "/" ("mnt/" +:+ chars [223; 116] +:+ "/a b.csv") None
             (chars [223; 116]) "a b.csv" []);
      vm_compute; reflexivity.
Defined.

(** X13: without a usable Windows root, a path outside the mounted-drive
    form comes back as its absolute POSIX form: the final replacement of
    "/" by [os.sep] changes nothing. *)
Theorem to_windows_path_fallback (cwd path : string) (windows_root : option string) :
  truthy windows_root = false ->
  Str.startswith "/mnt/" (absolute_form cwd path) = false
  \/ length (Str.split os_sep (absolute_form cwd path)) <= 3 ->
  to_windows_path cwd path windows_root = absolute_form cwd path.
Proof.
  intros Hroot Hmount. unfold to_windows_path.
  assert (Hno : (if Str.startswith "/mnt/" (absolute_form cwd path)
                 then if 3 <? length (Str.split os_sep (absolute_form cwd path))
                      then Some (Str.upper (nth 2 (Str.split os_sep (absolute_form cwd path)) "")
                                 +:+ ":" +:+ String os_sep
                                   (OsPath.join
                                      (nth 3 (Str.split os_sep (absolute_form cwd path)) "")
                                      (drop 4 (Str.split os_sep (absolute_form cwd path)))))
                      else None
                 else None) = None).
  { destruct Hmount as [-> | Hlen]; [reflexivity|].
    destruct (Str.startswith _ _); [|reflexivity].
    destruct (Nat.ltb_spec 3 (length (Str.split os_sep (absolute_form cwd path))));
      [lia | reflexivity]. }
  rewrite Hno. unfold os_sep, OsPath.sep.
  destruct windows_root as [root|]; [|apply replace_same].
  simpl in Hroot. apply negb_false_iff in Hroot. rewrite Hroot. apply replace_same.
Qed.

Lemma to_windows_path_fallback_witness :
  to_windows_path "/home/u/proj" "data/../a.csv" None = "/home/u/proj/a.csv"
  /\ to_windows_path "/" "mnt/c" (Some "") = "/mnt/c".
Proof.
  split.
  - apply (to_windows_path_fallback "/home/u/proj" "data/../a.csv" None);
      [reflexivity | left; vm_compute; reflexivity].
  - apply (to_windows_path_fallback "/" "mnt/c" (Some ""));
      [reflexivity | right; vm_compute; lia].
Defined.

Lemma rpartition_tail_free (sep : ascii) (s h t : string) :
  Str.rpartition sep s = Some (h, t) -> free_of sep t = true.
Proof.
  revert h t. induction s as [|c s IH]; simpl; intros h t H; [discriminate|].
  destruct (Str.rpartition sep s) as [[h0 t0]|] eqn:E.
  - injection H as <- <-. eapply IH. reflexivity.
  - destruct (Str.ascii_eqb c sep); [|discriminate]. injection H as <- <-.
    clear IH. unfold free_of. induction s as [|x s IHs]; [reflexivity|].
    simpl in E. destruct (Str.rpartition sep s) as [[? ?]|]; [discriminate|].
    simpl. destruct (Str.ascii_eqb x sep); [discriminate|]. simpl. apply IHs. reflexivity.
Qed.

(** X14: the filename that split_dir_filename_windows returns has no slash
    and is the end of the path, what precedes it being empty or ending in a
    slash; a path without a slash is all filename; and the directory is the
    one [os.path.split] gives, the replacement of slashes changing
    nothing. *)
Theorem split_dir_filename_windows_parts (win_path : string) :
  free_of "/" (split_dir_filename_windows win_path).2 = true
  /\ (exists head,
        win_path = head +:+ (split_dir_filename_windows win_path).2
        /\ (head = "" \/ Str.endswith_char "/" head = true))
  /\ (free_of "/" win_path = true -> split_dir_filename_windows win_path = ("", win_path))
  /\ (split_dir_filename_windows win_path).1 = (OsPath.split win_path).1.
Proof.
  unfold split_dir_filename_windows, OsPath.split, os_sep, OsPath.sep.
  destruct (Str.rpartition "/" win_path) as [[h t]|] eqn:E; cbn [fst snd].
  - split; [eapply rpartition_tail_free; eauto|]. split.
    + exists (h +:+ "/"). split.
      * rewrite append_assoc. apply rpartition_join. exact E.
      * right. unfold Str.endswith_char.
        rewrite last_char_append by discriminate. reflexivity.
    + split; [|apply replace_same].
      intros Hfree. rewrite (rpartition_absent _ _ Hfree) in E. discriminate.
  - split.
    + clear -E. unfold free_of. induction win_path as [|x s IH]; [reflexivity|].
      simpl in E. destruct (Str.rpartition "/" s) as [[? ?]|]; [discriminate|].
      simpl. destruct (Str.ascii_eqb x "/"); [discriminate|]. simpl. apply IH. reflexivity.
    + split; [exists ""; split; [reflexivity | left; reflexivity]|].
      split; reflexivity.
Qed.

Lemma split_dir_filename_windows_parts_witness :
  split_dir_filename_windows "leases.csv" = ("", "leases.csv").
Proof.
  apply (proj1 (proj2 (proj2 (split_dir_filename_windows_parts "leases.csv")))).
  reflexivity.
Defined.









(** ** Linking, once more *)

Lemma relink_group_shape ds_name ds_caption k :
  tag k <> "worksheets" -> relink_group ds_name ds_caption k = k.
Proof.
  intros H. unfold relink_group.
  destruct (ET.has_tag "worksheets" k) eqn:E; [|reflexivity].
  apply has_tag_true in E. congruence.
Qed.

(** X16: attach_datasource_to_all_worksheets changes nothing outside the
    worksheets elements.  The root keeps its tag, its attributes and the
    number of its children; a child with another tag than "worksheets" is
    left as it is, at its place; a worksheets child keeps its tag, its
    attributes and the number of its children; and the data source container
    is as before. *)
Theorem attach_only_touches_worksheets (root : Element) (ds_name ds_caption : string) :
  let root' := (attach_datasource_to_all_worksheets root ds_name ds_caption).1 in
  tag root' = tag root
  /\ attrib root' = attrib root
  /\ length (children root') = length (children root)
  /\ (forall i k, children root !! i = Some k ->
        exists k',
          children root' !! i = Some k'
          /\ tag k' = tag k /\ attrib k' = attrib k
          /\ length (children k') = length (children k)
          /\ (tag k <> "worksheets" -> k' = k))
  /\ ds_container_children root' = ds_container_children root.
Proof.
  intros root'. subst root'. rewrite attach_datasource_to_all_worksheets_map. cbn [fst].
  split; [reflexivity|]. split; [reflexivity|]. split; [apply length_map|]. split.
  - intros i k Hk. exists (relink_group ds_name ds_caption k). cbn [children].
    split; [change (List.map ?f ?l) with (f <$> l); rewrite list_lookup_fmap, Hk; reflexivity|].
    split; [apply tag_relink_group|].
    split; [unfold relink_group; destruct (ET.has_tag "worksheets" k); reflexivity|].
    split; [|apply relink_group_shape].
    unfold relink_group. destruct (ET.has_tag "worksheets" k); [|reflexivity].
    apply length_map.
  - pose proof (find_datasources_after_attach ds_name ds_caption root) as H.
    rewrite attach_datasource_to_all_worksheets_map in H. cbn [fst] in H.
    unfold ds_container_children. rewrite H. reflexivity.
Qed.

Lemma attach_worksheet_linked ds_name ds_caption ws :
  lacks_link ds_name ws = false ->
  attach_worksheet ds_name ds_caption ws = (ws, false).
Proof.
  intros H. destruct (attach_worksheet_spec ds_name ds_caption ws) as [_ Hs].
  unfold lacks_link in H. destruct (link_set ws) as [links|]; [|exact Hs].
  destruct (existsb (names_ds ds_name) links); [exact Hs | discriminate].
Qed.

Lemma relink_worksheets_linked ds_name ds_caption (kids : list Element) :
  (forall ws, In ws (List.filter (ET.has_tag "worksheet") kids) ->
              lacks_link ds_name ws = false) ->
  List.map (relink_worksheet ds_name ds_caption) kids = kids.
Proof.
  induction kids as [|k kids IH]; intros H; [reflexivity|].
  simpl in *. unfold relink_worksheet at 1.
  destruct (ET.has_tag "worksheet" k) eqn:E.
  - rewrite attach_worksheet_linked by (apply H; left; reflexivity).
    cbn [fst]. rewrite IH; [reflexivity|]. intros ws Hws. apply H. right. exact Hws.
  - rewrite IH; [reflexivity | exact H].
Qed.

Lemma relink_groups_linked ds_name ds_caption (kids : list Element) :
  (forall ws,
      In ws (List.concat (List.map (ET.findall "worksheet")
                            (List.filter (ET.has_tag "worksheets") kids))) ->
      lacks_link ds_name ws = false) ->
  List.map (relink_group ds_name ds_caption) kids = kids.
Proof.
  induction kids as [|k kids IH]; intros H; [reflexivity|].
  simpl in *. unfold relink_group at 1.
  destruct (ET.has_tag "worksheets" k) eqn:E.
  - simpl in H. rewrite relink_worksheets_linked.
    + rewrite elem_eta, IH; [reflexivity|].
      intros ws Hws. apply H. apply List.in_or_app. right. exact Hws.
    + intros ws Hws. apply H. apply List.in_or_app. left. exact Hws.
  - rewrite IH; [reflexivity | exact H].
Qed.

(** X17: after the call every worksheet that has a view holds a reference
    named ds_name; and a call on a workbook in which that is so changes
    nothing and returns 0, whatever the caption. *)
Theorem attach_links_all_and_then_nothing (root : Element) (ds_name ds_caption : string) :
  (forall ws,
      In ws (worksheets (attach_datasource_to_all_worksheets root ds_name ds_caption).1) ->
      lacks_link ds_name ws = false)
  /\ ((forall ws, In ws (worksheets root) -> lacks_link ds_name ws = false) ->
      attach_datasource_to_all_worksheets root ds_name ds_caption = (root, 0)).
Proof.
  split.
  - intros ws Hws. rewrite worksheets_after in Hws.
    apply List.in_map_iff in Hws as (ws0 & <- & _). apply lacks_link_after.
  - intros H. rewrite attach_datasource_to_all_worksheets_map. f_equal.
    + rewrite (relink_groups_linked _ _ _ H). apply elem_eta.
    + induction (worksheets root) as [|ws l IH]; [reflexivity|].
      simpl. rewrite (H ws (or_introl eq_refl)). apply IH.
      intros ws' Hws'. apply H. right. exact Hws'.
Qed.

Lemma attach_links_all_and_then_nothing_witness :
  attach_datasource_to_all_worksheets
    (attach_datasource_to_all_worksheets demo_workbook "textscan.1" "Leases").1
    "textscan.1" "Another caption"
  = ((attach_datasource_to_all_worksheets demo_workbook "textscan.1" "Leases").1, 0).
Proof.
  apply (proj2 (attach_links_all_and_then_nothing
                  (attach_datasource_to_all_worksheets demo_workbook "textscan.1" "Leases").1
                  "textscan.1" "Another caption")).
  intros ws Hws. vm_compute in Hws.
  destruct Hws as [<- | [<- | []]]; reflexivity.
Defined.

Lemma attach_only_touches_worksheets_witness :
  exists k',
    children (attach_datasource_to_all_worksheets demo_workbook "textscan.1" "Leases").1 !! 1
    = Some k'
    /\ tag k' = tag demo_container /\ attrib k' = attrib demo_container
    /\ length (children k') = length (children demo_container)
    /\ (tag demo_container <> "worksheets" -> k' = demo_container).
Proof.
  apply (proj1 (proj2 (proj2 (proj2
    (attach_only_touches_worksheets demo_workbook "textscan.1" "Leases")))) 1 demo_container).
  reflexivity.
Defined.

(** ** What add_textscan_datasource leaves of the root *)

Lemma filter_alter_first_other (t : string) (f : Element -> Element) (l : list Element) :
  (forall x, tag (f x) = tag x) ->
  List.filter (fun k => negb (ET.has_tag t k)) (ET.alter_first (ET.has_tag t) f l)
  = List.filter (fun k => negb (ET.has_tag t k)) l.
Proof.
  intros Hf. induction l as [|x l IH]; [reflexivity|].
  cbn [ET.alter_first]. destruct (ET.has_tag t x) eqn:E.
  - cbn [List.filter]. unfold ET.has_tag at 1. rewrite Hf. fold (ET.has_tag t x).
    rewrite E. reflexivity.
  - cbn [List.filter]. rewrite E, IH. reflexivity.
Qed.

Lemma filter_ensure_datasources_node (root : Element) :
  List.filter not_container (children (ensure_datasources_node root))
  = List.filter not_container (children root).
Proof.
  unfold ensure_datasources_node.
  destruct (ET.find "datasources" root); [reflexivity|].
  destruct (ET.index_of _ _) as [idx|]; unfold ET.insert; cbn [children].
  - rewrite List.filter_app.
    change (List.filter not_container (Elem "datasources" [] [] :: drop (idx + 1) (children root)))
      with (List.filter not_container (drop (idx + 1) (children root))).
    rewrite <- List.filter_app, take_drop. reflexivity.
  - reflexivity.
Qed.

Lemma filter_filter_implied (p q : Element -> bool) (l : list Element) :
  (forall x, p x = true -> q x = true) ->
  List.filter p (List.filter q l) = List.filter p l.
Proof.
  intros H. induction l as [|x l IH]; [reflexivity|]. simpl.
  destruct (q x) eqn:Eq; simpl; [rewrite IH; reflexivity|].
  destruct (p x) eqn:Ep; [rewrite (H x Ep) in Eq; discriminate | exact IH].
Qed.

Lemma add_textscan_datasource_tree env root csv_path cap wroot :
  exists f,
    (forall x, tag (f x) = tag x)
    /\ (add_textscan_datasource env root csv_path cap wroot).1
       = ET.alter_found "datasources" f (ensure_datasources_node root).
Proof.
  unfold add_textscan_datasource.
  destruct (csv_location env csv_path wroot) as [directory filename].
  destruct (update_first_match _ _ _ _ _) as [[kids r]|].
  - eexists. split; [|reflexivity]. reflexivity.
  - destruct (sample_csv_columns _ _ _) as [[headers types]|e].
    + eexists. split; [|reflexivity]. reflexivity.
    + exists (fun x => x). split; [reflexivity|]. cbn [fst].
      destruct (ET.find "datasources" (ensure_datasources_node root)) as [ds|] eqn:E.
      * symmetry. apply (alter_found_fixed _ _ _ ds E). reflexivity.
      * symmetry. apply alter_found_none. exact E.
Qed.

(** X18: add_textscan_datasource works on the data source container only.
    The root keeps its tag and attributes; its children other than
    datasources elements are the same, in the same order, whatever the call
    returns or raises; so the worksheets are the same; and a root that had
    the container keeps the number of its children. *)
Theorem add_textscan_datasource_keeps_the_rest env root csv_path cap wroot :
  let root' := (add_textscan_datasource env root csv_path cap wroot).1 in
  tag root' = tag root
  /\ attrib root' = attrib root
  /\ List.filter not_container (children root') = List.filter not_container (children root)
  /\ worksheets root' = worksheets root
  /\ (ET.find "datasources" root <> None ->
      length (children root') = length (children root)).
Proof.
  intros root'. subst root'.
  destruct (add_textscan_datasource_tree env root csv_path cap wroot) as (f & Hf & ->).
  assert (Htag : tag (ensure_datasources_node root) = tag root
                 /\ attrib (ensure_datasources_node root) = attrib root).
  { unfold ensure_datasources_node. destruct (ET.find "datasources" root); [auto|].
    destruct (ET.index_of _ _); auto. }
  assert (Hfilter : List.filter not_container
                      (children (ET.alter_found "datasources" f (ensure_datasources_node root)))
                    = List.filter not_container (children root)).
  { cbn [children ET.alter_found ET.with_children].
    unfold not_container. rewrite (filter_alter_first_other "datasources" f _ Hf).
    apply filter_ensure_datasources_node. }
  split; [apply Htag|]. split; [apply Htag|]. split; [exact Hfilter|]. split.
  - unfold worksheets, ET.findall2. f_equal. f_equal. unfold ET.findall.
    rewrite <- (filter_filter_implied (ET.has_tag "worksheets") not_container
                  (children (ET.alter_found _ _ _))).
    + rewrite Hfilter. apply filter_filter_implied.
      intros x Hx. apply has_tag_true in Hx. unfold not_container, ET.has_tag.
      rewrite Hx. reflexivity.
    + intros x Hx. apply has_tag_true in Hx. unfold not_container, ET.has_tag.
      rewrite Hx. reflexivity.
  - intros Hsome. destruct (ET.find "datasources" root) as [ds|] eqn:E; [|congruence].
    rewrite (ensure_datasources_node_present _ _ E).
    cbn [children ET.alter_found ET.with_children]. apply length_alter_first.
Qed.

Lemma add_textscan_datasource_keeps_the_rest_witness :
  length (children
            (add_textscan_datasource demo_env demo_workbook "data/leases.csv" None None).1)
  = length (children demo_workbook).
Proof.
  apply (proj2 (proj2 (proj2 (proj2
    (add_textscan_datasource_keeps_the_rest demo_env demo_workbook "data/leases.csv"
       None None))))).
  discriminate.
Defined.

(** ** backup_file and main, once more *)

(** X19: when backup_file has to copy and cannot read the workbook, that
    is with no backup file and the path missing or a directory, it raises
    and leaves the files as they are.  And a call that returned has settled
    the matter: the same call again finds the backup, returns the same path
    and leaves every file as it is. *)
Theorem backup_file_fails_or_settles (files : gmap string node) (path : string) :
  (files !! backup_path path = None ->
   files !! path = None \/ files !! path = Some Dir ->
   backup_file files path = (files, Raise OSError))
  /\ (forall backup,
        (backup_file files path).2 = Ok backup ->
        backup = backup_path path
        /\ exists_path (backup_file files path).1 backup = true
        /\ backup_file (backup_file files path).1 path = ((backup_file files path).1, Ok backup)).
Proof.
  unfold backup_file, exists_path. split.
  - intros -> [-> | ->]; reflexivity.
  - intros backup. destruct (files !! backup_path path) as [n|] eqn:E; cbn [negb fst snd].
    + intros [= <-]. rewrite E. auto.
    + destruct (files !! path) as [[content|]|]; cbn [fst snd]; try discriminate.
      intros [= <-]. rewrite lookup_insert_eq. auto.
Qed.

Lemma backup_file_fails_or_settles_witness :
  backup_file demo_files "nope.twb" = (demo_files, Raise OSError)
  /\ backup_file (backup_file demo_files "book.twb").1 "book.twb"
     = ((backup_file demo_files "book.twb").1, Ok "book.backup.twb").
Proof.
  split.
  - apply (proj1 (backup_file_fails_or_settles demo_files "nope.twb"));
      [vm_compute; reflexivity | left; vm_compute; reflexivity].
  - apply (proj2 (backup_file_fails_or_settles demo_files "book.twb") "book.backup.twb").
    vm_compute. reflexivity.
Defined.

Section MainMore.

Variable xml_parse : list Byte.byte -> option Element.
Variable xml_write : Element -> list Byte.byte.
Variable csv_reader : string -> list Byte.byte -> attempt.
Variable cwd : string.

Let run := main xml_parse xml_write csv_reader cwd.
Let env := env_of csv_reader cwd.

(** X20: main reads and writes two files only.  Whatever the arguments and
    however the run ends, a file other than the workbook and its backup is
    after the run what it was before; and unless the run exits with status 1
    the standard error is as before. *)
Theorem main_touches_two_files_only (uuid : string) (args : Namespace) (w : World) :
  (forall p, p <> workbook args -> p <> backup_path (workbook args) ->
             fs (run uuid args w).1 !! p = fs w !! p)
  /\ ((run uuid args w).2 <> SysExit 1 -> stderr (run uuid args w).1 = stderr w).
Proof.
  subst run. unfold main.
  destruct (negb (exists_path (fs w) (workbook args)));
    [split; [reflexivity | intros H; exfalso; apply H; reflexivity]|].
  destruct (negb (exists_path (fs w) (csv args)));
    [split; [reflexivity | intros H; exfalso; apply H; reflexivity]|].
  destruct (parse_file xml_parse (fs w) (workbook args)) as [root|e] eqn:Ep;
    [|split; reflexivity].
  destruct (parse_file_is_file _ _ _ _ Ep) as [content Hwb].
  destruct (backup_file_of_file _ _ _ Hwb) as (files & Hb & _ & Hother).
  rewrite Hb. cbn [fs with_fs].
  destruct (inject_and_attach _ _ _ _ _) as [root' [[[ds_name ds_caption] attached]|e1]].
  - split; [|reflexivity]. intros p Hp Hpb. cbn [fs fst print_out with_fs].
    rewrite lookup_insert_ne by congruence. apply Hother. exact Hpb.
  - split; [|reflexivity]. intros p Hp Hpb. cbn [fs fst with_fs]. apply Hother. exact Hpb.
Qed.

(** X21: with the CSV file there, a workbook that is there but cannot be
    parsed, being a directory or not well-formed, ends the run with that
    error before anything happens: no backup is made, nothing is written or
    printed. *)
Theorem main_unparsable_workbook
  (uuid : string) (args : Namespace) (w : World) (e : exn) :
  exists_path (fs w) (csv args) = true ->
  parse_file xml_parse (fs w) (workbook args) = Raise e ->
  exists_path (fs w) (workbook args) = true ->
  run uuid args w = (w, Uncaught e)
  /\ (e = OSError \/ e = ParseError)
  /\ (fs w !! workbook args = Some Dir -> e = OSError).
Proof.
  intros Hcsv Hparse Hwb. subst run. unfold main. rewrite Hwb, Hcsv, Hparse.
  split; [reflexivity|]. unfold parse_file in Hparse.
  destruct (fs w !! workbook args) as [[content|]|].
  - destruct (xml_parse content); [discriminate|]. injection Hparse as <-.
    split; [right; reflexivity | discriminate].
  - injection Hparse as <-. auto.
  - injection Hparse as <-. auto.
Qed.

(** X22: a run that gets through.  With both files there, the workbook
    parsed and the injection returned, main returns; the workbook file then
    holds what the XML layer writes for the final tree, the backup holds the
    workbook as it was unless there was a backup already, the three summary
    lines are added to the standard output, the second with the number of
    worksheets linked, and the standard error is as before. *)
Theorem main_success
  (uuid : string) (args : Namespace) (w : World)
  (root root' : Element) (ds_name ds_caption : string) (attached : nat) :
  exists_path (fs w) (csv args) = true ->
  parse_file xml_parse (fs w) (workbook args) = Ok root ->
  inject_and_attach (env uuid (backup_file (fs w) (workbook args)).1) root (csv args)
    (caption args) (windows_root args) = (root', Ok (ds_name, ds_caption, attached)) ->
  (run uuid args w).2 = Returned
  /\ fs (run uuid args w).1 !! workbook args = Some (File (xml_write root'))
  /\ fs (run uuid args w).1 !! backup_path (workbook args)
     = match fs w !! backup_path (workbook args) with
       | Some n => Some n
       | None => fs w !! workbook args
       end
  /\ stdout (run uuid args w).1
     = stdout w
         ++ ["Inserted datasource: " +:+ ds_caption +:+ " (" +:+ ds_name +:+ ")";
             "Attached to worksheets: " +:+ Str.of_nat attached;
             "Done. Open the workbook in Tableau to validate fields and set roles."]
  /\ stderr (run uuid args w).1 = stderr w.
Proof.
  intros Hcsv Hparse Hinject.
  destruct (parse_file_is_file _ _ _ _ Hparse) as [content Hwb].
  destruct (backup_file_of_file _ _ _ Hwb) as (files & Hb & Hbackup & _).
  rewrite Hb in Hinject. cbn [fst] in Hinject.
  subst run env. unfold main, exists_path in *. rewrite Hwb. cbn [negb].
  destruct (fs w !! csv args); [|discriminate]. cbn [negb].
  rewrite Hparse, Hb. cbn [fs with_fs]. rewrite Hinject. cbn [fst snd fs stdout stderr
    print_out with_fs].
  split; [reflexivity|]. split; [apply lookup_insert_eq|]. split.
  - rewrite lookup_insert_ne by (apply not_eq_sym, backup_path_differs).
    rewrite Hbackup. reflexivity.
  - split; [|reflexivity]. rewrite <- !app_assoc. reflexivity.
Qed.

End MainMore.

Lemma main_touches_two_files_only_witness :
  fs (demo_run demo_args demo_world).1 !! "data/leases.csv" = demo_files !! "data/leases.csv".
Proof.
  apply (proj1 (main_touches_two_files_only demo_parse demo_write demo_reader "/home/u/proj"
                  "0123456789abcdef0123456789abcdef" demo_args demo_world));
    discriminate.
Defined.

Lemma main_unparsable_workbook_witness :
  demo_run {| workbook := "data/empty.csv"; csv := "data/leases.csv"; caption := None;
              windows_root := None |} demo_world
  = (demo_world, Uncaught ParseError).
Proof.
  apply (main_unparsable_workbook demo_parse demo_write demo_reader "/home/u/proj"
           "0123456789abcdef0123456789abcdef"
           {| workbook := "data/empty.csv"; csv := "data/leases.csv"; caption := None;
              windows_root := None |} demo_world ParseError);
    vm_compute; reflexivity.
Defined.

Lemma main_success_witness :
  (demo_run demo_args demo_world).2 = Returned
  /\ fs (demo_run demo_args demo_world).1 !! "book.twb"
     = Some (File [Byte.x3c; Byte.x3f; Byte.x78; Byte.x6d; Byte.x6c])
  /\ fs (demo_run demo_args demo_world).1 !! "book.backup.twb"
     = Some (File [Byte.x3c; Byte.x77])
  /\ stdout (demo_run demo_args demo_world).1
     = ["Inserted datasource: Leases (textscan.0123456789abcdef0123456789abcd)";
        "Attached to worksheets: 1";
        "Done. Open the workbook in Tableau to validate fields and set roles."]
  /\ stderr (demo_run demo_args demo_world).1 = [].
Proof.
  apply (main_success demo_parse demo_write demo_reader "/home/u/proj"
           "0123456789abcdef0123456789abcdef" demo_args demo_world demo_workbook
           (inject_and_attach demo_env demo_workbook "data/leases.csv" (Some "Leases")
              (Some "C:\Users\u\proj")).1
           "textscan.0123456789abcdef0123456789abcd" "Leases" 1);
    vm_compute; reflexivity.
Defined.

(** ** Two runs of the tool *)

Lemma inject_and_attach_again env env' root csv_path cap wroot root1 r k :
  getcwd env' = getcwd env ->
  (csv_location env csv_path wroot).2 <> "" ->
  inject_and_attach env root csv_path cap wroot = (root1, Ok (r, k)) ->
  inject_and_attach env' root1 csv_path cap wroot = (root1, Ok (r, 0)).
Proof.
  intros Hcwd Hf Hrun.
  assert (Hloc : csv_location env' csv_path wroot = csv_location env csv_path wroot)
    by (unfold csv_location; rewrite Hcwd; reflexivity).
  unfold inject_and_attach in Hrun.
  destruct (add_textscan_datasource env root csv_path cap wroot) as [root0 [[n0 c0]|e]] eqn:Ea;
    [|discriminate].
  pose proof (attach_datasource_to_all_worksheets_again n0 c0 root0) as Hagain.
  pose proof (find_datasources_after_attach n0 c0 root0) as Hfind.
  destruct (attach_datasource_to_all_worksheets root0 n0 c0) as [root2 k0].
  injection Hrun as -> <- ->. cbn [fst] in Hagain, Hfind.
  destruct (add_textscan_datasource_settles _ _ _ _ _ _ _ Ea Hf) as (ds & Hds & Hm).
  unfold inject_and_attach.
  rewrite (add_textscan_datasource_settled env' root1 csv_path cap wroot ds (n0, c0)).
  - rewrite Hagain. reflexivity.
  - rewrite Hfind. exact Hds.
  - rewrite Hloc. apply Hm.
Qed.

Section TwoRuns.

Variable xml_parse : list Byte.byte -> option Element.
Variable xml_write : Element -> list Byte.byte.
Variable csv_reader : string -> list Byte.byte -> attempt.
Variable cwd : string.

Let run := main xml_parse xml_write csv_reader cwd.
Let env := env_of csv_reader cwd.

(** X23: the whole tool run twice.  Take a run that got through, on a CSV
    whose filename is not empty, and an XML layer that reads back the tree
    it wrote.  A second run with the same arguments in the same directory,
    under any uuid, returns as well; it leaves every file as the first run
    left it, the workbook and the backup included, and its summary names
    the same data source and reports 0 worksheets. *)
Theorem main_again_changes_no_file
  (uuid uuid' : string) (args : Namespace) (w : World)
  (root root1 : Element) (ds_name ds_caption : string) (attached : nat) :
  exists_path (fs w) (csv args) = true ->
  parse_file xml_parse (fs w) (workbook args) = Ok root ->
  inject_and_attach (env uuid (backup_file (fs w) (workbook args)).1) root (csv args)
    (caption args) (windows_root args) = (root1, Ok (ds_name, ds_caption, attached)) ->
  (csv_location (env uuid (fs w)) (csv args) (windows_root args)).2 <> "" ->
  xml_parse (xml_write root1) = Some root1 ->
  let w1 := (run uuid args w).1 in
  (run uuid' args w1).2 = Returned
  /\ fs (run uuid' args w1).1 = fs w1
  /\ stdout (run uuid' args w1).1
     = stdout w1
         ++ ["Inserted datasource: " +:+ ds_caption +:+ " (" +:+ ds_name +:+ ")";
             "Attached to worksheets: 0";
             "Done. Open the workbook in Tableau to validate fields and set roles."].
Proof.
  intros Hcsv Hparse Hinject Hf Hback w1.
  destruct (parse_file_is_file _ _ _ _ Hparse) as [content Hwb].
  destruct (backup_file_of_file _ _ _ Hwb) as (files & Hb & Hbackup & Hother).
  destruct (main_after_parse xml_parse xml_write csv_reader cwd uuid args w root Hcsv Hparse)
    as (files0 & Hb0 & Hrun1).
  rewrite Hb in Hb0, Hinject. injection Hb0 as <-. cbn [fst] in Hinject.
  fold env in Hrun1. rewrite Hinject in Hrun1. destruct Hrun1 as (_ & Hfs1 & _).
  fold run in Hfs1. fold w1 in Hfs1.
  assert (Hwb1 : fs w1 !! workbook args = Some (File (xml_write root1)))
    by (rewrite Hfs1; apply lookup_insert_eq).
  assert (Hcsv1 : exists_path (fs w1) (csv args) = true).
  { unfold exists_path. rewrite Hfs1.
    destruct (decide (workbook args = csv args)) as [->|Hne].
    - rewrite lookup_insert_eq. reflexivity.
    - rewrite lookup_insert_ne by exact Hne.
      pose proof (backup_file_other (fs w) (workbook args) (csv args) Hcsv) as Hsame.
      rewrite Hb in Hsame. cbn [fst] in Hsame. rewrite Hsame. exact Hcsv. }
  assert (Hparse1 : parse_file xml_parse (fs w1) (workbook args) = Ok root1)
    by (unfold parse_file; rewrite Hwb1, Hback; reflexivity).
  assert (Hb1 : backup_file (fs w1) (workbook args) = (fs w1, Ok (backup_path (workbook args)))).
  { unfold backup_file, exists_path. rewrite Hfs1.
    rewrite lookup_insert_ne by (apply not_eq_sym, backup_path_differs).
    rewrite Hbackup. destruct (fs w !! backup_path (workbook args)); reflexivity. }
  destruct (main_after_parse xml_parse xml_write csv_reader cwd uuid' args w1 root1
              Hcsv1 Hparse1) as (files1 & Hb1' & Hrun2).
  rewrite Hb1 in Hb1'. injection Hb1' as <-.
  fold env in Hrun2.
  rewrite (inject_and_attach_again (env uuid files) (env uuid' (fs w1)) root (csv args)
             (caption args) (windows_root args) root1 (ds_name, ds_caption) attached
             eq_refl Hf Hinject) in Hrun2.
  destruct Hrun2 as (Hret & Hfs2 & Hout). fold run in Hret, Hfs2, Hout.
  split; [exact Hret|]. split; [|exact Hout].
  rewrite Hfs2. apply insert_id. exact Hwb1.
Qed.

End TwoRuns.

Lemma main_again_changes_no_file_witness :
  let run := main demo_parse_back demo_write demo_reader "/home/u/proj" in
  let w1 := (run "0123456789abcdef0123456789abcdef" demo_args demo_world).1 in
  (run "fedcba9876543210fedcba9876543210" demo_args w1).2 = Returned
  /\ fs (run "fedcba9876543210fedcba9876543210" demo_args w1).1 = fs w1
  /\ stdout (run "fedcba9876543210fedcba9876543210" demo_args w1).1
     = stdout w1
         ++ ["Inserted datasource: Leases (textscan.0123456789abcdef0123456789abcd)";
             "Attached to worksheets: 0";
             "Done. Open the workbook in Tableau to validate fields and set roles."].
Proof.
  apply (main_again_changes_no_file demo_parse_back demo_write demo_reader "/home/u/proj"
           "0123456789abcdef0123456789abcdef" "fedcba9876543210fedcba9876543210"
           demo_args demo_world demo_workbook demo_first_tree
           "textscan.0123456789abcdef0123456789abcd" "Leases" 1).
  - vm_compute. reflexivity.
  - vm_compute. reflexivity.
  - vm_compute. reflexivity.
  - vm_compute. discriminate.
  - vm_compute. reflexivity.
Defined.

(** ** A CSV read without error *)

(** X24: when utf-8, the first encoding tried, reads a header row with at
    least one cell and then the rows to the end without error, the sampler
    returns; no other encoding counts.  The headers are the header cells
    with the blank ones named, there is one type per header, and the type
    of column j is guess_type of the stripped cells of column j in the
    first max_rows rows, each row cut or filled with empty cells to the
    header count. *)
Theorem sample_csv_columns_of_clean_read
  (read : string -> string -> attempt) (csv_path : string) (max_rows : nat)
  (raw : list string) (rows : list (list string)) :
  raw <> [] ->
  read csv_path "utf-8" = Read raw rows true ->
  exists types,
    sample_csv_columns read csv_path max_rows = Ok (fix_headers raw, types)
    /\ length types = length raw
    /\ forall j, j < length raw ->
         types !! j
         = Some (guess_type
                   (stripped_column j
                      (List.map (pad_row (length raw)) (take max_rows rows)))).
Proof.
  intros Hraw Hread.
  destruct (sample_csv_columns_clean read csv_path max_rows raw rows Hraw Hread)
    as (types & Hrun & Hlen).
  exists types. split; [exact Hrun|]. split; [exact Hlen|].
  intros j Hj.
  exact (sample_csv_columns_clean_types read csv_path max_rows raw rows types j
           Hread Hrun Hj).
Qed.

Lemma sample_csv_columns_of_clean_read_witness :
  exists types,
    sample_csv_columns demo_read "data/leases.csv" 1 = Ok (["id"; "col_1"; "label"], types)
    /\ length types = 3
    /\ forall j, j < 3 ->
         types !! j
         = Some (guess_type
                   (stripped_column j
                      (List.map (pad_row 3)
                         (take 1 [["1"; "2.5"; "a"]; ["2"; "3.5"]])))).
Proof.
  apply (sample_csv_columns_of_clean_read demo_read "data/leases.csv" 1
           ["id"; ""; "label"] [["1"; "2.5"; "a"]; ["2"; "3.5"]]).
  - discriminate.
  - reflexivity.
Defined.

(** * Running on a workbook that holds a data source for the file *)

Lemma first_match {A : Type} (p : A -> bool) (l : list A) :
  existsb p l = true ->
  exists i x,
    l !! i = Some x /\ p x = true
    /\ forall j y, j < i -> l !! j = Some y -> p y = false.
Proof.
  induction l as [|a l IH]; [discriminate|]. cbn [existsb]. intros H.
  destruct (p a) eqn:Ea.
  - exists 0, a. split; [reflexivity|]. split; [exact Ea|]. intros j y Hj. lia.
  - destruct (IH H) as (i & x & Hi & Hx & Hbefore).
    exists (S i), x. split; [exact Hi|]. split; [exact Hx|].
    intros [|j] y Hj Hy.
    + injection Hy as <-. exact Ea.
    + apply (Hbefore j y); [lia | exact Hy].
Qed.

Lemma filter_insert_alike {A : Type} (p : A -> bool) (l : list A) (i : nat) (x x' : A) :
  l !! i = Some x -> p x' = p x ->
  length (List.filter p (<[i := x']> l)) = length (List.filter p l).
Proof.
  revert i. induction l as [|a l IH]; intros [|i] Hi Hp; try discriminate.
  - injection Hi as ->. cbn [List.filter]. change (<[0 := x']> (x :: l)) with (x' :: l).
    cbn [List.filter]. rewrite Hp. destruct (p x); reflexivity.
  - change (<[S i := x']> (a :: l)) with (a :: <[i := x']> l). cbn [List.filter].
    destruct (p a); cbn [length]; rewrite (IH i Hi Hp); reflexivity.
Qed.

(** The injection leaves the worksheets as they are. *)
Lemma worksheets_add_textscan_datasource env root csv_path cap wroot :
  worksheets (add_textscan_datasource env root csv_path cap wroot).1 = worksheets root.
Proof.
  destruct (add_textscan_datasource_tree env root csv_path cap wroot) as (f & Hf & ->).
  assert (Hfilter : List.filter not_container
                      (children (ET.alter_found "datasources" f (ensure_datasources_node root)))
                    = List.filter not_container (children root)).
  { cbn [children ET.alter_found ET.with_children].
    unfold not_container. rewrite (filter_alter_first_other "datasources" f _ Hf).
    apply filter_ensure_datasources_node. }
  assert (Himp : forall x, ET.has_tag "worksheets" x = true -> not_container x = true).
  { intros x Hx. apply has_tag_true in Hx. unfold not_container, ET.has_tag.
    rewrite Hx. reflexivity. }
  unfold worksheets, ET.findall2. f_equal. f_equal. unfold ET.findall.
  rewrite <- (filter_filter_implied (ET.has_tag "worksheets") not_container
                (children (ET.alter_found _ _ _))) by exact Himp.
  rewrite Hfilter. apply filter_filter_implied. exact Himp.
Qed.

Lemma truthy_name_non_empty (o : option string) :
  truthy o = true -> default "" o <> "".
Proof.
  destruct o as [[|c s]|]; simpl; congruence.
Qed.

(** C1: a run on a workbook that holds a textscan data source for the CSV's
    filename.  The run returns, and it updates the first such data source
    in place: the container has the updated element where that one was and
    is otherwise as before, so that nothing is appended and the number of
    data sources for the filename is the same.  The name returned is the
    name the updated element carries; it is the element's own name when it
    had a non-empty one, and else the generated name, which is then set.
    One link is added for each worksheet that has a view whose link set
    lacks that name: the number of links is 0 when every link set already
    contains it, and after the run every link set contains it.  So a run on
    the workbook that this run leaves, or on one that an earlier run with
    the same arguments in the same directory left, changes nothing in the
    tree, returns the same name and caption and adds zero links. *)
Theorem rerun_updates_in_place env root csv_path cap wroot :
  let filename := (csv_location env csv_path wroot).2 in
  let before := ds_container_children root in
  let run := inject_and_attach env root csv_path cap wroot in
  existsb (is_source_for filename) before = true ->
  exists (i : nat) (k k' : Element) (name caption : string) (attached : nat),
    (before !! i = Some k
     /\ is_source_for filename k = true
     /\ forall j kj, j < i -> before !! j = Some kj -> is_source_for filename kj = false)
    /\ run.2 = Ok (name, caption, attached)
    /\ (ds_container_children run.1 = <[i := k']> before
        /\ is_source_for filename k' = true
        /\ length (List.filter (is_source_for filename) (ds_container_children run.1))
           = length (List.filter (is_source_for filename) before))
    /\ (ET.get "name" k' = Some name
        /\ name <> ""
        /\ (forall n, ET.get "name" k = Some n -> n <> "" -> name = n)
        /\ (ET.get "name" k = None \/ ET.get "name" k = Some "" ->
            name = "textscan." +:+ Str.take 30 (uuid4_hex env)))
    /\ (attached = length (List.filter (lacks_link name) (worksheets root))
        /\ worksheets run.1
           = List.map (fun ws => (attach_worksheet name caption ws).1) (worksheets root)
        /\ Forall (fun ws => lacks_link name ws = false) (worksheets run.1)
        /\ (Forall (fun ws => lacks_link name ws = false) (worksheets root) ->
            attached = 0 /\ worksheets run.1 = worksheets root))
    /\ (forall env', getcwd env' = getcwd env ->
          inject_and_attach env' run.1 csv_path cap wroot = (run.1, Ok (name, caption, 0)))
    /\ (forall env0 root0 r0, getcwd env0 = getcwd env ->
          inject_and_attach env0 root0 csv_path cap wroot = (root, Ok r0) ->
          run = (root, Ok (r0.1, 0))).
Proof.
  intros filename before run Hex.
  destruct (first_match _ _ Hex) as (i & k & Hi & Hk & Hfirst).
  assert (Hf : filename <> "") by (eapply is_source_for_non_empty; eauto).
  pose proof (caption_or_non_empty cap filename Hf) as Hcap.
  set (generated := "textscan." +:+ Str.take 30 (uuid4_hex env)).
  set (directory := (csv_location env csv_path wroot).1).
  set (caption := caption_or cap filename).
  set (name := if truthy (ET.get "name" k) then default "" (ET.get "name" k) else generated).
  set (k' := (update_existing directory filename caption generated k).1).
  destruct (add_textscan_datasource_on_match env root csv_path cap wroot i k Hi Hk Hfirst
              (read_csv env)) as (Hr & Hkids & Hsame).
  rewrite Hsame in Hr, Hkids.
  fold filename directory caption generated k' before in Hr, Hkids.
  destruct (update_existing_shape directory filename caption generated k Hcap)
    as (_ & _ & _ & _ & Hname & Hret & _).
  fold k' name in Hname, Hret. rewrite Hret in Hr.
  set (root0 := (add_textscan_datasource env root csv_path cap wroot).1) in *.
  assert (Hadd : add_textscan_datasource env root csv_path cap wroot
                 = (root0, Ok (name, caption)))
    by (rewrite <- Hr; subst root0; apply surjective_pairing).
  assert (Hws0 : worksheets root0 = worksheets root)
    by apply worksheets_add_textscan_datasource.
  set (attached := length (List.filter (lacks_link name) (worksheets root))).
  assert (Hrun : run = ((attach_datasource_to_all_worksheets root0 name caption).1,
                        Ok (name, caption, attached))).
  { subst run. unfold inject_and_attach. rewrite Hadd.
    rewrite (attach_datasource_to_all_worksheets_map name caption root0).
    cbn [fst]. rewrite Hws0. reflexivity. }
  assert (Hkids1 : ds_container_children run.1 = <[i := k']> before).
  { rewrite Hrun. cbn [fst]. unfold ds_container_children.
    rewrite find_datasources_after_attach. exact Hkids. }
  assert (Hk' : is_source_for filename k' = true)
    by (apply update_existing_still_source; exact Hk).
  assert (Hws1 : worksheets run.1
                 = List.map (fun ws => (attach_worksheet name caption ws).1) (worksheets root)).
  { rewrite Hrun. cbn [fst]. rewrite worksheets_after, Hws0. reflexivity. }
  assert (Hagain : forall env', getcwd env' = getcwd env ->
            inject_and_attach env' run.1 csv_path cap wroot
            = (run.1, Ok (name, caption, 0))).
  { intros env' Hcwd.
    apply (inject_and_attach_again env env' root csv_path cap wroot run.1
             (name, caption) attached Hcwd Hf).
    change (run = (run.1, Ok (name, caption, attached))). rewrite Hrun. reflexivity. }
  exists i, k, k', name, caption, attached.
  split; [auto|]. split; [rewrite Hrun; reflexivity|]. split.
  { split; [exact Hkids1|]. split; [exact Hk'|].
    rewrite Hkids1. apply (filter_insert_alike _ _ _ k); [exact Hi | congruence]. }
  split.
  { split; [exact Hname|]. subst name. split; [|split].
    - destruct (truthy (ET.get "name" k)) eqn:Et.
      + apply truthy_name_non_empty. exact Et.
      + subst generated. discriminate.
    - intros n Hn Hne. rewrite Hn. destruct n; [congruence | reflexivity].
    - intros [-> | ->]; reflexivity. }
  split.
  { split; [reflexivity|]. split; [exact Hws1|]. split.
    - rewrite Hws1. apply Forall_forall. intros ws Hin.
      apply list_elem_of_In, List.in_map_iff in Hin as (ws0 & <- & _).
      apply lacks_link_after.
    - intros Hall. assert (Hmap : List.map (fun ws => (attach_worksheet name caption ws).1)
                                    (worksheets root) = worksheets root).
      { clear -Hall. induction Hall as [|ws l Hw _ IH]; [reflexivity|].
        cbn [List.map]. rewrite (attach_worksheet_linked name caption ws Hw), IH.
        reflexivity. }
      split; [|rewrite Hws1; exact Hmap].
      subst attached. clear -Hall. induction Hall as [|ws l Hw _ IH]; [reflexivity|].
      cbn [List.filter]. rewrite Hw. exact IH. }
  split; [exact Hagain|].
  intros env0 root0' r0 Hcwd Hrun0. destruct r0 as [r0 n0].
  apply (inject_and_attach_again env0 env root0' csv_path cap wroot root r0 n0);
    [symmetry; exact Hcwd | | exact Hrun0].
  replace (csv_location env0 csv_path wroot) with (csv_location env csv_path wroot);
    [exact Hf|].
  unfold csv_location. rewrite Hcwd. reflexivity.
Qed.

Lemma rerun_updates_in_place_witness :
  exists (i : nat) (k k' : Element) (name caption : string) (attached : nat),
    ds_container_children demo_first_tree !! i = Some k
    /\ (inject_and_attach demo_env_later demo_first_tree "data/leases.csv" (Some "Leases")
          (Some "C:\Users\u\proj")).2 = Ok (name, caption, attached)
    /\ ds_container_children
         (inject_and_attach demo_env_later demo_first_tree "data/leases.csv" (Some "Leases")
            (Some "C:\Users\u\proj")).1
       = <[i := k']> (ds_container_children demo_first_tree)
    /\ ET.get "name" k' = Some name
    /\ (forall n, ET.get "name" k = Some n -> n <> "" -> name = n)
    /\ attached = length (List.filter (lacks_link name) (worksheets demo_first_tree)).
Proof.
  destruct (rerun_updates_in_place demo_env_later demo_first_tree "data/leases.csv"
              (Some "Leases") (Some "C:\Users\u\proj"))
    as (i & k & k' & name & caption & attached
        & (Hi & _) & Hrun & (Hkids & _) & (Hname & _ & Hown & _) & (Hattached & _) & _).
  - vm_compute. reflexivity.
  - exists i, k, k', name, caption, attached. auto 10.
Defined.

(** Holding a data source for the file is not enough for a run to add no
    link, or to return the name that the data source had.
    [demo_unlinked_workbook] holds a textscan data source for leases.csv,
    which has a name; the run returns that name, and yet adds a link, to the
    worksheet whose link set lacks it.  [demo_stale_workbook] holds such a
    data source without a name: the name returned is the generated one, and
    a link is added as well. *)
Lemma rerun_on_unlinked_workbook_adds_a_link :
  (csv_location demo_env "data/leases.csv" (Some "C:\Users\u\proj")).2 = "leases.csv"
  /\ (existsb (is_source_for "leases.csv") (ds_container_children demo_unlinked_workbook) = true
      /\ List.map (fun k => ET.get "name" k) (ds_container_children demo_unlinked_workbook)
         = [Some "textscan.old"]
      /\ List.map (lacks_link "textscan.old") (worksheets demo_unlinked_workbook) = [true]
      /\ (inject_and_attach demo_env demo_unlinked_workbook "data/leases.csv" (Some "Leases")
            (Some "C:\Users\u\proj")).2
         = Ok ("textscan.old", "Leases", 1))
  /\ (existsb (is_source_for "leases.csv") (ds_container_children demo_stale_workbook) = true
      /\ List.map (fun k => ET.get "name" k)
           (List.filter (is_source_for "leases.csv") (ds_container_children demo_stale_workbook))
         = [Some ""; Some "textscan.second"]
      /\ (inject_and_attach demo_env demo_stale_workbook "data/leases.csv" (Some "Leases")
            (Some "C:\Users\u\proj")).2
         = Ok ("textscan.0123456789abcdef0123456789abcd", "Leases", 1)).
Proof.
  vm_compute. repeat split.
Qed.

(** ** Worked examples *)

Example guess_type_blank_is_not_a_number :
  guess_type ["1"; " "; ""; "-3"] = "string".
Proof. vm_compute. reflexivity. Qed.

Example guess_type_integers : guess_type ["1"; ""; "-3"; "+40"] = "integer".
Proof. vm_compute. reflexivity. Qed.

Example guess_type_reals : guess_type ["1"; "2.5"; ".5e-3"; "1."; "-7E+2"] = "real".
Proof. vm_compute. reflexivity. Qed.

Example guess_type_lone_dot : guess_type ["1"; "2.5"; "."] = "string".
Proof. vm_compute. reflexivity. Qed.

Example patterns_on_samples :
  List.map (fun s => (is_int s, is_real s))
    ["1"; "-3"; "+40"; "2.5"; ".5e-3"; "1."; "-7E+2"; "."; "1e5"; "e5"; ""; "+"; "1.5.2"]
  = [(true, true); (true, true); (true, true); (false, true); (false, true);
     (false, true); (false, true); (false, false); (false, true); (false, false);
     (false, false); (false, false); (false, false)].
Proof. vm_compute. reflexivity. Qed.

Example split_keeps_empty_segments :
  Str.split "/"%char "/mnt/c//x" = [""; "mnt"; "c"; ""; "x"].
Proof. vm_compute. reflexivity. Qed.

Example strip_both_ends : Str.strip (chars [32; 9; 97; 32; 98; 10; 160]) = "a b".
Proof. vm_compute. reflexivity. Qed.

Example of_nat_decimal : Str.of_nat 0 = "0" /\ Str.of_nat 120 = "120".
Proof. vm_compute. split; reflexivity. Qed.

Example normpath_cases :
  OsPath.normpath "//a/../../b/" = "//b"
  /\ OsPath.normpath "a/../.." = ".."
  /\ OsPath.normpath "///a" = "/a"
  /\ OsPath.normpath "./" = ".".
Proof. vm_compute. repeat split; reflexivity. Qed.

Example split_cases :
  OsPath.split "/" = ("/", "")
  /\ OsPath.split "//a" = ("//", "a")
  /\ OsPath.split "a//b" = ("a", "b")
  /\ OsPath.split "ab" = ("", "ab").
Proof. vm_compute. repeat split; reflexivity. Qed.

Example splitext_cases :
  OsPath.splitext "/a.b/.bashrc" = ("/a.b/.bashrc", "")
  /\ OsPath.splitext "a/b.tar.GZ" = ("a/b.tar", ".GZ")
  /\ OsPath.splitext "..x.y" = ("..x", ".y")
  /\ OsPath.splitext "...y" = ("...y", "").
Proof. vm_compute. repeat split; reflexivity. Qed.

Example to_windows_path_relative_under_mount :
  to_windows_path "/mnt/c" "Users/./y/../x" None = "C:/Users/x".
Proof. vm_compute. reflexivity. Qed.

Example to_windows_path_with_root :
  to_windows_path "/home/u/proj" "data/a/b.csv" (Some "C:\Users\r")
  = "C:\Users\r/data/a/b.csv".
Proof. vm_compute. reflexivity. Qed.

Example to_windows_path_escaping_the_cwd :
  to_windows_path "/home/u/proj" "../a/b.csv" (Some "C:\Users\r") = "/home/u/a/b.csv".
Proof. vm_compute. reflexivity. Qed.

Example make_table_attr_sales : make_table_attr "Sales_Q1.csv" = "[Sales_Q1#csv]".
Proof. vm_compute. reflexivity. Qed.

Example backup_path_cases :
  backup_path "Tableau Notebooks/Default Workbook.twb"
  = "Tableau Notebooks/Default Workbook.backup.twb"
  /\ backup_path "book" = "book.backup".
Proof. vm_compute. split; reflexivity. Qed.

Example scenario_end_to_end :
  let parse := fun _ : list Byte.byte => Some scenario_workbook in
  let '(w, o) := main parse demo_write scenario_reader "/home/u/proj"
                   "0123456789abcdef0123456789abcdef" scenario_args demo_world in
  o = Returned
  /\ stdout w
     = ["Inserted datasource: leases.csv (textscan.0123456789abcdef0123456789abcd)";
        "Attached to worksheets: 1";
        "Done. Open the workbook in Tableau to validate fields and set roles."]
  /\ sample_csv_columns (fun _ encoding => scenario_reader encoding []) "data/leases.csv" 500
     = Ok (["id"; "value"; "label"], ["integer"; "real"; "string"])
  /\ length (ds_container_children
               (add_textscan_datasource
                  {| getcwd := "/home/u/proj"; uuid4_hex := "0123456789abcdef0123456789abcdef";
                     read_csv := fun _ encoding => scenario_reader encoding [] |}
                  scenario_workbook "data/leases.csv" None None).1) = 1.
Proof. vm_compute. repeat split; reflexivity. Qed.
